(** * FacultyRate: rating extraction and aggregate maintenance

    A shallow embedding of the rating engine of the FacultyRate
    repository:

    - [App]: the regular-expression extraction of [app.py]
      ([analyze_feedback], [analyze_images_with_gemini]);
    - [Models]: the [Faculty] and [Review] rows of [models.py] and the
      [average_ratings] property;
    - [Api]: the routes of [api.py] that create, read, delete and
      consolidate rows, together with [update_faculty_ratings];
    - [Pipeline]: the [/analyze] route of [app.py] over the store;
    - [Cleanup]: the script [cleanup_db.py];
    - [Spec]: the filtered view in the words of the specification, to
      compare [average_ratings] with.

    Conventions of the embedding.

    - Python floats are read as exact rationals ([Q]); [statistics.mean],
      [sum(..)/len(..)] and [round(.., 2)] are the exact operations.
      Where the digits of a result are the matter, the arithmetic is
      that of the interpreter, [binary64]: a value is the rational that
      a double holds, and every operation returns the double nearest
      to the exact result ([fl]).
    - Text is a [string] of 8-bit code points.  On that range [\d] is
      [0-9], [\s] is the set for which [str.isspace] holds and
      [re.IGNORECASE] relates a letter to its ASCII case variant only.
    - The database is a pair of tables kept in rowid order, and a query
      without [order_by] returns rows in that order.  A session
      persists the attribute writes and deletions of the route, and,
      when a faculty row is deleted, what the unit of work adds on the
      flush: the relationship [Faculty.reviews] has no delete cascade,
      so the reviews in the loaded collection of the row get the
      foreign key [NULL].  Every route commits before it calls another
      function, so one store value is threaded through.
    - A raised exception is [None] in an [option]-valued function. *)

From Stdlib Require Import List String Ascii Bool Arith ZArith QArith Qround Lia.
From Stdlib Require Import Qabs Sorted Lqa Permutation.
Import ListNotations.

Local Close Scope Q_scope.
Local Open Scope string_scope.

(* ================================================================== *)
(** ** Small option monad for code that may raise *)

Definition bind {A B} (x : option A) (f : A -> option B) : option B :=
  match x with
  | Some a => f a
  | None => None
  end.

Notation "x <- e ;; k" := (bind e (fun x => k))
  (at level 61, e at next level, right associativity).

(* ================================================================== *)
(** ** Arithmetic on ratings *)

(** [sum(xs)]: Python adds from the integer [0], left to right. *)
Definition py_sum (xs : list Q) : Q := fold_left Qplus xs 0%Q.

Definition len_Q {A} (xs : list A) : Q := inject_Z (Z.of_nat (List.length xs)).

(** [statistics.mean]: raises [StatisticsError] on an empty list. *)
Definition mean (xs : list Q) : option Q :=
  match xs with
  | [] => None
  | _ :: _ => Some (py_sum xs / len_Q xs)%Q
  end.

(** Nearest integer, ties to the even neighbour. *)
Definition round_half_even (x : Q) : Z :=
  let f := Qfloor x in
  match ((x - inject_Z f) ?= (1 # 2))%Q with
  | Lt => f
  | Gt => (f + 1)%Z
  | Eq => if Z.even f then f else (f + 1)%Z
  end.

(** [round(x, 2)]. *)
Definition round2 (x : Q) : Q :=
  (inject_Z (round_half_even (x * 100)) / 100)%Q.

(** *** Doubles

    A Python float is an IEEE 754 double: a rational [m * 2 ^ e] with
    a significand [m] of at most 53 bits and [e] not below -1074.
    Every operation on floats returns the double nearest to the exact
    result, the one with the even significand when two are equally
    near.  The values are far from the largest double, and overflow
    is not modelled; neither is the sign of zero. *)

(** The integer part of the binary logarithm of a positive rational. *)
Definition ilog2 (x : Q) : Z :=
  let e := (Z.log2 (Qnum x) - Z.log2 (Zpos (Qden x)))%Z in
  if Qle_bool (2 ^ e) x then e else (e - 1)%Z.

(** The double nearest to a rational. *)
Definition fl (x : Q) : Q :=
  if Qeq_bool x 0 then 0%Q
  else
    let a := Qabs x in
    let e := Z.max (ilog2 a - 52) (-1074) in
    let y := (inject_Z (round_half_even (a / 2 ^ e)) * 2 ^ e)%Q in
    Qred (if Qle_bool 0 x then y else (- y)%Q).

(** The three operations of the view [average_ratings]: [x + y],
    [x / y] and [round(x, 2)]. *)
Record Arith := mkArith {
  ar_add : Q -> Q -> Q;
  ar_div : Q -> Q -> Q;
  ar_round : Q -> Q
}.

(** The operations on rationals. *)
Definition exact : Arith := mkArith Qplus Qdiv round2.

(** The operations of the interpreter.  A divisor that is an [int] is
    converted to a float first; [round(x, 2)] returns the double
    nearest to the decimal number with two places that is nearest to
    the exact value of [x], the even one at a tie. *)
Definition binary64 : Arith :=
  mkArith (fun x y => fl (x + y)) (fun x y => fl (x / fl y))
    (fun x => fl (round2 x)).

(* ================================================================== *)
(** ** app.py: the extractor *)

Module App.

(** *** Character classes *)

Definition code (c : ascii) : nat := nat_of_ascii c.

(** [\d] *)
Definition is_digit (c : ascii) : bool :=
  ((48 <=? code c) && (code c <=? 57))%nat.

(** [\s] on code points below 256: tab, LF, VT, FF, CR, the four
    separators 0x1c-0x1f, space, NEL and the no-break space. *)
Definition is_space (c : ascii) : bool :=
  let n := code c in
  (((9 <=? n) && (n <=? 13)) || ((28 <=? n) && (n <=? 32))
   || (n =? 133) || (n =? 160))%nat.

(** [[\d.]] *)
Definition is_digit_or_dot (c : ascii) : bool :=
  is_digit c || (code c =? 46)%nat.

(** [.] without [re.DOTALL]: anything but a line feed. *)
Definition is_dot (c : ascii) : bool := negb (code c =? 10)%nat.

Definition lower (c : ascii) : ascii :=
  let n := code c in
  if ((65 <=? n) && (n <=? 90))%nat then ascii_of_nat (n + 32) else c.

(** A literal character under [re.IGNORECASE]. *)
Definition ci (c : ascii) : ascii -> bool :=
  fun x => Ascii.eqb (lower x) (lower c).

(** *** A backtracking matcher

    A pattern is a sequence of quantified character classes; one of
    them may be the capturing group.  The matcher explores the
    alternatives in the order of Python's [re]: a greedy repetition
    tries the longest run first and gives characters back one at a
    time, a lazy one tries the shortest first.  The result is the text
    captured by group 1 on the first successful path. *)

Inductive quant := Once | Star | Plus | LazyStar.

Record atom := Atom {
  a_class : ascii -> bool;
  a_quant : quant;
  a_group : bool
}.

Definition regex := list atom.

Definition keep (grp : bool) (c : ascii) (r : string) : string :=
  if grp then String c r else r.

Fixpoint greedy_star (cls : ascii -> bool) (grp : bool)
    (k : string -> option string) (s : string) : option string :=
  match s with
  | String c s' =>
      if cls c then
        match greedy_star cls grp k s' with
        | Some r => Some (keep grp c r)
        | None => k s
        end
      else k s
  | EmptyString => k s
  end.

Fixpoint lazy_star (cls : ascii -> bool) (grp : bool)
    (k : string -> option string) (s : string) : option string :=
  match k s with
  | Some r => Some r
  | None =>
      match s with
      | String c s' =>
          if cls c then option_map (keep grp c) (lazy_star cls grp k s')
          else None
      | EmptyString => None
      end
  end.

Definition once (cls : ascii -> bool) (grp : bool)
    (k : string -> option string) (s : string) : option string :=
  match s with
  | String c s' => if cls c then option_map (keep grp c) (k s') else None
  | EmptyString => None
  end.

Fixpoint match_here (p : regex) : string -> option string :=
  match p with
  | [] => fun _ => Some ""
  | a :: p' =>
      match a_quant a with
      | Once => once (a_class a) (a_group a) (match_here p')
      | Star => greedy_star (a_class a) (a_group a) (match_here p')
      | Plus =>
          once (a_class a) (a_group a)
            (greedy_star (a_class a) (a_group a) (match_here p'))
      | LazyStar => lazy_star (a_class a) (a_group a) (match_here p')
      end
  end.

(** [re.search(p, s)] followed by [.group(1)]: the leftmost start
    position at which the pattern matches; [None] when there is none. *)
Fixpoint re_search (p : regex) (s : string) : option string :=
  match match_here p s with
  | Some r => Some r
  | None =>
      match s with
      | String _ s' => re_search p s'
      | EmptyString => None
      end
  end.

(** *** The five patterns *)

Fixpoint literal (s : string) : regex :=
  match s with
  | EmptyString => []
  | String c s' => Atom (ci c) Once false :: literal s'
  end.

(** [\s*([\d.]+)/5] *)
Definition number_over_5 : regex :=
  [ Atom is_space Star false;
    Atom is_digit_or_dot Plus true;
    Atom (ci "/") Once false;
    Atom (ci "5") Once false ].

(** [<label>:\s*([\d.]+)/5] *)
Definition labelled (label : string) : regex :=
  (literal label ++ literal ":" ++ number_over_5)%list.

Definition effectiveness_pattern := labelled "Teaching effectiveness".
Definition engagement_pattern := labelled "Student engagement".
Definition clarity_pattern := labelled "Clarity of presentation".
Definition professionalism_pattern := labelled "Overall professionalism".

(** [OVERALL RATING.*?:\s*([\d.]+)/5] *)
Definition overall_pattern : regex :=
  (literal "OVERALL RATING" ++ [Atom is_dot LazyStar false]
   ++ literal ":" ++ number_over_5)%list.

(** *** [float] on a captured token

    The token consists of digits and dots.  [float] accepts it when it
    has at most one dot and at least one digit, and raises [ValueError]
    otherwise. *)

Definition digit_val (c : ascii) : Z := Z.of_nat (code c - 48).

Fixpoint digits_val (acc : Z) (s : string) : Z :=
  match s with
  | EmptyString => acc
  | String c s' => digits_val (10 * acc + digit_val c)%Z s'
  end.

Fixpoint all_digits (s : string) : bool :=
  match s with
  | EmptyString => true
  | String c s' => is_digit c && all_digits s'
  end.

(** Splits at the first dot: the part before it and, when there is a
    dot, the part after it. *)
Fixpoint split_dot (s : string) : string * option string :=
  match s with
  | EmptyString => (EmptyString, None)
  | String c s' =>
      if (code c =? 46)%nat then (EmptyString, Some s')
      else let '(a, b) := split_dot s' in (String c a, b)
  end.

Definition py_float (tok : string) : option Q :=
  let '(ip, rest) := split_dot tok in
  let fp := match rest with Some f => f | None => EmptyString end in
  if all_digits ip && all_digits fp
     && negb ((String.length ip + String.length fp =? 0)%nat)
  then Some (inject_Z (digits_val 0%Z (ip ++ fp))
             / inject_Z (10 ^ Z.of_nat (String.length fp))%Z)%Q
  else None.

(** *** The ratings dictionary *)

Record Ratings := mkRatings {
  teaching_effectiveness : option Q;
  student_engagement : option Q;
  clarity : option Q;
  professionalism : option Q;
  overall : option Q
}.

(** [if m: ratings[k] = float(m.group(1))]: the field stays [None]
    without a match; the conversion may raise. *)
Definition from_match (m : option string) : option (option Q) :=
  match m with
  | None => Some None
  | Some tok => option_map Some (py_float tok)
  end.

(** [[v for v in xs if v is not None]] *)
Fixpoint not_none (xs : list (option Q)) : list Q :=
  match xs with
  | [] => []
  | Some v :: xs' => v :: not_none xs'
  | None :: xs' => not_none xs'
  end.

(** The block shared by [analyze_feedback] (lines 156-186) and
    [analyze_images_with_gemini] (lines 267-292).  The five searches
    are done first; the conversions follow in the order of the source,
    so the first token that [float] rejects raises. *)
Definition extract_ratings (text : string) : option Ratings :=
  let effectiveness_match := re_search effectiveness_pattern text in
  let engagement_match := re_search engagement_pattern text in
  let clarity_match := re_search clarity_pattern text in
  let professionalism_match := re_search professionalism_pattern text in
  let overall_match := re_search overall_pattern text in
  te <- from_match effectiveness_match ;;
  se <- from_match engagement_match ;;
  cl <- from_match clarity_match ;;
  pr <- from_match professionalism_match ;;
  ov <- match overall_match with
        | Some tok => option_map Some (py_float tok)
        | None =>
            (* ratings['overall'] is still None here and is filtered out *)
            let valid_ratings := not_none [te; se; cl; pr; None] in
            match valid_ratings with
            | [] => Some None
            | _ :: _ => Some (Some (py_sum valid_ratings / len_Q valid_ratings)%Q)
            end
        end ;;
  Some (mkRatings te se cl pr ov).

(** ["NO_FEEDBACK_FOUND" in text] *)
Fixpoint contains (needle hay : string) : bool :=
  String.prefix needle hay ||
  match hay with
  | EmptyString => false
  | String _ hay' => contains needle hay'
  end.

(** [analyze_feedback], from the response text of the model onwards.
    The result is the first component of the returned triple; [None]
    stands for the triple [(None, None, None)], returned on the
    sentinel and on any exception.  The other two components (the
    response text and the recommendation) do not enter the ratings. *)
Definition analyze_feedback (response_text : string) : option Ratings :=
  if contains "NO_FEEDBACK_FOUND" response_text then None
  else extract_ratings response_text.

(** [analyze_images_with_gemini]: no sentinel test, and the exception
    is raised again ([None]). *)
Definition analyze_images_with_gemini (response_text : string)
    : option Ratings :=
  extract_ratings response_text.

(** [str.strip()]: leading and trailing white space is removed. *)
Fixpoint lstrip (s : string) : string :=
  match s with
  | String c s' => if is_space c then lstrip s' else s
  | EmptyString => EmptyString
  end.

Fixpoint rstrip (s : string) : string :=
  match s with
  | EmptyString => EmptyString
  | String c s' =>
      match rstrip s' with
      | EmptyString => if is_space c then EmptyString else String c EmptyString
      | String d t => String c (String d t)
      end
  end.

Definition strip (s : string) : string := rstrip (lstrip s).

(** What [validate_faculty_name] answers for a string. *)
Inductive NameCheck := name_valid | name_required | name_too_short.

(** [validate_faculty_name] *)
Definition validate_faculty_name (name : string) : NameCheck :=
  match name with
  | EmptyString => name_required
  | _ =>
      if (String.length (strip name) <? 2)%nat then name_too_short
      else name_valid
  end.

End App.

(* ================================================================== *)
(** ** models.py: the rows and the filtered view *)

Module Models.

(** A row of [reviews].  The foreign key [faculty_id] is nullable:
    [None] is [NULL], the value that the unit of work writes into the
    reviews of a deleted faculty row. *)
Record Review := mkReview {
  review_id : nat;
  faculty_id : option nat;
  course_code : string;
  teaching_effectiveness : Q;
  student_engagement : Q;
  clarity : Q;
  professionalism : Q;
  feedback : option string;
  recommendation : option string;
  source_type : string;
  created_at : nat
}.

(** A row of [faculty].  The relationship [reviews] is not a column:
    it is the set of review rows whose [faculty_id] is this [id]. *)
Record Faculty := mkFaculty {
  id : nat;
  name : string;
  department : option string;
  avg_teaching_effectiveness : Q;
  avg_student_engagement : Q;
  avg_clarity : Q;
  avg_professionalism : Q;
  overall_rating : Q;
  total_reviews : nat
}.

(** [Review.faculty_id == fid]: no id equals [NULL]. *)
Definition owner_is (fid : nat) (r : Review) : bool :=
  match faculty_id r with
  | Some k => (k =? fid)%nat
  | None => false
  end.

(** The dictionary with the keys [teaching_effectiveness],
    [student_engagement], [clarity], [professionalism], [overall]. *)
Record RatingsView := mkView {
  v_teaching_effectiveness : Q;
  v_student_engagement : Q;
  v_clarity : Q;
  v_professionalism : Q;
  v_overall : Q
}.

Definition zero_view : RatingsView := mkView 0 0 0 0 0.

(** The dictionary [total] and the counter [count] of the loop. *)
Record Totals := mkTotals {
  t_teaching_effectiveness : Q;
  t_student_engagement : Q;
  t_clarity : Q;
  t_professionalism : Q;
  t_count : nat
}.

Definition accumulate (tag : string) (acc : Totals) (review : Review)
    : Totals :=
  if String.eqb (source_type review) tag then
    mkTotals
      (t_teaching_effectiveness acc + teaching_effectiveness review)%Q
      (t_student_engagement acc + student_engagement review)%Q
      (t_clarity acc + clarity review)%Q
      (t_professionalism acc + professionalism review)%Q
      (S (t_count acc))
  else acc.

(** The body of the property [Faculty.average_ratings], over the rows
    of [self.reviews].  The source compares [review.source_type] with
    the literal ['screenshot_analysis']; the literal is the argument
    [tag] here and [average_ratings] below fixes it again. *)
Definition average_ratings_for (tag : string) (reviews : list Review)
    : RatingsView :=
  match reviews with
  | [] => zero_view
  | _ :: _ =>
      let total := fold_left (accumulate tag) reviews (mkTotals 0 0 0 0 0) in
      let count := t_count total in
      if (count =? 0)%nat then zero_view
      else
        let n := inject_Z (Z.of_nat count) in
        let te := round2 (t_teaching_effectiveness total / n) in
        let se := round2 (t_student_engagement total / n) in
        let cl := round2 (t_clarity total / n) in
        let pr := round2 (t_professionalism total / n) in
        mkView te se cl pr (round2 (py_sum [te; se; cl; pr] / 4))
  end.

Definition average_ratings (reviews : list Review) : RatingsView :=
  average_ratings_for "screenshot_analysis" reviews.

(** The same loop with the arithmetic as an argument:
    [average_ratings_for] is its instance at [exact], and the instance
    at [binary64] is what the interpreter computes. *)
Definition accumulate_in (A : Arith) (tag : string) (acc : Totals)
    (review : Review) : Totals :=
  if String.eqb (source_type review) tag then
    mkTotals
      (ar_add A (t_teaching_effectiveness acc) (teaching_effectiveness review))
      (ar_add A (t_student_engagement acc) (student_engagement review))
      (ar_add A (t_clarity acc) (clarity review))
      (ar_add A (t_professionalism acc) (professionalism review))
      (S (t_count acc))
  else acc.

Definition average_ratings_in (A : Arith) (tag : string)
    (reviews : list Review) : RatingsView :=
  match reviews with
  | [] => zero_view
  | _ :: _ =>
      let total :=
        fold_left (accumulate_in A tag) reviews (mkTotals 0 0 0 0 0) in
      let count := t_count total in
      if (count =? 0)%nat then zero_view
      else
        let n := inject_Z (Z.of_nat count) in
        let te := ar_round A (ar_div A (t_teaching_effectiveness total) n) in
        let se := ar_round A (ar_div A (t_student_engagement total) n) in
        let cl := ar_round A (ar_div A (t_clarity total) n) in
        let pr := ar_round A (ar_div A (t_professionalism total) n) in
        mkView te se cl pr
          (ar_round A (ar_div A (fold_left (ar_add A) [te; se; cl; pr] 0%Q) 4))
  end.

End Models.

(* ================================================================== *)
(** ** api.py: the routes over the store *)

Module Api.

Import Models.

(** The two tables, each in rowid order. *)
Record Store := mkStore {
  faculty_table : list Faculty;
  review_table : list Review
}.

Definition empty_store : Store := mkStore [] [].

(** What a route answers. *)
Inductive Response :=
| review_added (new_review_id : nat)
| reviews_deleted (deleted_count : nat)
| deleted_message
| no_consolidation_needed
| consolidated (entries : nat)
| test_data_added
| not_found
| internal_error.

(** [session.get(Faculty, faculty_id)] *)
Definition get_faculty (st : Store) (faculty_id : nat) : option Faculty :=
  find (fun f => (id f =? faculty_id)%nat) (faculty_table st).

(** [faculty.reviews] *)
Definition reviews_of (st : Store) (fid : nat) : list Review :=
  filter (fun r => owner_is fid r) (review_table st).

(** [session.query(Faculty).filter(Faculty.name == name)] *)
Definition faculty_named (st : Store) (n : string) : list Faculty :=
  filter (fun f => String.eqb (name f) n) (faculty_table st).

(** The integer primary key given to an inserted row. *)
Definition next_id (ids : list nat) : nat := S (list_max ids).

(** The [UPDATE] issued when a loaded faculty row is committed. *)
Definition save_faculty (st : Store) (f' : Faculty) : Store :=
  mkStore
    (map (fun f => if (id f =? id f')%nat then f' else f) (faculty_table st))
    (review_table st).

(** [update_faculty_ratings]; [None] is a raised [StatisticsError]. *)
Definition update_faculty_ratings (st : Store) (faculty_id : nat)
    : option Store :=
  match get_faculty st faculty_id with
  | None => Some st
  | Some faculty =>
      let reviews := reviews_of st (id faculty) in
      match reviews with
      | [] => Some st
      | _ :: _ =>
          te <- mean (map teaching_effectiveness reviews) ;;
          se <- mean (map student_engagement reviews) ;;
          cl <- mean (map clarity reviews) ;;
          pr <- mean (map professionalism reviews) ;;
          ov <- mean [te; se; cl; pr] ;;
          Some (save_faculty st
                  (mkFaculty (id faculty) (name faculty) (department faculty)
                     te se cl pr ov (List.length reviews)))
      end
  end.

(** [get_or_create_faculty] *)
Definition get_or_create_faculty (st : Store) (n : string)
    (dept : option string) : Store * nat :=
  match faculty_named st n with
  | faculty :: _ => (st, id faculty)
  | [] =>
      let faculty :=
        mkFaculty (next_id (map id (faculty_table st))) n dept 0 0 0 0 0 0 in
      (mkStore (faculty_table st ++ [faculty]) (review_table st), id faculty)
  end.

(** The JSON body of [POST /api/faculty/<faculty_id>/reviews], for
    the bodies that carry every key the route reads with [data[...]]:
    these keys are fields, here with the value the [NOT NULL] columns
    accept; the keys read with [.get(...)] or tested with [in] are
    optional.  On a body without ['course_code'] or one of the four
    ratings, or with [null] for one of them, the route raises
    ([KeyError], or [IntegrityError] at the commit) and the answer is
    500; such a body is no [ReviewRequest], and a caller that may send
    one decides it before the call, as [Pipeline.analyze] does. *)
Record ReviewRequest := mkRequest {
  rq_faculty_name : option string;
  rq_department : option string;
  rq_course_code : string;
  rq_teaching_effectiveness : Q;
  rq_student_engagement : Q;
  rq_clarity : Q;
  rq_professionalism : Q;
  rq_feedback : option string;
  rq_recommendation : option string;
  rq_source_type : option string
}.

(** [data.get('source_type', 'direct_submission')] *)
Definition request_source_type (rq : ReviewRequest) : string :=
  match rq_source_type rq with
  | Some t => t
  | None => "direct_submission"
  end.

(** The [Review(...)] object built by [add_faculty_review]. *)
Definition new_review (st : Store) (fid : nat) (rq : ReviewRequest)
    (now : nat) : Review :=
  mkReview (next_id (map review_id (review_table st))) (Some fid)
    (rq_course_code rq)
    (rq_teaching_effectiveness rq) (rq_student_engagement rq)
    (rq_clarity rq) (rq_professionalism rq)
    (rq_feedback rq) (rq_recommendation rq)
    (request_source_type rq)
    now.

(** [session.add(review); session.commit()] *)
Definition insert_review (st : Store) (fid : nat) (rq : ReviewRequest)
    (now : nat) : Store * nat :=
  let review := new_review st fid rq now in
  (mkStore (faculty_table st) (review_table st ++ [review]), review_id review).

(** [add_faculty_review] *)
Definition add_faculty_review (st : Store) (faculty_id : nat)
    (rq : ReviewRequest) (now : nat) : Store * Response :=
  let found :=
    match get_faculty st faculty_id with
    | Some _ => Some (st, faculty_id)
    | None =>
        match rq_faculty_name rq with
        | Some n => Some (get_or_create_faculty st n (rq_department rq))
        | None => None
        end
    end in
  match found with
  | None => (st, not_found)
  | Some (st1, fid) =>
      let '(st2, rid) := insert_review st1 fid rq now in
      match update_faculty_ratings st2 fid with
      | Some st3 => (st3, review_added rid)
      | None => (st2, internal_error)
      end
  end.

(** [add_test_data]: a fresh row named ["ARD"] and one review of it;
    [update_faculty_ratings] is not called. *)
Definition add_test_data (st : Store) (now : nat) : Store * Response :=
  let faculty :=
    mkFaculty (next_id (map id (faculty_table st))) "ARD"
      (Some "Computer Science") 0 0 0 0 0 0 in
  let review :=
    mkReview (next_id (map review_id (review_table st))) (Some (id faculty))
      "TEST101" 3.5 3.0 3.2 3.8
      (Some "Test feedback") (Some "Test recommendation") "test_data" now in
  (mkStore (faculty_table st ++ [faculty]) (review_table st ++ [review]),
   test_data_added).

(** [session.query(Review).filter(..).delete()]: the rows that stay
    and the number of rows deleted. *)
Definition delete_where (p : Review -> bool) (st : Store) : Store * nat :=
  (mkStore (faculty_table st) (filter (fun r => negb (p r)) (review_table st)),
   List.length (filter p (review_table st))).

(** Calls [update_faculty_ratings] for each id in turn. *)
Fixpoint update_each (st : Store) (ids : list nat) : option Store :=
  match ids with
  | [] => Some st
  | fid :: ids' =>
      st' <- update_faculty_ratings st fid ;;
      update_each st' ids'
  end.

(** [session.query(Faculty).filter(Faculty.reviews.any())] *)
Definition faculty_with_reviews (st : Store) : list Faculty :=
  filter (fun f => negb (Nat.eqb (List.length (reviews_of st (id f))) 0))
    (faculty_table st).

(** [delete_course_reviews] *)
Definition delete_course_reviews (st : Store) (course : string)
    : Store * Response :=
  let '(st1, deleted_count) :=
    delete_where (fun r => String.eqb (course_code r) course) st in
  let affected_faculty := faculty_with_reviews st1 in
  match update_each st1 (map id affected_faculty) with
  | Some st2 => (st2, reviews_deleted deleted_count)
  | None => (st1, internal_error)
  end.

(** [delete_faculty_course_reviews] *)
Definition delete_faculty_course_reviews (st : Store) (fid : nat)
    (course : string) : Store * Response :=
  match get_faculty st fid with
  | None => (st, not_found)
  | Some _ =>
      let '(st1, deleted_count) :=
        delete_where
          (fun r => owner_is fid r
                    && String.eqb (course_code r) course) st in
      match update_faculty_ratings st1 fid with
      | Some st2 => (st2, reviews_deleted deleted_count)
      | None => (st1, internal_error)
      end
  end.

(** [str.upper] on ASCII names. *)
Definition upper_char (c : ascii) : ascii :=
  let n := nat_of_ascii c in
  if ((97 <=? n) && (n <=? 122))%nat then ascii_of_nat (n - 32) else c.

Fixpoint upper (s : string) : string :=
  match s with
  | EmptyString => EmptyString
  | String c s' => String (upper_char c) (upper s')
  end.

(** [delete_faculty_reviews_by_name] *)
Definition delete_faculty_reviews_by_name (st : Store) (faculty_name : string)
    : Store * Response :=
  match faculty_named st (upper faculty_name) with
  | [] => (st, not_found)
  | faculty :: _ =>
      let '(st1, deleted_count) :=
        delete_where (fun r => owner_is (id faculty) r) st in
      match update_faculty_ratings st1 (id faculty) with
      | Some st2 => (st2, reviews_deleted deleted_count)
      | None => (st1, internal_error)
      end
  end.

(** [delete_faculty_reviews]: deletes the rows and answers; nothing
    else is called. *)
Definition delete_faculty_reviews (st : Store) (fid : nat)
    : Store * Response :=
  (fst (delete_where (fun r => owner_is fid r) st),
   deleted_message).

(** [delete_review_by_id]: deletes the row and answers; nothing else
    is called. *)
Definition delete_review_by_id (st : Store) (rid : nat) : Store * Response :=
  match find (fun r => (review_id r =? rid)%nat) (review_table st) with
  | None => (st, not_found)
  | Some _ =>
      (fst (delete_where (fun r => (review_id r =? rid)%nat) st),
       deleted_message)
  end.

(** [clear_all_reviews] *)
Definition clear_all_reviews (st : Store) : Store * Response :=
  let '(st1, deleted_count) := delete_where (fun _ => true) st in
  (st1, reviews_deleted deleted_count).

(** [review.faculty_id = main_id] *)
Definition set_faculty_id (main_id : nat) (review : Review) : Review :=
  mkReview (review_id review) (Some main_id) (course_code review)
    (teaching_effectiveness review) (student_engagement review)
    (clarity review) (professionalism review)
    (feedback review) (recommendation review)
    (source_type review) (created_at review).

(** What the flush does to a review in the loaded collection
    [faculty.reviews] of a row given to [session.delete]: the
    relationship has no delete cascade, so the unit of work sets the
    foreign key of the review to [NULL] before it deletes the row.  It
    does so after the attribute writes of the route, whose value for
    [faculty_id] is therefore not what the [UPDATE] carries. *)
Definition null_faculty_id (review : Review) : Review :=
  mkReview (review_id review) None (course_code review)
    (teaching_effectiveness review) (student_engagement review)
    (clarity review) (professionalism review)
    (feedback review) (recommendation review)
    (source_type review) (created_at review).

(** One turn of the loop of [consolidate_ard]: the reviews of the
    duplicate, which [faculty.reviews] loads, get the id of the main
    entry written into [faculty_id]; then the duplicate is given to
    [session.delete], and the flush (at the next query or at the
    commit) nulls the foreign key of the loaded reviews and deletes
    the row. *)
Definition merge_into (main_id : nat) (st : Store) (faculty : Faculty)
    : Store :=
  mkStore
    (filter (fun f => negb (id f =? id faculty)%nat) (faculty_table st))
    (map (fun review =>
            if owner_is (id faculty) review
            then null_faculty_id (set_faculty_id main_id review)
            else review)
         (review_table st)).

(** The body of [consolidate_ard].  The source queries the literal
    name ["ARD"]; the literal is the argument [n] here and
    [consolidate_ard] below fixes it again. *)
Definition consolidate (n : string) (st : Store) : Store * Response :=
  let entries := faculty_named st n in
  if (List.length entries <=? 1)%nat then (st, no_consolidation_needed)
  else
    match entries with
    | [] => (st, no_consolidation_needed)
    | main :: others =>
        (fold_left (merge_into (id main)) others st,
         consolidated (List.length entries))
    end.

Definition consolidate_ard (st : Store) : Store * Response :=
  consolidate "ARD" st.

(** The part of the answer of [get_faculty_details] that carries the
    aggregates. *)
Record FacultyDetails := mkDetails {
  d_id : nat;
  d_ratings : RatingsView;
  d_total_reviews : nat;
  d_reviews : list Review
}.

(** [get_faculty_details]; [None] is the 404 answer. *)
Definition get_faculty_details (st : Store) (fid : nat)
    : option FacultyDetails :=
  match get_faculty st fid with
  | None => None
  | Some faculty =>
      let reviews := reviews_of st (id faculty) in
      Some (mkDetails (id faculty) (average_ratings reviews)
              (List.length reviews) reviews)
  end.

(** [get_faculty_by_name]: the averages are computed on the spot from
    all the reviews of the first row with that name. *)
Definition get_faculty_by_name (st : Store) (n : string)
    : option FacultyDetails :=
  match faculty_named st n with
  | [] => None
  | faculty :: _ =>
      let reviews := reviews_of st (id faculty) in
      let total_reviews := List.length reviews in
      let view :=
        if (0 <? total_reviews)%nat then
          let avg f := (py_sum (map f reviews) / len_Q reviews)%Q in
          let te := avg teaching_effectiveness in
          let se := avg student_engagement in
          let cl := avg clarity in
          let pr := avg professionalism in
          mkView te se cl pr ((te + se + cl + pr) / 4)%Q
        else zero_view in
      Some (mkDetails (id faculty) view total_reviews reviews)
  end.

(** [get_all_faculty]: for every row its id, [average_ratings] and the
    number of its reviews. *)
Definition get_all_faculty (st : Store) : list (nat * RatingsView * nat) :=
  map (fun f =>
         let reviews := reviews_of st (id f) in
         (id f, average_ratings reviews, List.length reviews))
      (faculty_table st).

(** [add_faculty]: the body needs the key ['name']; [None] is the 400
    answer. *)
Definition add_faculty (st : Store) (name_key : option string)
    (dept : option string) : Store * option nat :=
  match name_key with
  | None => (st, None)
  | Some n =>
      let '(st', fid) := get_or_create_faculty st n dept in (st', Some fid)
  end.

(** [search_faculty_by_name]: id, name and department of the first row
    whose name is the upper-cased argument; [None] is the 404 answer. *)
Definition search_faculty_by_name (st : Store) (faculty_name : string)
    : option (nat * string * option string) :=
  match faculty_named st (upper faculty_name) with
  | [] => None
  | faculty :: _ => Some (id faculty, name faculty, department faculty)
  end.

(** [query.order_by(key.desc()).first()]: the row with the greatest
    key, the first such row if several have it. *)
Definition latest {A} (key : A -> nat) (rows : list A) : option A :=
  fold_left
    (fun best row =>
       match best with
       | None => Some row
       | Some b => if (key b <? key row)%nat then Some row else Some b
       end)
    rows None.

(** The JSON object answered by [verify_data]. *)
Record VerifyData := mkVerify {
  faculty_count : nat;
  review_count : nat;
  latest_faculty : option string;
  latest_review_course : option string
}.

(** [verify_data] *)
Definition verify_data (st : Store) : VerifyData :=
  mkVerify (List.length (faculty_table st)) (List.length (review_table st))
    (option_map name (latest id (faculty_table st)))
    (option_map course_code (latest review_id (review_table st))).

(** [clear_test_data]: the reviews tagged ['test_data'] are deleted,
    then the faculty rows that have no review left. *)
Definition clear_test_data (st : Store) : Store :=
  let st1 :=
    fst (delete_where (fun r => String.eqb (source_type r) "test_data") st) in
  mkStore
    (filter (fun f => negb (Nat.eqb (List.length (reviews_of st1 (id f))) 0))
       (faculty_table st1))
    (review_table st1).

(** [sorted(rows, key=created_at, reverse=True)]: descending and
    stable, rows with equal keys keep their order. *)
Fixpoint insert_desc (x : Review) (rows : list Review) : list Review :=
  match rows with
  | [] => [x]
  | y :: rows' =>
      if (created_at y <=? created_at x)%nat then x :: rows
      else y :: insert_desc x rows'
  end.

Definition sorted_desc (rows : list Review) : list Review :=
  fold_right insert_desc [] rows.

(** The answer of [get_ard_reviews] and of [get_faculty_reviews]. *)
Record CombinedReviews := mkCombined {
  c_name : string;
  c_department : option string;
  c_total_reviews : nat;
  c_average_ratings : RatingsView;
  c_reviews : list Review
}.

(** The nested loop of both routes: the reviews of the entries, entry
    after entry. *)
Definition all_reviews (st : Store) (entries : list Faculty) : list Review :=
  flat_map (fun faculty => reviews_of st (id faculty)) entries.

(** The dictionary [avg_ratings] of both routes. *)
Definition combined_averages (reviews : list Review) : RatingsView :=
  let total_count := List.length reviews in
  let avg f :=
    if (0 <? total_count)%nat
    then round2 (py_sum (map f reviews) / len_Q reviews)
    else 0%Q in
  let te := avg teaching_effectiveness in
  let se := avg student_engagement in
  let cl := avg clarity in
  let pr := avg professionalism in
  mkView te se cl pr (round2 (py_sum [te; se; cl; pr] / 4)).

(** [get_ard_reviews]; [None] is the 404 answer. *)
Definition get_ard_reviews (st : Store) : option CombinedReviews :=
  match faculty_named st "ARD" with
  | [] => None
  | ard_entries =>
      let reviews := all_reviews st ard_entries in
      Some (mkCombined "ARD" (Some "Computer Science")
              (List.length reviews) (combined_averages reviews)
              (sorted_desc reviews))
  end.

(** [get_faculty_reviews]; [None] is the 404 answer. *)
Definition get_faculty_reviews (st : Store) (faculty_name : string)
    : option CombinedReviews :=
  match faculty_named st (upper faculty_name) with
  | [] => None
  | first :: rest =>
      let reviews := all_reviews st (first :: rest) in
      Some (mkCombined (upper faculty_name) (department first)
              (List.length reviews) (combined_averages reviews)
              (sorted_desc reviews))
  end.

End Api.

(* ================================================================== *)
(** ** app.py: the [/analyze] route over the store *)

Module Pipeline.

Import Models Api.

(** How a request to [/analyze] ends. *)
Inductive AnalyzeResult :=
| analysis_returned
| invalid_name (why : App.NameCheck)
| no_files_uploaded
| too_many_files
| no_valid_files
| failed_to_analyze
| failed_to_add_faculty
| failed_to_add_review
| error_analyzing.

(** [app.config['MAX_FILES']] *)
Definition MAX_FILES : nat := 10.

(** The values of the form keys [course_codes[..]], stripped and
    upper-cased, the empty ones dropped. *)
Definition read_course_codes (fields : list string) : list string :=
  filter (fun code => negb (String.eqb code ""))
    (map (fun v => upper (App.strip v)) fields).

(** The JSON body that [analyze] posts for the review. *)
Definition review_request (course_codes : list string) (r : App.Ratings)
    (analysis : string) (recommendation : option string)
    : option ReviewRequest :=
  match App.teaching_effectiveness r, App.student_engagement r,
        App.clarity r, App.professionalism r with
  | Some te, Some se, Some cl, Some pr =>
      Some (mkRequest None None
              (match course_codes with
               | code :: _ => code
               | [] => "UNKNOWN"
               end)
              te se cl pr (Some analysis) recommendation
              (Some "gemini_analysis"))
  | _, _, _, _ => None
  end.

(** [analyze].  The arguments are the form field [faculty_name], the
    values of the course code fields, the file names of the uploaded
    images, the text answered by the model, the recommendation cut out
    of that text, and the time.  The two HTTP requests to the API are
    the calls of [add_faculty] and [add_faculty_review]; a review with
    a missing rating is refused by the [NOT NULL] columns, which is the
    answer 500 of the API and leaves the faculty row in place. *)
Definition analyze (st : Store) (faculty_name_field : option string)
    (course_fields : list string) (filenames : list string)
    (response_text : string) (recommendation : option string) (now : nat)
    : Store * AnalyzeResult :=
  let faculty_name :=
    upper (App.strip (match faculty_name_field with
                      | Some v => v
                      | None => ""
                      end)) in
  match App.validate_faculty_name faculty_name with
  | App.name_valid =>
      let course_codes := read_course_codes course_fields in
      match filenames with
      | [] => (st, no_files_uploaded)
      | _ :: _ =>
          if (MAX_FILES <? List.length filenames)%nat then (st, too_many_files)
          else
            match filter (fun f => negb (String.eqb f "")) filenames with
            | [] => (st, no_valid_files)
            | _ :: _ =>
                match App.analyze_images_with_gemini response_text with
                | None => (st, error_analyzing)
                | Some ratings =>
                    if String.eqb response_text "" then (st, failed_to_analyze)
                    else
                      let '(st1, added) :=
                        add_faculty st (Some faculty_name)
                          (Some "Computer Science") in
                      match added with
                      | None => (st1, failed_to_add_faculty)
                      | Some fid =>
                          match review_request course_codes ratings
                                  response_text recommendation with
                          | None => (st1, failed_to_add_review)
                          | Some rq =>
                              match add_faculty_review st1 fid rq now with
                              | (st2, review_added _) =>
                                  (st2, analysis_returned)
                              | (st2, _) => (st2, failed_to_add_review)
                              end
                          end
                      end
                end
            end
      end
  | why => (st, invalid_name why)
  end.

End Pipeline.

(* ================================================================== *)
(** ** cleanup_db.py: deleting repeated reviews *)

Module Cleanup.

Import Models Api.

(** [WHERE source_type = 'screenshot_analysis'] *)
Definition is_screenshot (r : Review) : bool :=
  String.eqb (source_type r) "screenshot_analysis".

(** Two values of the nullable column [feedback] are in the same
    group: [GROUP BY] puts the [NULL]s together. *)
Definition same_text (a b : option string) : bool :=
  match a, b with
  | Some x, Some y => String.eqb x y
  | None, None => true
  | _, _ => false
  end.

(** Two rows are in the same group of [GROUP BY course_code,
    teaching_effectiveness, student_engagement, clarity,
    professionalism, feedback]. *)
Definition same_group (a b : Review) : bool :=
  String.eqb (course_code a) (course_code b)
  && Qeq_bool (teaching_effectiveness a) (teaching_effectiveness b)
  && Qeq_bool (student_engagement a) (student_engagement b)
  && Qeq_bool (clarity a) (clarity b)
  && Qeq_bool (professionalism a) (professionalism b)
  && same_text (feedback a) (feedback b).

(** [MIN(id)] over the group of the row [r] among [rows]. *)
Definition min_id (r : Review) (rows : list Review) : nat :=
  fold_right (fun x m => Nat.min (review_id x) m) (review_id r)
    (filter (same_group r) rows).

(** The temporary table [temp_reviews]: the least id of every group of
    the tagged rows. *)
Definition temp_reviews (rows : list Review) : list nat :=
  let tagged := filter is_screenshot rows in
  nodup Nat.eq_dec (map (fun r => min_id r tagged) tagged).

(** [cleanup_database]: the tagged rows whose id is not in
    [temp_reviews] are deleted. *)
Definition cleanup_database (st : Store) : Store :=
  let temp := temp_reviews (review_table st) in
  mkStore (faculty_table st)
    (filter
       (fun r =>
          negb (is_screenshot r
                && negb (existsb (Nat.eqb (review_id r)) temp)))
       (review_table st)).

End Cleanup.

(* ================================================================== *)
(** ** The specification's wording of the filtered view *)

Module Spec.

Import Models.

(** [filteredAverages(faculty, sourceType)] as section 4.2 words it:
    average only the reviews whose source type is the given one, round
    each dimension to two decimals, take the rounded mean of the four
    rounded dimensions as [overall], and answer all zeros when no
    review matches. *)
Definition filteredAverages (reviews : list Review) (sourceType : string)
    : RatingsView :=
  let matching :=
    filter (fun r => String.eqb (source_type r) sourceType) reviews in
  match mean (map teaching_effectiveness matching),
        mean (map student_engagement matching),
        mean (map clarity matching),
        mean (map professionalism matching) with
  | Some te, Some se, Some cl, Some pr =>
      let dims := [round2 te; round2 se; round2 cl; round2 pr] in
      match mean dims with
      | Some ov => mkView (round2 te) (round2 se) (round2 cl) (round2 pr)
                     (round2 ov)
      | None => zero_view
      end
  | _, _, _, _ => zero_view
  end.

(** The same words read in an arithmetic [A]: the average of a
    dimension is the sum of its values over the matching reviews
    divided by their number. *)
Definition filteredAverages_in (A : Arith) (reviews : list Review)
    (sourceType : string) : RatingsView :=
  let matching :=
    filter (fun r => String.eqb (source_type r) sourceType) reviews in
  let sum xs := fold_left (ar_add A) xs 0%Q in
  let average f := ar_div A (sum (map f matching)) (len_Q matching) in
  match matching with
  | [] => mkView 0 0 0 0 0
  | _ :: _ =>
      let te := ar_round A (average teaching_effectiveness) in
      let se := ar_round A (average student_engagement) in
      let cl := ar_round A (average clarity) in
      let pr := ar_round A (average professionalism) in
      mkView te se cl pr (ar_round A (ar_div A (sum [te; se; cl; pr]) 4))
  end.

End Spec.

(* ================================================================== *)
(** ** Sample data and auxiliary notions for the statements *)

Import Models Api.

(** What [update_faculty_ratings] stores for a faculty with reviews. *)
Definition recomputed (faculty : Faculty) (reviews : list Review) : Faculty :=
  let avg f := (py_sum (map f reviews) / len_Q reviews)%Q in
  let te := avg teaching_effectiveness in
  let se := avg student_engagement in
  let cl := avg clarity in
  let pr := avg professionalism in
  mkFaculty (id faculty) (name faculty) (department faculty)
    te se cl pr (py_sum [te; se; cl; pr] / 4)%Q (List.length reviews).

(** Sample rows used by the examples below. *)
Definition sample_review (rid fid : nat) (course : string) (x : Q)
    (tag : string) : Review :=
  mkReview rid (Some fid) course x x x x None None tag 0.

Definition sample_faculty (fid : nat) (n : string) : Faculty :=
  mkFaculty fid n None 0 0 0 0 0 0.

Definition store_two_reviews : Store :=
  mkStore [sample_faculty 1 "ABC"]
    [sample_review 1 1 "CSE110" 4 "direct_submission";
     sample_review 2 1 "CSE330" 2 "gemini_analysis"].

(** The stored aggregate columns of a row, up to the value of the
    rationals. *)
Definition stored_as (f : Faculty) (te se cl pr ov : Q) (n : nat) : Prop :=
  (avg_teaching_effectiveness f == te)%Q
  /\ (avg_student_engagement f == se)%Q
  /\ (avg_clarity f == cl)%Q
  /\ (avg_professionalism f == pr)%Q
  /\ (overall_rating f == ov)%Q
  /\ total_reviews f = n.

Definition view_as (v : RatingsView) (te se cl pr ov : Q) : Prop :=
  (v_teaching_effectiveness v == te)%Q
  /\ (v_student_engagement v == se)%Q
  /\ (v_clarity v == cl)%Q
  /\ (v_professionalism v == pr)%Q
  /\ (v_overall v == ov)%Q.

(** A request whose four ratings are [x]. *)
Definition request_all (x : Q) (tag : option string) (course : string)
    : ReviewRequest :=
  mkRequest None None course x x x x None None tag.

Definition store_abc : Store :=
  fst (get_or_create_faculty empty_store "ABC" None).

Definition store_abc_4 : Store :=
  fst (add_faculty_review store_abc 1 (request_all 4 None "CSE110") 0).

Definition store_abc_4_2 : Store :=
  fst (add_faculty_review store_abc_4 1
         (request_all 2 (Some "gemini_analysis") "CSE330") 1).

(** The rows of the faculty table are in rowid order: the primary keys
    increase strictly along the table. *)
Definition rowid_order (st : Store) : Prop :=
  StronglySorted lt (map id (faculty_table st)).

(** One request to a route that writes: the store after it. *)
Inductive route_step (st : Store) : Store -> Prop :=
| step_get_or_create n dept :
    route_step st (fst (get_or_create_faculty st n dept))
| step_add_faculty_review fid rq now :
    route_step st (fst (add_faculty_review st fid rq now))
| step_add_test_data now :
    route_step st (fst (add_test_data st now))
| step_delete_course_reviews course :
    route_step st (fst (delete_course_reviews st course))
| step_delete_faculty_course_reviews fid course :
    route_step st (fst (delete_faculty_course_reviews st fid course))
| step_delete_faculty_reviews_by_name n :
    route_step st (fst (delete_faculty_reviews_by_name st n))
| step_delete_faculty_reviews fid :
    route_step st (fst (delete_faculty_reviews st fid))
| step_delete_review_by_id rid :
    route_step st (fst (delete_review_by_id st rid))
| step_clear_all_reviews :
    route_step st (fst (clear_all_reviews st))
| step_consolidate_ard :
    route_step st (fst (consolidate_ard st)).

(** The stores that requests can produce from the empty database. *)
Inductive reachable : Store -> Prop :=
| reachable_empty : reachable empty_store
| reachable_step st st' :
    reachable st -> route_step st st' -> reachable st'.

(** The id of a row is among the ids of [others]. *)
Definition among (others : list Faculty) (k : nat) : bool :=
  existsb (fun d => (k =? id d)%nat) others.

(** The review belongs to one of the rows [others]. *)
Definition owned_among (others : list Faculty) (r : Review) : bool :=
  existsb (fun d => owner_is (id d) r) others.

(** Three records named ["ARD"] owning 2, 0 and 3 reviews, next to an
    unrelated record with one review. *)
Definition store_three_ard : Store :=
  mkStore
    [sample_faculty 1 "ARD"; sample_faculty 2 "XYZ";
     sample_faculty 3 "ARD"; sample_faculty 5 "ARD"]
    [sample_review 1 1 "CSE110" 4 "direct_submission";
     sample_review 2 5 "CSE110" 3 "direct_submission";
     sample_review 3 2 "CSE220" 5 "direct_submission";
     sample_review 4 1 "CSE330" 2 "gemini_analysis";
     sample_review 5 5 "CSE330" 1 "test_data";
     sample_review 6 5 "CSE111" 4 "direct_submission"].

(** Two requests to [add_test_data] on the empty database: two records
    named ["ARD"], each with its test review and with the aggregates
    of a new row, which [add_test_data] does not recompute. *)
Definition store_two_test_ard : Store :=
  fst (add_test_data (fst (add_test_data empty_store 0)) 1).

(** What a call of [update_faculty_ratings] leaves in a row, given the
    review table. *)
Definition refresh (reviews : list Review) (f : Faculty) : Faculty :=
  match filter (fun r => owner_is (id f) r) reviews with
  | [] => f
  | r :: rs => recomputed f (r :: rs)
  end.

(** Faculty ["ABC"] with one review of CSE110, whose aggregates were
    recomputed when it was added, and the record and review of
    [add_test_data], whose aggregates are the initial zeros. *)
Definition store_abc_and_test : Store := fst (add_test_data store_abc_4 5).

(** The sub-ratings of a result that were parsed. *)
Definition parsed_sub_ratings (r : App.Ratings) : list Q :=
  App.not_none [App.teaching_effectiveness r; App.student_engagement r;
                App.clarity r; App.professionalism r].

(** [float] accepts the token of a match, if there is a match. *)
Definition token_ok (m : option string) : bool :=
  match m with
  | Some tok =>
      match App.py_float tok with
      | Some _ => true
      | None => false
      end
  | None => true
  end.

(** The line feed. *)
Definition nl : string := String (ascii_of_nat 10) EmptyString.

(** A response in the layout of the prompt, without the overall line:
    the sub-ratings are 4, 3, 2 and 5. *)
Definition response_4_3_2_5 : string :=
  "DETAILED RATINGS FOR ARD:" ++ nl
  ++ "1. Teaching effectiveness: 4/5" ++ nl ++ "- clear lectures" ++ nl
  ++ "2. Student engagement: 3/5" ++ nl
  ++ "3. Clarity of presentation: 2/5" ++ nl
  ++ "4. Overall professionalism: 5/5" ++ nl.

(** The same response followed by an explicit overall line. *)
Definition response_with_overall : string :=
  response_4_3_2_5 ++ "===========================" ++ nl
  ++ "OVERALL RATING FOR ARD: 3.0/5" ++ nl.

(** The four ratings of a review lie between two numbers. *)
Definition ratings_within (lo hi : Q) (r : Review) : Prop :=
  (lo <= teaching_effectiveness r /\ teaching_effectiveness r <= hi)%Q
  /\ (lo <= student_engagement r /\ student_engagement r <= hi)%Q
  /\ (lo <= clarity r /\ clarity r <= hi)%Q
  /\ (lo <= professionalism r /\ professionalism r <= hi)%Q.

(** Every review belongs to a faculty row of the store. *)
Definition owned (st : Store) : Prop :=
  forall r, In r (review_table st) ->
            exists f, In f (faculty_table st) /\ faculty_id r = Some (id f).

(** The text with its ASCII capitals in lower case: two texts with the
    same [fold_case] differ in the case of letters only. *)
Fixpoint fold_case (s : string) : string :=
  match s with
  | EmptyString => EmptyString
  | String c s' => String (App.lower c) (fold_case s')
  end.

(** An atom that does not see the case of a letter, and that captures
    only characters that have no case. *)
Definition case_blind (a : App.atom) : Prop :=
  (forall c, App.a_class a (App.lower c) = App.a_class a c)
  /\ (App.a_group a = true ->
      forall c, App.a_class a c = true -> App.lower c = c).

(** The five entries of the ratings dictionary. *)
Definition entries (r : App.Ratings) : list (option Q) :=
  [App.teaching_effectiveness r; App.student_engagement r; App.clarity r;
   App.professionalism r; App.overall r].

(** A list is in descending order of [created_at]. *)
Definition newest_first (rows : list Review) : Prop :=
  StronglySorted (fun a b => created_at b <= created_at a) rows.

(** A review of faculty 1 tagged ['screenshot_analysis'] with the four
    ratings given, as the doubles that hold them. *)
Definition tagged_review (rid : nat) (te se cl pr : Q) : Review :=
  mkReview rid (Some 1) "CSE110" (fl te) (fl se) (fl cl) (fl pr)
    None None "screenshot_analysis" 0.

(** The primary key of the review table: no two rows share an id. *)
Definition review_ids_unique (st : Store) : Prop :=
  NoDup (map review_id (review_table st)).

(** Two reviews of faculty 1 and one of faculty 2 with the same course,
    ratings and feedback, all tagged ['screenshot_analysis'], and a
    fourth review with the same content and another tag. *)
Definition store_repeated : Store :=
  mkStore
    [mkFaculty 1 "ABC" None 4 4 4 4 4 2; mkFaculty 2 "XYZ" None 4 4 4 4 4 1]
    [sample_review 1 1 "CSE110" 4 "screenshot_analysis";
     sample_review 2 2 "CSE110" 4 "screenshot_analysis";
     sample_review 3 1 "CSE110" 4 "screenshot_analysis";
     sample_review 4 1 "CSE110" 4 "gemini_analysis"].

(* ================================================================== *)
(** * Properties *)

Lemma bind_Some {A B} (x : option A) (f : A -> option B) (b : B) :
  bind x f = Some b -> exists a, x = Some a /\ f a = Some b.
Proof. destruct x as [a|]; simpl; [eauto | discriminate]. Qed.

Lemma mean_cons (x : Q) (xs : list Q) :
  mean (x :: xs) = Some (py_sum (x :: xs) / len_Q (x :: xs))%Q.
Proof. reflexivity. Qed.

Lemma mean_map_nonempty {A} (f : A -> Q) (l : list A) :
  l <> [] -> mean (map f l) = Some (py_sum (map f l) / len_Q l)%Q.
Proof.
  destruct l as [|a l]; [congruence|]; intros _.
  simpl map. rewrite mean_cons. unfold len_Q. simpl List.length.
  now rewrite length_map.
Qed.

(** *** The store *)

Lemma filter_all {A} (p : A -> bool) l :
  (forall x, In x l -> p x = true) -> filter p l = l.
Proof.
  induction l as [|a l IH]; simpl; intros H; [reflexivity|].
  rewrite (H a) by now left. f_equal. apply IH. intros x Hx. apply H.
  now right.
Qed.

Lemma owner_is_true k r : owner_is k r = true <-> faculty_id r = Some k.
Proof.
  unfold owner_is. destruct (faculty_id r) as [j|]; [|split; discriminate].
  rewrite Nat.eqb_eq. split; congruence.
Qed.

Lemma owner_is_new_review st fid rq now k :
  owner_is k (new_review st fid rq now) = (fid =? k)%nat.
Proof. reflexivity. Qed.

Lemma get_faculty_id st fid f : get_faculty st fid = Some f -> id f = fid.
Proof.
  unfold get_faculty; intros H. apply find_some in H as [_ H].
  now apply Nat.eqb_eq in H.
Qed.

Lemma get_faculty_save st fid f f' :
  get_faculty st fid = Some f -> id f' = fid ->
  get_faculty (save_faculty st f') fid = Some f'.
Proof.
  unfold get_faculty, save_faculty; simpl. intros H E. subst fid.
  induction (faculty_table st) as [|g l IH]; simpl in *; [discriminate|].
  destruct (id g =? id f')%nat eqn:G; simpl.
  - now rewrite Nat.eqb_refl.
  - rewrite G. auto.
Qed.

Lemma get_faculty_save_other st fid f' :
  id f' <> fid ->
  get_faculty (save_faculty st f') fid = get_faculty st fid.
Proof.
  unfold get_faculty, save_faculty; simpl. intros E.
  induction (faculty_table st) as [|g l IH]; simpl; [reflexivity|].
  destruct (id g =? id f')%nat eqn:G.
  - apply Nat.eqb_eq in G.
    destruct (id f' =? fid)%nat eqn:G1;
      [apply Nat.eqb_eq in G1; contradiction|].
    rewrite G, G1. exact IH.
  - destruct (id g =? fid)%nat; [reflexivity | exact IH].
Qed.

Lemma reviews_of_save st f' fid :
  reviews_of (save_faculty st f') fid = reviews_of st fid.
Proof. reflexivity. Qed.

Lemma update_faculty_ratings_eq st fid faculty :
  get_faculty st fid = Some faculty ->
  reviews_of st fid <> [] ->
  update_faculty_ratings st fid
  = Some (save_faculty st (recomputed faculty (reviews_of st fid))).
Proof.
  intros Hf Hr. unfold update_faculty_ratings. rewrite Hf.
  pose proof (get_faculty_id _ _ _ Hf) as Hid.
  replace (reviews_of st (id faculty)) with (reviews_of st fid)
    by now rewrite Hid.
  destruct (reviews_of st fid) as [|r rs] eqn:E; [congruence|].
  rewrite !mean_map_nonempty by discriminate. simpl bind.
  reflexivity.
Qed.

Lemma update_faculty_ratings_no_reviews st fid :
  reviews_of st fid = [] -> update_faculty_ratings st fid = Some st.
Proof.
  intros Hr. unfold update_faculty_ratings.
  destruct (get_faculty st fid) as [f|] eqn:Hf; [|reflexivity].
  now rewrite (get_faculty_id _ _ _ Hf), Hr.
Qed.

(** [update_faculty_ratings] never raises. *)
Lemma update_faculty_ratings_total st fid :
  exists st', update_faculty_ratings st fid = Some st'
              /\ review_table st' = review_table st.
Proof.
  destruct (get_faculty st fid) as [f|] eqn:Hf.
  - destruct (reviews_of st fid) as [|r rs] eqn:Hr.
    + exists st. now rewrite update_faculty_ratings_no_reviews.
    + eexists. rewrite (update_faculty_ratings_eq _ _ _ Hf) by congruence.
      split; reflexivity.
  - exists st. unfold update_faculty_ratings. now rewrite Hf.
Qed.

(** *** Recomputation of the stored aggregates *)

(** C2.  For a faculty with at least one review,
    [update_faculty_ratings] returns (it does not raise), leaves the
    reviews alone and stores: in each of the four averages the
    arithmetic mean of that dimension over all the reviews of the
    faculty, whatever their source type; in [overall_rating] the mean
    of the four averages just stored; in [total_reviews] the number of
    reviews. *)
Theorem update_faculty_ratings_stores_means st fid faculty :
  get_faculty st fid = Some faculty ->
  reviews_of st fid <> [] ->
  exists st' faculty',
    update_faculty_ratings st fid = Some st'
    /\ review_table st' = review_table st
    /\ get_faculty st' fid = Some faculty'
    /\ mean (map teaching_effectiveness (reviews_of st fid))
       = Some (avg_teaching_effectiveness faculty')
    /\ mean (map student_engagement (reviews_of st fid))
       = Some (avg_student_engagement faculty')
    /\ mean (map clarity (reviews_of st fid))
       = Some (avg_clarity faculty')
    /\ mean (map professionalism (reviews_of st fid))
       = Some (avg_professionalism faculty')
    /\ mean [avg_teaching_effectiveness faculty';
             avg_student_engagement faculty';
             avg_clarity faculty';
             avg_professionalism faculty']
       = Some (overall_rating faculty')
    /\ total_reviews faculty' = List.length (reviews_of st fid).
Proof.
  intros Hf Hr.
  exists (save_faculty st (recomputed faculty (reviews_of st fid))),
         (recomputed faculty (reviews_of st fid)).
  split; [now apply update_faculty_ratings_eq|].
  split; [reflexivity|].
  split; [apply (get_faculty_save _ _ _ _ Hf), (get_faculty_id _ _ _ Hf)|].
  rewrite !mean_map_nonempty by assumption.
  repeat split.
Qed.

Lemma update_faculty_ratings_stores_means_witness :
  exists st' faculty',
    update_faculty_ratings store_two_reviews 1 = Some st'
    /\ get_faculty st' 1 = Some faculty'
    /\ (avg_teaching_effectiveness faculty' == 3)%Q
    /\ (overall_rating faculty' == 3)%Q
    /\ total_reviews faculty' = 2%nat.
Proof.
  destruct (update_faculty_ratings_stores_means store_two_reviews 1
              (sample_faculty 1 "ABC") eq_refl)
    as (st' & f' & Hu & _ & Hg & Hte & _ & _ & _ & Hov & Hn).
  - discriminate.
  - exists st', f'. repeat split; try assumption.
    + injection Hte as <-. reflexivity.
    + vm_compute in Hu. injection Hu as <-.
      vm_compute in Hg. injection Hg as <-. reflexivity.
Defined.

(** The mean of the four stored averages, written out. *)
Lemma overall_is_quarter_sum a b c d o :
  mean [a; b; c; d] = Some o -> (o == (a + b + c + d) / 4)%Q.
Proof.
  intros H. injection H as <-. unfold py_sum, len_Q. simpl.
  change (inject_Z 4) with 4%Q. field.
Qed.

(** *** The filtered view *)

Lemma fold_accumulate tag reviews acc :
  let matching :=
    filter (fun r => String.eqb (source_type r) tag) reviews in
  fold_left (accumulate tag) reviews acc
  = mkTotals
      (fold_left Qplus (map teaching_effectiveness matching)
         (t_teaching_effectiveness acc))
      (fold_left Qplus (map student_engagement matching)
         (t_student_engagement acc))
      (fold_left Qplus (map clarity matching) (t_clarity acc))
      (fold_left Qplus (map professionalism matching)
         (t_professionalism acc))
      (t_count acc + List.length matching).
Proof.
  revert acc. induction reviews as [|r rs IH]; intros acc; simpl.
  - destruct acc; simpl. now rewrite Nat.add_0_r.
  - rewrite IH. unfold accumulate at 1 2 3 4 5.
    destruct (String.eqb (source_type r) tag); simpl.
    + now rewrite Nat.add_succ_r.
    + reflexivity.
Qed.

Lemma fold_accumulate_in A tag reviews acc :
  let matching :=
    filter (fun r => String.eqb (source_type r) tag) reviews in
  fold_left (accumulate_in A tag) reviews acc
  = mkTotals
      (fold_left (ar_add A) (map teaching_effectiveness matching)
         (t_teaching_effectiveness acc))
      (fold_left (ar_add A) (map student_engagement matching)
         (t_student_engagement acc))
      (fold_left (ar_add A) (map clarity matching) (t_clarity acc))
      (fold_left (ar_add A) (map professionalism matching)
         (t_professionalism acc))
      (t_count acc + List.length matching).
Proof.
  revert acc. induction reviews as [|r rs IH]; intros acc; simpl.
  - destruct acc; simpl. now rewrite Nat.add_0_r.
  - rewrite IH. unfold accumulate_in at 1 2 3 4 5.
    destruct (String.eqb (source_type r) tag); simpl.
    + now rewrite Nat.add_succ_r.
    + reflexivity.
Qed.

(** The view on rationals is the loop at the exact operations. *)
Lemma average_ratings_in_exact tag reviews :
  average_ratings_in exact tag reviews = average_ratings_for tag reviews.
Proof. reflexivity. Qed.

(** C10.  In the arithmetic of the interpreter, and in any other, the
    view computed by the loop of [average_ratings] is the view the
    specification describes: the averages of the reviews whose source
    type is the tag of the filter and of no other review, each rounded
    to two decimals; [overall] is the rounded mean of the four rounded
    averages; when no review carries the tag, and in particular when
    there is no review, all five values are the number 0.  The view is
    a function of the reviews alone and returns no store: nothing is
    written.  The source fixes the tag to ['screenshot_analysis']. *)
Theorem average_ratings_is_filteredAverages (A : Arith) tag reviews :
  average_ratings_in A tag reviews = Spec.filteredAverages_in A reviews tag
  /\ (filter (fun r => String.eqb (source_type r) tag) reviews = [] ->
      average_ratings_in A tag reviews = mkView 0 0 0 0 0).
Proof.
  assert (G : average_ratings_in A tag reviews
              = Spec.filteredAverages_in A reviews tag).
  { unfold average_ratings_in, Spec.filteredAverages_in.
    destruct reviews as [|r0 rs0]; [reflexivity|].
    rewrite fold_accumulate_in. cbv zeta.
    generalize (filter (fun r => String.eqb (source_type r) tag)
                  (r0 :: rs0)).
    intros [|r rs]; [reflexivity|].
    cbn [t_count t_teaching_effectiveness t_student_engagement t_clarity
         t_professionalism Nat.add List.length Nat.eqb].
    reflexivity. }
  split; [exact G|].
  intros H. rewrite G. unfold Spec.filteredAverages_in. cbv zeta.
  now rewrite H.
Qed.

(** The view of the interpreter on four lists of reviews.  One review
    with 4.0, 4.0, 4.0 and 4.1: the sum of the four averages is the
    double above 16.1, its quarter is above 4.025, and [overall] is
    4.03.  Three reviews with 1, 1 and 2 in every dimension: 1.33.
    Reviews with 0.1, 0.2 and 0.3; the sum of the floats is not 0.6
    and the average rounds to 0.2.  A review with another tag alone:
    the five values are 0. *)
Lemma average_ratings_is_filteredAverages_witness :
  average_ratings_in binary64 "screenshot_analysis"
    [tagged_review 1 4.0 4.0 4.0 4.1]
  = mkView 4 4 4 (fl 4.1) (fl 4.03)
  /\ average_ratings_in binary64 "screenshot_analysis"
       [tagged_review 1 1 1 1 1;
        sample_review 2 1 "CSE110" 5 "gemini_analysis";
        tagged_review 3 1 1 1 1; tagged_review 4 2 2 2 2]
     = mkView (fl 1.33) (fl 1.33) (fl 1.33) (fl 1.33) (fl 1.33)
  /\ average_ratings_in binary64 "screenshot_analysis"
       [tagged_review 1 0.1 0.1 0.1 0.1; tagged_review 2 0.2 0.2 0.2 0.2;
        tagged_review 3 0.3 0.3 0.3 0.3]
     = mkView (fl 0.2) (fl 0.2) (fl 0.2) (fl 0.2) (fl 0.2)
  /\ average_ratings_in binary64 "screenshot_analysis"
       [sample_review 1 1 "CSE110" 5 "direct_submission"]
     = mkView 0 0 0 0 0.
Proof.
  split; [|split; [|split]].
  - eapply eq_trans;
      [apply (proj1 (average_ratings_is_filteredAverages binary64 _ _))|].
    vm_compute. reflexivity.
  - eapply eq_trans;
      [apply (proj1 (average_ratings_is_filteredAverages binary64 _ _))|].
    vm_compute. reflexivity.
  - eapply eq_trans;
      [apply (proj1 (average_ratings_is_filteredAverages binary64 _ _))|].
    vm_compute. reflexivity.
  - apply (proj2 (average_ratings_is_filteredAverages binary64 _ _)).
    reflexivity.
Defined.

(** An example with rounding: two tagged reviews with 4 and 3 and one
    with 3 give 3.33; the untagged review does not count. *)
Example average_ratings_rounds :
  let view :=
    average_ratings
      [sample_review 1 1 "CSE110" 4 "screenshot_analysis";
       sample_review 2 1 "CSE110" 1 "direct_submission";
       sample_review 3 1 "CSE110" 3 "screenshot_analysis";
       sample_review 4 1 "CSE110" 3 "screenshot_analysis"] in
  (v_clarity view == 3.33)%Q /\ (v_overall view == 3.33)%Q.
Proof. split; vm_compute; reflexivity. Qed.

(** *** Reading the aggregates *)

Lemma reviews_of_insert st fid rq now :
  reviews_of (fst (insert_review st fid rq now)) fid
  = (reviews_of st fid ++ [new_review st fid rq now])%list.
Proof.
  unfold reviews_of, insert_review; simpl.
  rewrite filter_app; simpl. rewrite owner_is_new_review.
  now rewrite Nat.eqb_refl.
Qed.

(** C9 as the code has it.  A review with four ratings 4 is posted for
    an existing faculty without reviews.  The route answers with the
    new review id; the stored averages, the stored overall rating and
    the stored count become 4, 4, 4, 4, 4 and 1 for every source type;
    [get_faculty_details] then answers 4 for the four dimensions and
    for [overall] when the source type of the review is
    ['screenshot_analysis'], and 0 for all five otherwise. *)
Theorem add_review_then_read st fid faculty rq now :
  get_faculty st fid = Some faculty ->
  reviews_of st fid = [] ->
  rq_teaching_effectiveness rq = 4%Q ->
  rq_student_engagement rq = 4%Q ->
  rq_clarity rq = 4%Q ->
  rq_professionalism rq = 4%Q ->
  exists st' rid faculty' details,
    add_faculty_review st fid rq now = (st', review_added rid)
    /\ get_faculty st' fid = Some faculty'
    /\ stored_as faculty' 4 4 4 4 4 1
    /\ get_faculty_details st' fid = Some details
    /\ d_total_reviews details = 1%nat
    /\ (request_source_type rq = "screenshot_analysis" ->
        view_as (d_ratings details) 4 4 4 4 4)
    /\ (request_source_type rq <> "screenshot_analysis" ->
        d_ratings details = zero_view).
Proof.
  intros Hf Hr H1 H2 H3 H4.
  pose proof (get_faculty_id _ _ _ Hf) as Hid.
  pose (r := new_review st fid rq now).
  pose (st2 := mkStore (faculty_table st) (review_table st ++ [r])).
  pose (f' := recomputed faculty [r]).
  assert (Hr2 : reviews_of st2 fid = [r]).
  { change st2 with (fst (insert_review st fid rq now)).
    now rewrite reviews_of_insert, Hr. }
  assert (Hf2 : get_faculty st2 fid = Some faculty) by exact Hf.
  assert (Hu : update_faculty_ratings st2 fid = Some (save_faculty st2 f')).
  { rewrite (update_faculty_ratings_eq _ _ _ Hf2); rewrite Hr2;
      [reflexivity | discriminate]. }
  assert (Hg : get_faculty (save_faculty st2 f') fid = Some f').
  { apply (get_faculty_save _ _ _ _ Hf2). exact Hid. }
  exists (save_faculty st2 f'), (review_id r), f'.
  eexists. split; [|split; [exact Hg|split]].
  - unfold add_faculty_review, insert_review. rewrite Hf.
    cbv beta iota zeta. fold r. fold st2. rewrite Hu. reflexivity.
  - unfold f', recomputed, stored_as, r, new_review; simpl.
    rewrite H1, H2, H3, H4. repeat split; vm_compute; reflexivity.
  - unfold get_faculty_details. rewrite Hg.
    replace (id f') with fid by (symmetry; exact Hid).
    rewrite reviews_of_save, Hr2.
    split; [reflexivity|]. split; [reflexivity|].
    unfold average_ratings, average_ratings_for, r, new_review; simpl.
    unfold accumulate. simpl source_type.
    split; intros Hs.
    + rewrite Hs. simpl. rewrite H1, H2, H3, H4.
      repeat split; vm_compute; reflexivity.
    + apply String.eqb_neq in Hs. rewrite Hs. reflexivity.
Qed.

Lemma add_review_then_read_witness :
  exists details,
    get_faculty_details
      (fst (add_faculty_review store_abc 1
              (request_all 4 (Some "screenshot_analysis") "CSE110") 0)) 1
    = Some details
    /\ view_as (d_ratings details) 4 4 4 4 4.
Proof.
  destruct (add_review_then_read store_abc 1 (sample_faculty 1 "ABC")
              (request_all 4 (Some "screenshot_analysis") "CSE110") 0
              eq_refl eq_refl eq_refl eq_refl eq_refl eq_refl)
    as (st' & rid & f' & d & Ha & _ & _ & Hd & _ & Hv & _).
  exists d. rewrite Ha. split; [exact Hd | exact (Hv eq_refl)].
Defined.

(** C9 as the claim words it fails: a review posted without a source
    type is stored as ['direct_submission'], and [get_faculty_details]
    then answers 0 for all five ratings, not 4. *)
Lemma direct_submission_review_reads_zero :
  get_faculty store_abc 1 = Some (sample_faculty 1 "ABC")
  /\ reviews_of store_abc 1 = []
  /\ exists details,
       get_faculty_details
         (fst (add_faculty_review store_abc 1
                 (request_all 4 None "CSE110") 0)) 1
       = Some details
       /\ d_total_reviews details = 1%nat
       /\ d_ratings details = zero_view
       /\ ~ view_as (d_ratings details) 4 4 4 4 4.
Proof.
  split; [reflexivity|]. split; [reflexivity|].
  eexists. split; [vm_compute; reflexivity|].
  split; [reflexivity|]. split; [reflexivity|].
  intros (H & _). vm_compute in H. discriminate.
Qed.

(** *** Stored aggregates that are not recomputed *)

(** The views of a faculty without reviews are all zero. *)
Lemma views_without_reviews st fid n :
  reviews_of st fid = [] ->
  (forall d, get_faculty_details st fid = Some d ->
             d_ratings d = zero_view /\ d_total_reviews d = 0%nat)
  /\ (forall d, get_faculty_by_name st n = Some d -> d_id d = fid ->
                d_ratings d = zero_view /\ d_total_reviews d = 0%nat).
Proof.
  intros Hr. split.
  - intros d. unfold get_faculty_details.
    destruct (get_faculty st fid) as [f|] eqn:Hf; [|discriminate].
    rewrite (get_faculty_id _ _ _ Hf), Hr.
    intros [= <-]. split; reflexivity.
  - intros d. unfold get_faculty_by_name.
    destruct (faculty_named st n) as [|f fs]; [discriminate|].
    intros [= <-]. simpl. intros ->. rewrite Hr. split; reflexivity.
Qed.

(** C1, at the failing input.  Faculty ["ABC"] gets one review with
    four ratings 4 and the reviews of ["abc"] are then deleted by name.
    The route calls [update_faculty_ratings], which does nothing for a
    faculty without reviews: the row keeps the averages 4, the overall
    rating 4 and the count 1, while the views of the faculty read 0. *)
Theorem stored_aggregates_stay_after_last_review_deleted :
  let result := delete_faculty_reviews_by_name store_abc_4 "abc" in
  snd result = reviews_deleted 1
  /\ reviews_of (fst result) 1 = []
  /\ (exists f, get_faculty (fst result) 1 = Some f
                /\ stored_as f 4 4 4 4 4 1)
  /\ (exists d, get_faculty_details (fst result) 1 = Some d
                /\ d_ratings d = zero_view).
Proof.
  cbv zeta. split; [reflexivity|]. split; [reflexivity|]. split.
  - eexists. split; [vm_compute; reflexivity|].
    repeat split; vm_compute; reflexivity.
  - eexists. split; [vm_compute; reflexivity | reflexivity].
Qed.

(** Neither deletion by review id nor deletion by faculty id touches a
    faculty row. *)
Lemma delete_by_id_keeps_faculty_table st k :
  faculty_table (fst (delete_review_by_id st k)) = faculty_table st
  /\ faculty_table (fst (delete_faculty_reviews st k)) = faculty_table st.
Proof.
  split; [|reflexivity].
  unfold delete_review_by_id.
  destruct (find _ (review_table st)); reflexivity.
Qed.

(** C5, at the failing input.  Faculty 1 has the reviews 4 and 2, so
    its stored averages are 3 and its stored count is 2.  After
    [delete_review_by_id] of the second review the row still says 3 and
    2, although a recomputation over the remaining review gives 4 and
    1; after [delete_faculty_reviews] the row still says 3 and 2
    although no review is left. *)
Theorem stored_aggregates_stale_after_delete_by_id :
  (exists f, get_faculty store_abc_4_2 1 = Some f
             /\ stored_as f 3 3 3 3 3 2)
  /\ (let st := fst (delete_review_by_id store_abc_4_2 2) in
      List.length (reviews_of st 1) = 1%nat
      /\ (exists f, get_faculty st 1 = Some f /\ stored_as f 3 3 3 3 3 2)
      /\ (exists st' f', update_faculty_ratings st 1 = Some st'
                         /\ get_faculty st' 1 = Some f'
                         /\ stored_as f' 4 4 4 4 4 1))
  /\ (let st := fst (delete_faculty_reviews store_abc_4_2 1) in
      reviews_of st 1 = []
      /\ (exists f, get_faculty st 1 = Some f /\ stored_as f 3 3 3 3 3 2)).
Proof.
  cbv zeta. split; [|split; [split; [|split]|split]].
  - eexists. split; [vm_compute; reflexivity|].
    repeat split; vm_compute; reflexivity.
  - reflexivity.
  - eexists. split; [vm_compute; reflexivity|].
    repeat split; vm_compute; reflexivity.
  - do 2 eexists. split; [vm_compute; reflexivity|].
    split; [vm_compute; reflexivity|].
    repeat split; vm_compute; reflexivity.
  - reflexivity.
  - eexists. split; [vm_compute; reflexivity|].
    repeat split; vm_compute; reflexivity.
Qed.

(** *** Consolidation *)

Lemma null_set_faculty_id k r :
  null_faculty_id (set_faculty_id k r) = null_faculty_id r.
Proof. reflexivity. Qed.

Lemma owner_is_null k r : owner_is k (null_faculty_id r) = false.
Proof. reflexivity. Qed.

Lemma owned_among_null others r :
  owned_among others (null_faculty_id r) = false.
Proof. unfold owned_among. now induction others. Qed.

(** The loop of [consolidate_ard] in one step. *)
Lemma fold_merge_into main_id others st :
  fold_left (merge_into main_id) others st
  = mkStore
      (filter (fun f => negb (among others (id f))) (faculty_table st))
      (map (fun r => if owned_among others r then null_faculty_id r else r)
           (review_table st)).
Proof.
  revert st. induction others as [|d ds IH]; intros st; simpl.
  - destruct st as [fs rs]; simpl. f_equal.
    + induction fs; simpl; congruence.
    + induction rs; simpl; congruence.
  - rewrite IH. unfold merge_into; simpl. f_equal.
    + induction (faculty_table st) as [|f fs IHf]; simpl; [reflexivity|].
      destruct (id f =? id d)%nat; simpl; [exact IHf|].
      destruct (among ds (id f)); simpl; [exact IHf | now rewrite IHf].
    + rewrite map_map. apply map_ext. intros r.
      destruct (owner_is (id d) r); simpl; [|reflexivity].
      now rewrite null_set_faculty_id, owned_among_null.
Qed.

Lemma sorted_filter_head (p : Faculty -> bool) l m rest :
  StronglySorted lt (map id l) ->
  filter p l = m :: rest ->
  forall d, In d rest -> id m < id d.
Proof.
  induction l as [|a l IH]; simpl; [discriminate|].
  intros Hs Hfl d Hd. inversion Hs as [|x xs Hs' Hall]; subst.
  destruct (p a).
  - injection Hfl as <- <-.
    apply filter_In in Hd as [Hd _].
    rewrite Forall_forall in Hall. apply Hall. now apply in_map.
  - eauto.
Qed.

Lemma sorted_ids_inj l a b :
  StronglySorted lt (map id l) ->
  In a l -> In b l -> id a = id b -> a = b.
Proof.
  induction l as [|x l IH]; simpl; [tauto|].
  intros Hs Ha Hb E. inversion Hs as [|y ys Hs' Hall]; subst.
  rewrite Forall_forall in Hall.
  destruct Ha as [<-|Ha], Hb as [<-|Hb]; auto.
  - specialize (Hall (id b) (in_map id _ _ Hb)). lia.
  - specialize (Hall (id a) (in_map id _ _ Ha)). lia.
Qed.

Lemma among_true others k :
  among others k = true <-> exists d, In d others /\ k = id d.
Proof.
  unfold among. rewrite existsb_exists.
  split; intros (d & Hd & E); exists d; split; auto;
    now apply Nat.eqb_eq.
Qed.

(** Under rowid order the duplicates are the rows with the name other
    than the main entry. *)
Lemma among_others st n main others f :
  rowid_order st ->
  faculty_named st n = main :: others ->
  In f (faculty_table st) ->
  among others (id f)
  = String.eqb (name f) n && negb (id f =? id main)%nat.
Proof.
  intros Hs Hn Hf.
  assert (Hin : forall d, In d (main :: others) ->
                          In d (faculty_table st) /\ name d = n).
  { intros d Hd. rewrite <- Hn in Hd. unfold faculty_named in Hd.
    apply filter_In in Hd as [? ?]. split; auto. now apply String.eqb_eq. }
  assert (Hlt : forall d, In d others -> id main < id d).
  { eapply sorted_filter_head; eauto. }
  apply eq_true_iff_eq. rewrite among_true, andb_true_iff, negb_true_iff.
  rewrite String.eqb_eq, Nat.eqb_neq. split.
  - intros (d & Hd & E).
    destruct (Hin d (or_intror Hd)) as [Hdt Hdn].
    assert (f = d) by (eapply sorted_ids_inj; eauto). subst d.
    split; [assumption|]. specialize (Hlt f Hd). lia.
  - intros [Hname Hid].
    assert (Hm : In f (main :: others)).
    { rewrite <- Hn. unfold faculty_named. apply filter_In. split; auto.
      now apply String.eqb_eq. }
    destruct Hm as [<-|Hm]; [congruence|]. exists f. auto.
Qed.

Lemma among_main_false st n main others :
  rowid_order st ->
  faculty_named st n = main :: others ->
  among others (id main) = false.
Proof.
  intros Hs Hn.
  destruct (among others (id main)) eqn:E; [|reflexivity].
  apply among_true in E as (d & Hd & E).
  unfold faculty_named in Hn.
  pose proof (sorted_filter_head _ _ _ _ Hs Hn d Hd). lia.
Qed.

Lemma owned_among_true others r :
  owned_among others r = true
  <-> exists d, In d others /\ faculty_id r = Some (id d).
Proof.
  unfold owned_among. rewrite existsb_exists.
  split; intros (d & Hd & E); exists d; split; auto;
    now apply owner_is_true.
Qed.

(** C7 as the code has it.  With at most one record of the name,
    consolidation answers 'No consolidation needed' and changes
    nothing.  With two or more, in a table in rowid order: the main
    entry is the record of the name with the lowest id, and the faculty
    table keeps it and the records of other names and loses every other
    record of the name.  The reviews are not moved: no review row is
    added or dropped, and each row is as it was except that the
    reviews of the deleted records have [faculty_id] [NULL].  The main
    entry owns the reviews it owned before and no other, and the
    reviews of the deleted records belong to no faculty. *)
Theorem consolidate_orphans_reviews_of_duplicates n st :
  (List.length (faculty_named st n) <= 1 ->
   consolidate n st = (st, no_consolidation_needed))
  /\ (forall main others,
        rowid_order st ->
        faculty_named st n = main :: others ->
        others <> [] ->
        exists st',
          consolidate n st = (st', consolidated (S (List.length others)))
          /\ (forall d, In d others -> id main < id d)
          /\ faculty_table st'
             = filter (fun f => negb (String.eqb (name f) n)
                                || (id f =? id main)%nat)
                 (faculty_table st)
          /\ faculty_named st' n = [main]
          /\ review_table st'
             = map (fun r => if owned_among others r
                             then null_faculty_id r else r)
                 (review_table st)
          /\ map review_id (review_table st')
             = map review_id (review_table st)
          /\ reviews_of st' (id main) = reviews_of st (id main)
          /\ (forall d r, In d others -> In r (reviews_of st (id d)) ->
                In (null_faculty_id r) (review_table st')
                /\ forall k, ~ In (null_faculty_id r) (reviews_of st' k))
          /\ (forall d, In d others ->
                get_faculty st' (id d) = None
                /\ reviews_of st' (id d) = [])).
Proof.
  split.
  - intros Hle. unfold consolidate.
    apply Nat.leb_le in Hle. now rewrite Hle.
  - intros main others Hs Hn Hne.
    assert (Hlt : forall d, In d others -> id main < id d).
    { unfold faculty_named in Hn. eapply sorted_filter_head; eauto. }
    eexists. split; [|split; [exact Hlt|]].
    { unfold consolidate. rewrite Hn.
      destruct others as [|d ds]; [congruence|].
      simpl Nat.leb. cbv iota. rewrite fold_merge_into. reflexivity. }
    cbn [faculty_table review_table].
    assert (Ht : filter (fun f => negb (among others (id f)))
                   (faculty_table st)
                 = filter (fun f => negb (String.eqb (name f) n)
                                    || (id f =? id main)%nat)
                     (faculty_table st)).
    { apply filter_ext_in. intros f Hf.
      rewrite (among_others st n main others f Hs Hn Hf).
      now rewrite negb_andb, negb_involutive. }
    split; [exact Ht|]. split.
    { unfold faculty_named. cbn [faculty_table]. rewrite Ht.
      unfold faculty_named in Hn.
      revert Hn Hlt. clear. generalize (faculty_table st) as l.
      induction l as [|f l IH] in main, others |- *; simpl;
        [discriminate|].
      intros Hn Hlt. destruct (String.eqb (name f) n) eqn:E; simpl.
      - injection Hn as -> Hrest. rewrite Nat.eqb_refl. simpl. rewrite E.
        f_equal. rewrite <- Hrest in Hlt. clear - Hlt.
        induction l as [|g l IH]; simpl; [reflexivity|].
        destruct (String.eqb (name g) n) eqn:G; simpl.
        + assert (id main < id g).
          { apply Hlt. simpl. rewrite G. now left. }
          replace (id g =? id main)%nat with false
            by (symmetry; apply Nat.eqb_neq; lia).
          apply IH. intros d Hd. apply Hlt. simpl. rewrite G. now right.
        + rewrite G. apply IH. intros d Hd. apply Hlt. simpl. now rewrite G.
      - rewrite E. eauto. }
    split; [reflexivity|]. split.
    { rewrite map_map. apply map_ext. intros r.
      now destruct (owned_among others r). }
    assert (Hof : forall k,
               reviews_of
                 (mkStore
                    (filter (fun f => negb (among others (id f)))
                       (faculty_table st))
                    (map (fun r => if owned_among others r
                                   then null_faculty_id r else r)
                       (review_table st))) k
               = filter (fun r => negb (owned_among others r))
                   (reviews_of st k)).
    { intros k. unfold reviews_of. cbn [review_table].
      induction (review_table st) as [|r rs IH]; simpl; [reflexivity|].
      destruct (owned_among others r) eqn:A.
      - change (owner_is k (null_faculty_id r)) with false. cbv iota.
        destruct (owner_is k r); simpl; [rewrite A|]; exact IH.
      - destruct (owner_is k r); simpl; [rewrite A; simpl; f_equal|];
          exact IH. }
    split.
    { rewrite Hof. apply filter_all. intros r Hr.
      unfold reviews_of in Hr. apply filter_In in Hr as [_ Hr].
      apply owner_is_true in Hr.
      destruct (owned_among others r) eqn:A; [|reflexivity].
      apply owned_among_true in A as (d & Hd & E).
      specialize (Hlt d Hd). rewrite Hr in E. injection E as E. lia. }
    split.
    { intros d r Hd Hr. unfold reviews_of in Hr.
      apply filter_In in Hr as [Hr Ho]. apply owner_is_true in Ho.
      assert (A : owned_among others r = true)
        by (apply owned_among_true; eauto).
      split.
      - apply in_map_iff. exists r. now rewrite A.
      - intros k Hk. unfold reviews_of in Hk.
        apply filter_In in Hk as [_ Hk]. now rewrite owner_is_null in Hk. }
    intros d Hd. split.
    + unfold get_faculty. cbn [faculty_table].
      destruct (find _ _) as [f|] eqn:F; [|reflexivity].
      apply find_some in F as [Hf E]. apply filter_In in Hf as [_ Hf].
      apply Nat.eqb_eq in E. rewrite E in Hf.
      assert (among others (id d) = true)
        by (apply among_true; eauto).
      rewrite H in Hf. discriminate.
    + rewrite Hof.
      assert (E : forall l,
                 (forall r, In r l -> owned_among others r = true) ->
                 filter (fun r => negb (owned_among others r)) l = []).
      { induction l as [|r l IH]; simpl; intros H; [reflexivity|].
        rewrite (H r) by now left. simpl. apply IH. intros x Hx.
        apply H. now right. }
      apply E. intros r Hr. unfold reviews_of in Hr.
      apply filter_In in Hr as [_ Hr]. apply owner_is_true in Hr.
      apply owned_among_true. eauto.
Qed.

Lemma store_three_ard_rowid_order : rowid_order store_three_ard.
Proof.
  unfold rowid_order; simpl.
  repeat (constructor; [|repeat constructor; lia]). constructor.
Defined.

Lemma consolidate_orphans_reviews_of_duplicates_witness :
  exists st',
    consolidate_ard store_three_ard = (st', consolidated 3)
    /\ faculty_named st' "ARD" = [sample_faculty 1 "ARD"]
    /\ List.length (reviews_of store_three_ard 5) = 3%nat
    /\ List.length (reviews_of st' 1) = 2%nat
    /\ map review_id (review_table st') = [1; 2; 3; 4; 5; 6]%nat.
Proof.
  destruct (proj2 (consolidate_orphans_reviews_of_duplicates
                     "ARD" store_three_ard)
              (sample_faculty 1 "ARD")
              [sample_faculty 3 "ARD"; sample_faculty 5 "ARD"]
              store_three_ard_rowid_order eq_refl)
    as (st' & Hc & _ & _ & Hn & _ & Hids & Hr & _).
  - discriminate.
  - exists st'. split; [exact Hc|]. split; [exact Hn|].
    split; [reflexivity|]. split.
    + simpl id in Hr. rewrite Hr. reflexivity.
    + rewrite Hids. reflexivity.
Defined.

(** The example of the specification, evaluated: the records 1, 3 and
    5 own 2, 0 and 3 reviews; afterwards the records 3 and 5 are gone,
    record 1 owns the two reviews it had and not five, the three
    reviews of record 5 are still in the table and belong to nobody,
    and record 2 and its review are as before. *)
Example consolidate_ard_2_0_3 :
  let st' := fst (consolidate_ard store_three_ard) in
  map (fun f => List.length (reviews_of store_three_ard (id f)))
      (faculty_named store_three_ard "ARD") = [2; 0; 3]%nat
  /\ map id (faculty_table st') = [1; 2]%nat
  /\ map review_id (reviews_of st' 1) = [1; 4]%nat
  /\ map review_id (reviews_of st' 2) = [3]%nat
  /\ map (fun r => (review_id r, faculty_id r)) (review_table st')
     = [(1, Some 1); (2, None); (3, Some 2); (4, Some 1); (5, None);
        (6, None)]%nat.
Proof. repeat split. Qed.

(** Consolidation writes no aggregate column: the row of the main
    entry is the row it was. *)
Lemma find_filter_id (p : Faculty -> bool) l k :
  (forall f, In f l -> id f = k -> p f = true) ->
  find (fun f => (id f =? k)%nat) (filter p l)
  = find (fun f => (id f =? k)%nat) l.
Proof.
  induction l as [|f l IH]; simpl; intros H; [reflexivity|].
  destruct (id f =? k)%nat eqn:E.
  - apply Nat.eqb_eq in E. rewrite (H f (or_introl eq_refl) E). simpl.
    now rewrite E, Nat.eqb_refl.
  - destruct (p f); simpl; [rewrite E|]; apply IH; auto.
Qed.

Lemma consolidate_keeps_main_row n st main others :
  rowid_order st ->
  faculty_named st n = main :: others ->
  get_faculty (fst (consolidate n st)) (id main) = get_faculty st (id main).
Proof.
  intros Hs Hn.
  pose proof (among_main_false st n main others Hs Hn) as Hmain.
  unfold consolidate. rewrite Hn.
  destruct others as [|d ds]; [reflexivity|].
  simpl Nat.leb. cbv iota. rewrite fold_merge_into.
  unfold get_faculty. cbn [fst faculty_table].
  apply find_filter_id. intros f _ E. now rewrite E, Hmain.
Qed.

(** C8, at the failing input.  Two requests to [add_test_data] leave
    two records named ["ARD"], each with one review and with zeros in
    the aggregate columns.  [consolidate_ard] merges the two: the row
    of record 1 is the row it was, all zeros, although record 1 owns a
    review; a recomputation over its reviews gives the averages of
    that review and the count 1. *)
Theorem consolidate_ard_leaves_aggregates_stale :
  let st' := fst (consolidate_ard store_two_test_ard) in
  snd (consolidate_ard store_two_test_ard) = consolidated 2
  /\ map id (faculty_table st') = [1]%nat
  /\ get_faculty st' 1 = get_faculty store_two_test_ard 1
  /\ (exists f, get_faculty st' 1 = Some f /\ stored_as f 0 0 0 0 0 0)
  /\ map review_id (reviews_of st' 1) = [1]%nat
  /\ (exists st'' f', update_faculty_ratings st' 1 = Some st''
                      /\ get_faculty st'' 1 = Some f'
                      /\ stored_as f' 3.5 3.0 3.2 3.8 3.375 1).
Proof.
  cbv zeta. split; [reflexivity|]. split; [reflexivity|].
  split; [reflexivity|]. split; [|split; [reflexivity|]].
  - eexists. split; [vm_compute; reflexivity|].
    repeat split; vm_compute; reflexivity.
  - do 2 eexists. split; [vm_compute; reflexivity|].
    split; [vm_compute; reflexivity|].
    repeat split; vm_compute; reflexivity.
Qed.

(** *** Deleting the reviews of a course *)

Lemma refresh_id reviews f : id (refresh reviews f) = id f.
Proof. unfold refresh. now destruct (filter _ reviews). Qed.

Lemma refresh_twice reviews f :
  refresh reviews (refresh reviews f) = refresh reviews f.
Proof.
  unfold refresh at 1. rewrite refresh_id. unfold refresh.
  destruct (filter _ reviews); reflexivity.
Qed.

Lemma map_id_on {A} (g : A -> A) (l : list A) :
  (forall x, In x l -> g x = x) -> map g l = l.
Proof.
  induction l as [|a l IH]; simpl; intros H; [reflexivity|].
  rewrite H by now left. f_equal. apply IH. intros x Hx. apply H. now right.
Qed.

Lemma get_faculty_in st f :
  rowid_order st -> In f (faculty_table st) -> get_faculty st (id f) = Some f.
Proof.
  intros Hs Hf. unfold get_faculty.
  destruct (find _ (faculty_table st)) as [g|] eqn:F.
  - apply find_some in F as [Hg E]. apply Nat.eqb_eq in E.
    f_equal. eapply sorted_ids_inj; eauto.
  - eapply find_none in F; eauto. now rewrite Nat.eqb_refl in F.
Qed.

(** One call of [update_faculty_ratings] on a table in rowid order. *)
Lemma update_faculty_ratings_table st fid :
  rowid_order st ->
  update_faculty_ratings st fid
  = Some (mkStore
            (map (fun f => if (id f =? fid)%nat
                           then refresh (review_table st) f else f)
                 (faculty_table st))
            (review_table st)).
Proof.
  intros Hs. destruct (get_faculty st fid) as [f0|] eqn:Hf.
  - pose proof (get_faculty_id _ _ _ Hf) as Hid.
    assert (Hin : In f0 (faculty_table st)).
    { unfold get_faculty in Hf. now apply find_some in Hf. }
    assert (Hsame : forall f, In f (faculty_table st) ->
                              (id f =? fid)%nat = true -> f = f0).
    { intros f Hi E. apply Nat.eqb_eq in E.
      eapply sorted_ids_inj; eauto. congruence. }
    destruct (reviews_of st fid) as [|r rs] eqn:Hr.
    + rewrite update_faculty_ratings_no_reviews by assumption.
      f_equal. destruct st as [fs rvs]; simpl in *. f_equal.
      symmetry. apply map_id_on. intros f Hi.
      destruct (id f =? fid)%nat eqn:E; [|reflexivity].
      unfold refresh. apply Nat.eqb_eq in E. rewrite E.
      unfold reviews_of in Hr; simpl in Hr. now rewrite Hr.
    + rewrite (update_faculty_ratings_eq _ _ _ Hf) by congruence.
      f_equal. unfold save_faculty. f_equal.
      apply map_ext_in. intros f Hi. simpl id. rewrite Hid.
      destruct (id f =? fid)%nat eqn:E; [|reflexivity].
      rewrite (Hsame f Hi E). unfold refresh. rewrite Hid.
      fold (reviews_of st fid). now rewrite Hr.
  - unfold update_faculty_ratings. rewrite Hf. f_equal.
    destruct st as [fs rvs]; simpl in *. f_equal.
    symmetry. apply map_id_on. intros f Hi.
    destruct (id f =? fid)%nat eqn:E; [|reflexivity].
    unfold get_faculty in Hf; simpl in Hf.
    eapply find_none in Hf; eauto. congruence.
Qed.

(** The loop over the faculty ids. *)
Lemma update_each_table ids : forall st,
  rowid_order st ->
  update_each st ids
  = Some (mkStore
            (map (fun f => if existsb (fun k => (id f =? k)%nat) ids
                           then refresh (review_table st) f else f)
                 (faculty_table st))
            (review_table st)).
Proof.
  induction ids as [|fid ids IH]; intros st Hs; simpl.
  - f_equal. destruct st as [fs rvs]; simpl. f_equal.
    symmetry. now apply map_id_on.
  - rewrite update_faculty_ratings_table by assumption. simpl bind.
    rewrite IH.
    + simpl. f_equal. f_equal. rewrite map_map. apply map_ext. intros f.
      destruct (id f =? fid)%nat eqn:E; simpl.
      * rewrite refresh_id, refresh_twice.
        now destruct (existsb _ ids).
      * reflexivity.
    + unfold rowid_order in *. simpl. rewrite map_map.
      erewrite map_ext; [exact Hs|].
      intros f. simpl. destruct (id f =? fid)%nat; [apply refresh_id|reflexivity].
Qed.

Lemma refresh_reviews_of st f :
  refresh (review_table st) f
  = match reviews_of st (id f) with
    | [] => f
    | r :: rs => recomputed f (r :: rs)
    end.
Proof. reflexivity. Qed.

Lemma get_faculty_map st g rs f :
  rowid_order st ->
  (forall x, id (g x) = id x) ->
  In f (faculty_table st) ->
  get_faculty (mkStore (map g (faculty_table st)) rs) (id f) = Some (g f).
Proof.
  intros Hs Hg Hf.
  rewrite <- (Hg f). apply get_faculty_in.
  - unfold rowid_order in *. simpl. rewrite map_map.
    erewrite map_ext; [exact Hs | exact Hg].
  - simpl. now apply in_map.
Qed.

(** The route on a table in rowid order: the reviews of the course go,
    and every row is refreshed against the reviews that stay. *)
Lemma delete_course_reviews_eq st course :
  rowid_order st ->
  let kept := filter (fun r => negb (String.eqb (course_code r) course))
                (review_table st) in
  delete_course_reviews st course
  = (mkStore (map (refresh kept) (faculty_table st)) kept,
     reviews_deleted
       (List.length (filter (fun r => String.eqb (course_code r) course)
                       (review_table st)))).
Proof.
  intros Hs kept. unfold delete_course_reviews, delete_where.
  cbv beta iota zeta. fold kept.
  rewrite update_each_table by exact Hs. cbn [faculty_table review_table].
  f_equal. f_equal. apply map_ext_in. intros f Hf.
  destruct (existsb _ _) eqn:E; [reflexivity|].
  unfold refresh.
  destruct (filter (fun r => owner_is (id f) r) kept)
    as [|r rs] eqn:Hr; [reflexivity|].
  exfalso. rewrite <- not_true_iff_false in E. apply E.
  apply existsb_exists. exists (id f). split; [|apply Nat.eqb_refl].
  apply in_map. unfold faculty_with_reviews. apply filter_In.
  split; [exact Hf|]. unfold reviews_of. cbn [review_table].
  now rewrite Hr.
Qed.

Lemma reviews_kept rs k course :
  (forall r, In r (filter (fun r => owner_is k r) rs) ->
             course_code r <> course) ->
  filter (fun r => owner_is k r)
    (filter (fun r => negb (String.eqb (course_code r) course)) rs)
  = filter (fun r => owner_is k r) rs.
Proof.
  induction rs as [|r rs IH]; simpl; intros Hown; [reflexivity|].
  destruct (owner_is k r) eqn:E.
  - assert (Hc : String.eqb (course_code r) course = false).
    { apply String.eqb_neq, Hown. now left. }
    rewrite Hc. simpl. rewrite E. f_equal. apply IH.
    intros x Hx. apply Hown. now right.
  - destruct (negb _); simpl; [rewrite E|]; apply IH; exact Hown.
Qed.

(** C6 as the code has it.  On a faculty table in rowid order the
    route deletes exactly the reviews of the course and answers with
    their number; every faculty that still has a review afterwards gets
    its stored aggregates recomputed from the reviews it still has,
    whether or not it owned a deleted review; a faculty none of whose
    reviews is of the course keeps its reviews, and its row is
    unchanged when it has no review or when its stored aggregates
    already were the recomputed ones. *)
Theorem delete_course_reviews_recomputes st course :
  rowid_order st ->
  exists st',
    delete_course_reviews st course
    = (st', reviews_deleted
              (List.length (filter (fun r => String.eqb (course_code r) course)
                              (review_table st))))
    /\ review_table st'
       = filter (fun r => negb (String.eqb (course_code r) course))
           (review_table st)
    /\ (forall f, In f (faculty_table st) ->
          reviews_of st' (id f) <> [] ->
          get_faculty st' (id f)
          = Some (recomputed f (reviews_of st' (id f))))
    /\ (forall f, In f (faculty_table st) ->
          (forall r, In r (reviews_of st (id f)) -> course_code r <> course) ->
          reviews_of st' (id f) = reviews_of st (id f)
          /\ (reviews_of st (id f) = []
              \/ recomputed f (reviews_of st (id f)) = f ->
              get_faculty st' (id f) = Some f)).
Proof.
  intros Hs. eexists. split; [apply delete_course_reviews_eq, Hs|].
  cbv zeta.
  set (kept := filter _ (review_table st)).
  split; [reflexivity|].
  assert (Hg : forall f, In f (faculty_table st) ->
             get_faculty (mkStore (map (refresh kept) (faculty_table st)) kept)
               (id f) = Some (refresh kept f)).
  { intros f Hf. apply get_faculty_map; auto. apply refresh_id. }
  split.
  - intros f Hf Hr. rewrite (Hg f Hf).
    unfold reviews_of in *; simpl in *. unfold refresh.
    destruct (filter _ kept); [congruence | reflexivity].
  - intros f Hf Hown.
    assert (Hsame : reviews_of
                      (mkStore (map (refresh kept) (faculty_table st)) kept)
                      (id f) = reviews_of st (id f)).
    { apply reviews_kept. exact Hown. }
    split; [exact Hsame|].
    intros Hfresh. rewrite (Hg f Hf). f_equal.
    change (refresh kept f)
      with (refresh (review_table
                       (mkStore (map (refresh kept) (faculty_table st)) kept))
              f).
    rewrite refresh_reviews_of, Hsame.
    destruct Hfresh as [-> | Hfresh]; [reflexivity|].
    destruct (reviews_of st (id f)); [reflexivity | exact Hfresh].
Qed.

Lemma delete_course_reviews_recomputes_witness :
  exists st' f,
    delete_course_reviews store_abc_and_test "TEST101"
    = (st', reviews_deleted 1)
    /\ get_faculty st' 1 = Some f
    /\ stored_as f 4 4 4 4 4 1.
Proof.
  assert (Hs : rowid_order store_abc_and_test).
  { unfold rowid_order. vm_compute.
    repeat (constructor; [|repeat constructor; lia]). constructor. }
  destruct (delete_course_reviews_recomputes store_abc_and_test "TEST101" Hs)
    as (st' & Hd & _ & Hre & _).
  assert (E : st' = fst (delete_course_reviews store_abc_and_test "TEST101"))
    by now rewrite Hd.
  exists st'. eexists. split; [exact Hd|]. split.
  - rewrite E. vm_compute. reflexivity.
  - repeat split; vm_compute; reflexivity.
Defined.

(** C6 as the claim words it fails.  Deleting the reviews of CSE110
    deletes the one review of faculty 1.  Faculty 2 owned no deleted
    review, yet its stored aggregates change from the initial zeros to
    the averages of its review; faculty 1, which owned the deleted
    review and is left without reviews, is not recomputed. *)
Lemma delete_course_reviews_touches_other_faculty :
  let st' := fst (delete_course_reviews store_abc_and_test "CSE110") in
  snd (delete_course_reviews store_abc_and_test "CSE110") = reviews_deleted 1
  /\ map course_code (reviews_of store_abc_and_test 2) = ["TEST101"]
  /\ reviews_of st' 2 = reviews_of store_abc_and_test 2
  /\ (exists f, get_faculty store_abc_and_test 2 = Some f
                /\ stored_as f 0 0 0 0 0 0)
  /\ (exists f, get_faculty st' 2 = Some f
                /\ stored_as f 3.5 3.0 3.2 3.8 3.375 1)
  /\ get_faculty st' 2 <> get_faculty store_abc_and_test 2
  /\ reviews_of st' 1 = []
  /\ get_faculty st' 1 = get_faculty store_abc_and_test 1.
Proof.
  cbv zeta. split; [reflexivity|]. split; [reflexivity|].
  split; [reflexivity|]. split.
  { eexists. split; [vm_compute; reflexivity|].
    repeat split; vm_compute; reflexivity. }
  split.
  { eexists. split; [vm_compute; reflexivity|].
    repeat split; vm_compute; reflexivity. }
  split; [|split; reflexivity].
  vm_compute. discriminate.
Qed.

(** *** Extraction *)

Lemma from_match_token m :
  App.from_match m
  = if token_ok m then Some (bind m App.py_float) else None.
Proof.
  destruct m as [tok|]; simpl; [|reflexivity].
  now destruct (App.py_float tok).
Qed.

Lemma not_none_overall_unset a b c d :
  App.not_none [a; b; c; d; None] = App.not_none [a; b; c; d].
Proof. destruct a, b, c, d; reflexivity. Qed.

(** What [extract_ratings] returns when it returns. *)
Lemma extract_ratings_Some text r :
  App.extract_ratings text = Some r ->
  App.from_match (App.re_search App.effectiveness_pattern text)
  = Some (App.teaching_effectiveness r)
  /\ App.from_match (App.re_search App.engagement_pattern text)
     = Some (App.student_engagement r)
  /\ App.from_match (App.re_search App.clarity_pattern text)
     = Some (App.clarity r)
  /\ App.from_match (App.re_search App.professionalism_pattern text)
     = Some (App.professionalism r)
  /\ match App.re_search App.overall_pattern text with
     | Some tok => option_map Some (App.py_float tok) = Some (App.overall r)
     | None =>
         App.overall r
         = match parsed_sub_ratings r with
           | [] => None
           | _ :: _ => Some (py_sum (parsed_sub_ratings r)
                             / len_Q (parsed_sub_ratings r))%Q
           end
     end.
Proof.
  unfold App.extract_ratings. intros H.
  apply bind_Some in H as (te & H1 & H).
  apply bind_Some in H as (se & H2 & H).
  apply bind_Some in H as (cl & H3 & H).
  apply bind_Some in H as (pr & H4 & H).
  apply bind_Some in H as (ov & H5 & H).
  injection H as <-. simpl.
  repeat (split; [assumption|]).
  destruct (App.re_search App.overall_pattern text) as [tok|];
    [exact H5|].
  unfold parsed_sub_ratings; simpl App.teaching_effectiveness;
    simpl App.student_engagement; simpl App.clarity;
    simpl App.professionalism.
  rewrite not_none_overall_unset in H5.
  destruct (App.not_none [te; se; cl; pr]); now injection H5 as <-.
Qed.

(** Each sub-rating of a result is the number of its labelled line,
    and [None] without such a line. *)
Lemma extract_ratings_sub_ratings text r :
  App.extract_ratings text = Some r ->
  App.teaching_effectiveness r
  = bind (App.re_search App.effectiveness_pattern text) App.py_float
  /\ App.student_engagement r
     = bind (App.re_search App.engagement_pattern text) App.py_float
  /\ App.clarity r
     = bind (App.re_search App.clarity_pattern text) App.py_float
  /\ App.professionalism r
     = bind (App.re_search App.professionalism_pattern text) App.py_float.
Proof.
  intros H.
  apply extract_ratings_Some in H as (H1 & H2 & H3 & H4 & _).
  rewrite from_match_token in H1, H2, H3, H4.
  repeat split;
    match goal with
    | [ H : (if token_ok ?m then _ else _) = Some ?v |- ?v = bind ?m _ ] =>
        destruct (token_ok m); [now injection H as <- | discriminate]
    end.
Qed.

(** [extract_ratings] returns exactly when [float] accepts the token of
    every pattern that matched. *)
Lemma extract_ratings_returns text :
  let ok :=
    token_ok (App.re_search App.effectiveness_pattern text)
    && token_ok (App.re_search App.engagement_pattern text)
    && token_ok (App.re_search App.clarity_pattern text)
    && token_ok (App.re_search App.professionalism_pattern text)
    && token_ok (App.re_search App.overall_pattern text) in
  if ok then exists r, App.extract_ratings text = Some r
  else App.extract_ratings text = None.
Proof.
  cbv zeta. unfold App.extract_ratings. rewrite !from_match_token.
  destruct (token_ok (App.re_search App.effectiveness_pattern text));
    cbn [bind andb]; [|reflexivity].
  destruct (token_ok (App.re_search App.engagement_pattern text));
    cbn [bind andb]; [|reflexivity].
  destruct (token_ok (App.re_search App.clarity_pattern text));
    cbn [bind andb]; [|reflexivity].
  destruct (token_ok (App.re_search App.professionalism_pattern text));
    cbn [bind andb]; [|reflexivity].
  destruct (App.re_search App.overall_pattern text) as [tok|];
    cbn [token_ok].
  - destruct (App.py_float tok); cbn [bind option_map]; eauto.
  - match goal with
    | [ |- context [App.not_none ?l] ] => destruct (App.not_none l)
    end; cbn [bind]; eauto.
Qed.

(** C3 as the code has it.  For every text: when the text holds the
    sentinel, or [float] rejects the token of some pattern that
    matched, no ratings are returned, with or without an overall line
    in the text.  On every other text ratings are returned: if the text
    has an overall line, [overall] is the number of that line, whatever
    the sub-ratings are; otherwise [overall] is the sum of the
    sub-ratings that were parsed divided by their number, with nothing
    added for the missing ones, and it is [None] when no sub-rating was
    parsed. *)
Theorem analyze_feedback_overall text :
  let m_te := App.re_search App.effectiveness_pattern text in
  let m_se := App.re_search App.engagement_pattern text in
  let m_cl := App.re_search App.clarity_pattern text in
  let m_pr := App.re_search App.professionalism_pattern text in
  let m_ov := App.re_search App.overall_pattern text in
  let ok := token_ok m_te && token_ok m_se && token_ok m_cl
            && token_ok m_pr && token_ok m_ov in
  if App.contains "NO_FEEDBACK_FOUND" text || negb ok
  then App.analyze_feedback text = None
  else
    exists r,
      App.analyze_feedback text = Some r
      /\ parsed_sub_ratings r
         = App.not_none [bind m_te App.py_float; bind m_se App.py_float;
                         bind m_cl App.py_float; bind m_pr App.py_float]
      /\ match m_ov with
         | Some tok =>
             exists x, App.py_float tok = Some x /\ App.overall r = Some x
         | None =>
             match parsed_sub_ratings r with
             | [] => App.overall r = None
             | _ :: _ =>
                 App.overall r
                 = Some (py_sum (parsed_sub_ratings r)
                         / len_Q (parsed_sub_ratings r))%Q
             end
         end.
Proof.
  cbv zeta. unfold App.analyze_feedback.
  destruct (App.contains _ text); [reflexivity|]. cbn [orb].
  pose proof (extract_ratings_returns text) as H. cbv zeta in H.
  destruct (_ && _); cbn [negb]; [|exact H].
  destruct H as [r Hr]. exists r. split; [exact Hr|].
  destruct (extract_ratings_sub_ratings _ _ Hr) as (H1 & H2 & H3 & H4).
  split.
  - unfold parsed_sub_ratings. now rewrite H1, H2, H3, H4.
  - apply extract_ratings_Some in Hr as (_ & _ & _ & _ & H5).
    destruct (App.re_search App.overall_pattern text) as [tok|].
    + destruct (App.py_float tok) as [x|]; [|discriminate].
      injection H5 as <-. eauto.
    + destruct (parsed_sub_ratings r); exact H5.
Qed.

Lemma analyze_feedback_overall_witness :
  (exists r,
     App.analyze_feedback response_with_overall = Some r
     /\ parsed_sub_ratings r = [4; 3; 2; 5]%Q
     /\ App.overall r = Some 3.0%Q)
  /\ (exists r x,
        App.analyze_feedback response_4_3_2_5 = Some r
        /\ parsed_sub_ratings r = [4; 3; 2; 5]%Q
        /\ App.overall r = Some x /\ (x == 3.5)%Q).
Proof.
  split.
  - pose proof (analyze_feedback_overall response_with_overall) as H.
    cbv zeta in H.
    match type of H with
    | if ?c then _ else _ =>
        replace c with false in H by (vm_compute; reflexivity)
    end.
    destruct H as (r & Hr & Hsub & Hov).
    replace (App.re_search App.overall_pattern response_with_overall)
      with (Some "3.0") in Hov by (vm_compute; reflexivity).
    destruct Hov as (x & Hx & Hov).
    exists r. split; [exact Hr|]. split.
    + rewrite Hsub. vm_compute. reflexivity.
    + rewrite Hov, <- Hx. vm_compute. reflexivity.
  - pose proof (analyze_feedback_overall response_4_3_2_5) as H.
    cbv zeta in H.
    match type of H with
    | if ?c then _ else _ =>
        replace c with false in H by (vm_compute; reflexivity)
    end.
    destruct H as (r & Hr & Hsub & Hov).
    replace (App.re_search App.overall_pattern response_4_3_2_5)
      with (@None string) in Hov by (vm_compute; reflexivity).
    assert (Hsub' : parsed_sub_ratings r = [4; 3; 2; 5]%Q).
    { rewrite Hsub. vm_compute. reflexivity. }
    rewrite Hsub' in Hov.
    eexists r, _. split; [exact Hr|]. split; [exact Hsub'|].
    split; [exact Hov | vm_compute; reflexivity].
Defined.

(** C3 as the claim words it fails.  The text has the overall line
    [3.0/5], which the overall pattern finds and [float] accepts, and a
    sub-rating line whose token [1.2.3] [float] rejects: no ratings are
    returned, so the number of the overall line is not returned either.
    The same holds for a text with the sentinel. *)
Lemma overall_line_is_lost_with_the_ratings :
  App.re_search App.overall_pattern
    "Teaching effectiveness: 1.2.3/5 OVERALL RATING FOR ARD: 3.0/5"
  = Some "3.0"
  /\ App.py_float "3.0" = Some 3.0%Q
  /\ App.analyze_feedback
       "Teaching effectiveness: 1.2.3/5 OVERALL RATING FOR ARD: 3.0/5"
     = None
  /\ App.re_search App.overall_pattern
       "NO_FEEDBACK_FOUND OVERALL RATING FOR ARD: 3.0/5" = Some "3.0"
  /\ App.analyze_feedback "NO_FEEDBACK_FOUND OVERALL RATING FOR ARD: 3.0/5"
     = None.
Proof. repeat split; vm_compute; reflexivity. Qed.

(** The two examples of the specification: an explicit overall line
    wins over the sub-ratings, whose mean is 3.5; sub-ratings without
    an overall line give their mean; a text without any rating line
    gives [None] for all five. *)
Example analyze_feedback_examples :
  (exists r, App.analyze_feedback response_with_overall = Some r
             /\ parsed_sub_ratings r = [4; 3; 2; 5]%Q
             /\ App.overall r = Some 3.0%Q)
  /\ (exists r, App.analyze_feedback "Student engagement: 4.5/5" = Some r
                /\ App.teaching_effectiveness r = None
                /\ App.student_engagement r = Some 4.5%Q
                /\ App.overall r = Some (4.5 / 1)%Q)
  /\ App.analyze_feedback "No ratings in this text."
     = Some (App.mkRatings None None None None None).
Proof.
  split; [|split].
  - eexists. split; [vm_compute; reflexivity|]. split; reflexivity.
  - eexists. split; [vm_compute; reflexivity|]. repeat split.
  - vm_compute. reflexivity.
Qed.

(** C4 as the code has it.  On a text without the sentinel:
    when [float] accepts the token of every pattern that matched,
    extraction returns ratings in which each sub-rating is the number
    of its line as written, whatever its size, and is [None] only when
    its pattern did not match; when [float] rejects the token of some
    pattern that matched, extraction returns no ratings at all. *)
Theorem analyze_feedback_fields text :
  App.contains "NO_FEEDBACK_FOUND" text = false ->
  let m_te := App.re_search App.effectiveness_pattern text in
  let m_se := App.re_search App.engagement_pattern text in
  let m_cl := App.re_search App.clarity_pattern text in
  let m_pr := App.re_search App.professionalism_pattern text in
  let m_ov := App.re_search App.overall_pattern text in
  (token_ok m_te && token_ok m_se && token_ok m_cl && token_ok m_pr
   && token_ok m_ov = true ->
   exists r, App.analyze_feedback text = Some r
             /\ App.teaching_effectiveness r = bind m_te App.py_float
             /\ App.student_engagement r = bind m_se App.py_float
             /\ App.clarity r = bind m_cl App.py_float
             /\ App.professionalism r = bind m_pr App.py_float)
  /\ (token_ok m_te && token_ok m_se && token_ok m_cl && token_ok m_pr
      && token_ok m_ov = false ->
      App.analyze_feedback text = None
      /\ App.analyze_images_with_gemini text = None).
Proof.
  intros Hs. cbv zeta.
  pose proof (extract_ratings_returns text) as H. cbv zeta in H.
  split; intros Hok; rewrite Hok in H.
  - destruct H as [r Hr]. exists r. split.
    + unfold App.analyze_feedback. now rewrite Hs.
    + now apply extract_ratings_sub_ratings.
  - unfold App.analyze_feedback, App.analyze_images_with_gemini.
    rewrite Hs. auto.
Qed.

Lemma analyze_feedback_fields_witness :
  (exists r, App.analyze_feedback "Teaching effectiveness: 9.5/5" = Some r
             /\ App.teaching_effectiveness r = Some 9.5%Q
             /\ App.student_engagement r = None)
  /\ App.analyze_feedback
       "Teaching effectiveness: 1.2.3/5 Student engagement: 4/5" = None.
Proof.
  split.
  - destruct (proj1 (analyze_feedback_fields
                       "Teaching effectiveness: 9.5/5" eq_refl) eq_refl)
      as (r & Hr & Hte & Hse & _).
    exists r. split; [exact Hr|]. split; [exact Hte | exact Hse].
  - exact (proj1 (proj2 (analyze_feedback_fields
                    "Teaching effectiveness: 1.2.3/5 Student engagement: 4/5"
                    eq_refl) eq_refl)).
Defined.

(** C4 as the claim words it fails twice.  The token [1.2.3] matches
    [[\d.]+] and [float] rejects it: no ratings are returned, not even
    the well-formed engagement rating 4 of the same text.  The number
    9.5 is outside 0-5 and is returned as the sub-rating, not dropped. *)
Lemma malformed_number_is_fatal_and_range_is_unchecked :
  App.re_search App.effectiveness_pattern
    "Teaching effectiveness: 1.2.3/5 Student engagement: 4/5" = Some "1.2.3"
  /\ App.re_search App.engagement_pattern
       "Teaching effectiveness: 1.2.3/5 Student engagement: 4/5" = Some "4"
  /\ App.py_float "1.2.3" = None
  /\ App.analyze_feedback
       "Teaching effectiveness: 1.2.3/5 Student engagement: 4/5" = None
  /\ (exists r, App.analyze_feedback "Teaching effectiveness: 9.5/5" = Some r
                /\ App.teaching_effectiveness r = Some 9.5%Q
                /\ ~ (9.5 <= 5)%Q).
Proof.
  repeat split; try (vm_compute; reflexivity).
  eexists. split; [vm_compute; reflexivity|]. split; [reflexivity|].
  intros H. vm_compute in H. now apply H.
Qed.

(** *** Rowid order is an invariant of the routes *)

Lemma list_max_lt l : Forall (fun k => k < S (list_max l)) l.
Proof.
  apply Forall_forall. intros k Hk.
  pose proof (proj1 (list_max_le l (list_max l)) (Nat.le_refl _)) as H.
  rewrite Forall_forall in H. specialize (H k Hk). lia.
Qed.

Lemma sorted_append_next l :
  StronglySorted lt l -> StronglySorted lt (l ++ [next_id l]).
Proof.
  unfold next_id. pose proof (list_max_lt l) as Hmax. revert Hmax.
  generalize (S (list_max l)) as m.
  induction l as [|a l IH]; simpl; intros m Hmax Hs.
  - repeat constructor.
  - inversion Hs as [|x xs Hs' Hall]; subst.
    inversion Hmax as [|y ys Ha Hrest]; subst.
    constructor; [now apply IH|].
    apply Forall_app. split; [assumption|]. now repeat constructor.
Qed.

Lemma sorted_filter_ids (p : Faculty -> bool) l :
  StronglySorted lt (map id l) -> StronglySorted lt (map id (filter p l)).
Proof.
  induction l as [|a l IH]; simpl; intros Hs; [constructor|].
  inversion Hs as [|x xs Hs' Hall]; subst.
  destruct (p a); simpl; [|auto].
  constructor; [auto|].
  rewrite Forall_forall in *. intros k Hk. apply Hall.
  apply in_map_iff in Hk as (f & <- & Hf).
  apply filter_In in Hf as [Hf _]. now apply in_map.
Qed.

Lemma update_faculty_ratings_ids st fid st' :
  update_faculty_ratings st fid = Some st' ->
  map id (faculty_table st') = map id (faculty_table st).
Proof.
  unfold update_faculty_ratings.
  destruct (get_faculty st fid) as [f|]; [|now intros [= <-]].
  destruct (reviews_of st (id f)) as [|r rs]; [now intros [= <-]|].
  rewrite !mean_map_nonempty by discriminate. cbn [bind mean].
  intros [= <-]. unfold save_faculty. cbn [faculty_table].
  rewrite map_map. apply map_ext. intros g. cbn [id].
  destruct (id g =? id f)%nat eqn:E; [|reflexivity].
  apply Nat.eqb_eq in E. now rewrite E.
Qed.

Lemma update_each_ids ids : forall st st',
  update_each st ids = Some st' ->
  map id (faculty_table st') = map id (faculty_table st).
Proof.
  induction ids as [|k ids IH]; simpl; intros st st' H.
  - now injection H as <-.
  - apply bind_Some in H as (st1 & H1 & H2).
    rewrite (IH _ _ H2). exact (update_faculty_ratings_ids _ _ _ H1).
Qed.

Lemma get_or_create_faculty_order st n dept :
  rowid_order st -> rowid_order (fst (get_or_create_faculty st n dept)).
Proof.
  unfold rowid_order, get_or_create_faculty. intros Hs.
  destruct (faculty_named st n); [|exact Hs].
  simpl. rewrite map_app. simpl. now apply sorted_append_next.
Qed.

(** Every route keeps the faculty table in rowid order. *)
Theorem route_step_rowid_order st st' :
  rowid_order st -> route_step st st' -> rowid_order st'.
Proof.
  intros Hs Hstep. destruct Hstep.
  - now apply get_or_create_faculty_order.
  - unfold add_faculty_review.
    destruct (get_faculty st fid) as [f|].
    + unfold insert_review. cbv beta iota zeta.
      destruct (update_faculty_ratings _ fid) as [st3|] eqn:E; simpl.
      * unfold rowid_order.
        now rewrite (update_faculty_ratings_ids _ _ _ E).
      * exact Hs.
    + destruct (rq_faculty_name rq) as [n|]; [|exact Hs].
      pose proof (get_or_create_faculty_order st n (rq_department rq) Hs)
        as Hs1.
      destruct (get_or_create_faculty st n (rq_department rq)) as [st1 k].
      unfold insert_review. cbv beta iota zeta.
      destruct (update_faculty_ratings _ k) as [st3|] eqn:E; simpl.
      * unfold rowid_order.
        now rewrite (update_faculty_ratings_ids _ _ _ E).
      * exact Hs1.
  - unfold rowid_order, add_test_data. simpl. rewrite map_app. simpl.
    now apply sorted_append_next.
  - unfold delete_course_reviews, delete_where. cbv beta iota zeta.
    destruct (update_each _ _) as [st2|] eqn:E; simpl.
    + unfold rowid_order. now rewrite (update_each_ids _ _ _ E).
    + exact Hs.
  - unfold delete_faculty_course_reviews, delete_where.
    destruct (get_faculty st fid); [|exact Hs]. cbv beta iota zeta.
    destruct (update_faculty_ratings _ fid) as [st2|] eqn:E; simpl.
    + unfold rowid_order. now rewrite (update_faculty_ratings_ids _ _ _ E).
    + exact Hs.
  - unfold delete_faculty_reviews_by_name, delete_where.
    destruct (faculty_named st (upper n)) as [|f fs]; [exact Hs|].
    cbv beta iota zeta.
    destruct (update_faculty_ratings _ (id f)) as [st2|] eqn:E; simpl.
    + unfold rowid_order. now rewrite (update_faculty_ratings_ids _ _ _ E).
    + exact Hs.
  - exact Hs.
  - unfold delete_review_by_id.
    destruct (find _ (review_table st)); exact Hs.
  - exact Hs.
  - unfold consolidate_ard, consolidate.
    destruct (List.length (faculty_named st "ARD") <=? 1)%nat; [exact Hs|].
    destruct (faculty_named st "ARD") as [|main others]; [exact Hs|].
    simpl fst. rewrite fold_merge_into. unfold rowid_order. simpl.
    now apply sorted_filter_ids.
Qed.

(** Every store that requests can produce is in rowid order. *)
Corollary reachable_rowid_order st : reachable st -> rowid_order st.
Proof.
  induction 1 as [|st st' _ IH Hstep].
  - constructor.
  - eapply route_step_rowid_order; eauto.
Qed.

(* ================================================================== *)
(** * Further properties of the routes *)

(** *** Looking a faculty up by name *)

Lemma faculty_named_app fs gs rs n :
  faculty_named (mkStore (fs ++ gs) rs) n
  = (faculty_named (mkStore fs rs) n ++ faculty_named (mkStore gs rs) n)%list.
Proof. unfold faculty_named; simpl. apply filter_app. Qed.

Lemma get_or_create_faculty_head st n dept :
  exists f rest,
    faculty_named (fst (get_or_create_faculty st n dept)) n = f :: rest
    /\ id f = snd (get_or_create_faculty st n dept)
    /\ review_table (fst (get_or_create_faculty st n dept)) = review_table st.
Proof.
  unfold get_or_create_faculty.
  destruct (faculty_named st n) as [|f rest] eqn:E; simpl.
  - do 2 eexists. rewrite faculty_named_app.
    replace (faculty_named (mkStore (faculty_table st) (review_table st)) n)
      with (faculty_named st n) by reflexivity.
    rewrite E. unfold faculty_named; simpl. rewrite String.eqb_refl.
    repeat split.
  - eauto.
Qed.

(** X1.  [get_or_create_faculty] answers the id of the first row of
    the name in the store it returns; a second call answers the same
    id and changes nothing; no review is touched; a known name leaves
    the store as it is; an unknown name appends one row with that
    name, an id above every id of the table and all six aggregate
    columns at zero. *)
Theorem get_or_create_faculty_spec st n dept :
  let st' := fst (get_or_create_faculty st n dept) in
  let k := snd (get_or_create_faculty st n dept) in
  (exists f rest, faculty_named st' n = f :: rest /\ id f = k)
  /\ (forall dept', get_or_create_faculty st' n dept' = (st', k))
  /\ review_table st' = review_table st
  /\ (faculty_named st n <> [] -> st' = st)
  /\ (faculty_named st n = [] ->
      faculty_table st'
      = (faculty_table st ++ [mkFaculty k n dept 0 0 0 0 0 0])%list
      /\ forall f, In f (faculty_table st) -> id f < k).
Proof.
  cbv zeta. unfold get_or_create_faculty.
  destruct (faculty_named st n) as [|f rest] eqn:E; simpl.
  - assert (Hn : faculty_named
                   (mkStore (faculty_table st ++
                      [mkFaculty (next_id (map id (faculty_table st))) n dept
                         0 0 0 0 0 0]) (review_table st)) n
                 = [mkFaculty (next_id (map id (faculty_table st))) n dept
                      0 0 0 0 0 0]).
    { rewrite faculty_named_app.
      replace (faculty_named (mkStore (faculty_table st) (review_table st)) n)
        with (faculty_named st n) by reflexivity.
      rewrite E. unfold faculty_named; simpl. now rewrite String.eqb_refl. }
    split; [eauto|]. split.
    { intros dept'. now rewrite Hn. }
    split; [reflexivity|]. split; [congruence|]. intros _.
    split; [reflexivity|]. intros f Hf. unfold next_id.
    pose proof (list_max_lt (map id (faculty_table st))) as H.
    rewrite Forall_forall in H. apply H. now apply in_map.
  - split; [eauto|]. split.
    { intros dept'. now rewrite E. }
    split; [reflexivity|]. split; [reflexivity|]. discriminate.
Qed.

Lemma upper_char_twice c : upper_char (upper_char c) = upper_char c.
Proof.
  destruct c as [[] [] [] [] [] [] [] []]; reflexivity.
Qed.

Lemma upper_twice s : upper (upper s) = upper s.
Proof.
  induction s as [|c s IH]; simpl; [reflexivity|].
  now rewrite upper_char_twice, IH.
Qed.

(** X2.  [search_faculty_by_name] finds what [get_or_create_faculty]
    stored under the upper-cased name, with the id that call answered;
    it does not depend on the ASCII case of its argument; and the name
    it answers is always its own upper-casing, so a row whose stored
    name has a lower-case letter is never the answer. *)
Theorem search_faculty_by_name_spec st n dept :
  (exists d,
     search_faculty_by_name (fst (get_or_create_faculty st (upper n) dept)) n
     = Some (snd (get_or_create_faculty st (upper n) dept), upper n, d))
  /\ search_faculty_by_name st (upper n) = search_faculty_by_name st n
  /\ (forall k nm d, search_faculty_by_name st n = Some (k, nm, d) ->
                     nm = upper n /\ upper nm = nm).
Proof.
  split; [|split].
  - destruct (get_or_create_faculty_head st (upper n) dept)
      as (f & rest & Hn & Hid & _).
    unfold search_faculty_by_name. rewrite Hn.
    exists (department f). rewrite Hid. repeat f_equal.
    assert (In f (faculty_named
                    (fst (get_or_create_faculty st (upper n) dept)) (upper n)))
      by (rewrite Hn; now left).
    unfold faculty_named in H. apply filter_In in H as [_ H].
    now apply String.eqb_eq.
  - unfold search_faculty_by_name. now rewrite upper_twice.
  - intros k nm d. unfold search_faculty_by_name.
    destruct (faculty_named st (upper n)) as [|f rest] eqn:E; [discriminate|].
    intros [= <- <- <-].
    assert (In f (faculty_named st (upper n))) by (rewrite E; now left).
    unfold faculty_named in H. apply filter_In in H as [_ H].
    apply String.eqb_eq in H. rewrite H. split; [reflexivity|].
    apply upper_twice.
Qed.

(** A name stored with a lower-case letter by [add_faculty] cannot be
    searched for. *)
Example search_misses_mixed_case :
  let st := fst (add_faculty empty_store (Some "Smith") None) in
  snd (add_faculty empty_store (Some "Smith") None) = Some 1%nat
  /\ search_faculty_by_name st "Smith" = None
  /\ search_faculty_by_name st "SMITH" = None.
Proof. repeat split. Qed.

(** *** Posting a review *)

Lemma next_id_above (ids : list nat) k : In k ids -> k < next_id ids.
Proof.
  intros Hk. pose proof (list_max_lt ids) as H.
  rewrite Forall_forall in H. now apply H.
Qed.

Lemma get_faculty_exists st k f :
  In f (faculty_table st) -> id f = k -> exists g, get_faculty st k = Some g.
Proof.
  intros Hin Hid. unfold get_faculty.
  destruct (find _ (faculty_table st)) as [g|] eqn:F; [eauto|].
  eapply find_none in F; eauto. apply Nat.eqb_neq in F. contradiction.
Qed.

(** X3.  For a body that carries ['course_code'] and the four ratings
    as numbers, which is what a [ReviewRequest] is (a body without
    them makes the route raise, and the answer is 500):
    [add_faculty_review] answers 404 and changes nothing when the id
    is unknown and the body has no ['faculty_name'].  In every other
    case it answers with a new review id above every review id of the
    table; the review table is the old one with the posted review
    appended; and the review belongs to the faculty of the URL if that
    id exists, otherwise to the faculty that [get_or_create_faculty]
    answers for the name in the body. *)
Theorem add_faculty_review_spec st fid rq now :
  match get_faculty st fid, rq_faculty_name rq with
  | None, None => add_faculty_review st fid rq now = (st, not_found)
  | found, given =>
      let st1 :=
        match found, given with
        | None, Some n => fst (get_or_create_faculty st n (rq_department rq))
        | _, _ => st
        end in
      let owner :=
        match found, given with
        | None, Some n => snd (get_or_create_faculty st n (rq_department rq))
        | _, _ => fid
        end in
      exists st',
        add_faculty_review st fid rq now
        = (st', review_added (next_id (map review_id (review_table st))))
        /\ review_table st'
           = (review_table st ++ [new_review st1 owner rq now])%list
        /\ faculty_id (new_review st1 owner rq now) = Some owner
        /\ (exists f, get_faculty st' owner = Some f)
        /\ forall r, In r (review_table st) ->
                     review_id r < next_id (map review_id (review_table st))
  end.
Proof.
  assert (Hfresh : forall r, In r (review_table st) ->
                     review_id r < next_id (map review_id (review_table st))).
  { intros r Hr. apply next_id_above. now apply in_map. }
  assert (Hgo : forall st1 owner,
            review_table st1 = review_table st ->
            (exists f, get_faculty st1 owner = Some f) ->
            exists st',
              (let '(st2, rid) := insert_review st1 owner rq now in
               match update_faculty_ratings st2 owner with
               | Some st3 => (st3, review_added rid)
               | None => (st2, internal_error)
               end)
              = (st', review_added (next_id (map review_id (review_table st))))
              /\ review_table st'
                 = (review_table st ++ [new_review st1 owner rq now])%list
              /\ faculty_id (new_review st1 owner rq now) = Some owner
              /\ (exists f, get_faculty st' owner = Some f)
              /\ forall r, In r (review_table st) ->
                   review_id r < next_id (map review_id (review_table st))).
  { intros st1 owner Hrt [f Hf]. unfold insert_review. cbv beta iota zeta.
    set (st2 := mkStore (faculty_table st1)
                  (review_table st1 ++ [new_review st1 owner rq now])).
    assert (Hf2 : get_faculty st2 owner = Some f) by exact Hf.
    assert (Hr2 : reviews_of st2 owner <> []).
    { change st2 with (fst (insert_review st1 owner rq now)).
      rewrite reviews_of_insert. now destruct (reviews_of st1 owner). }
    rewrite (update_faculty_ratings_eq _ _ _ Hf2 Hr2).
    eexists. split; [|split; [|split; [|split]]].
    - unfold new_review at 1. cbn [review_id]. now rewrite Hrt.
    - cbn [save_faculty review_table st2]. now rewrite Hrt.
    - reflexivity.
    - eexists. apply (get_faculty_save _ _ _ _ Hf2).
      cbn [recomputed id]. now apply get_faculty_id in Hf.
    - exact Hfresh. }
  unfold add_faculty_review.
  destruct (get_faculty st fid) as [f|] eqn:Hf.
  - destruct (rq_faculty_name rq); apply Hgo; eauto.
  - destruct (rq_faculty_name rq) as [n|]; [|reflexivity].
    destruct (get_or_create_faculty_head st n (rq_department rq))
      as (g & rest & Hn & Hid & Hrt).
    destruct (get_or_create_faculty st n (rq_department rq)) as [st1 k].
    cbn [fst snd] in *. apply Hgo; [exact Hrt|].
    apply get_faculty_exists with (f := g); [|exact Hid].
    assert (Hin : In g (faculty_named st1 n)) by (rewrite Hn; now left).
    unfold faculty_named in Hin. now apply filter_In in Hin.
Qed.

(** *** Recomputing twice, and what a recomputation leaves alone *)

Lemma find_map_frame (g : Faculty -> Faculty) l k :
  (forall f, id (g f) = id f) ->
  (forall f, id f = k -> g f = f) ->
  find (fun f => (id f =? k)%nat) (map g l)
  = find (fun f => (id f =? k)%nat) l.
Proof.
  intros Hid Hk. induction l as [|f l IH]; simpl; [reflexivity|].
  rewrite Hid. destruct (id f =? k)%nat eqn:E; [|exact IH].
  apply Nat.eqb_eq in E. now rewrite Hk.
Qed.

Lemma update_faculty_ratings_twice st fid st' :
  rowid_order st ->
  update_faculty_ratings st fid = Some st' ->
  update_faculty_ratings st' fid = Some st'.
Proof.
  intros Hs Hu.
  rewrite update_faculty_ratings_table in Hu by exact Hs.
  injection Hu as <-.
  rewrite update_faculty_ratings_table.
  - cbn [faculty_table review_table]. f_equal. f_equal.
    rewrite map_map. apply map_ext. intros f.
    destruct (id f =? fid)%nat eqn:E.
    + now rewrite refresh_id, E, refresh_twice.
    + now rewrite E.
  - unfold rowid_order in *. cbn [faculty_table]. rewrite map_map.
    erewrite map_ext; [exact Hs|]. intros f. cbv beta.
    destruct (id f =? fid)%nat; [apply refresh_id | reflexivity].
Qed.

(** X4.  On a faculty table in rowid order a call of
    [update_faculty_ratings] leaves the review table and every other
    faculty row as they were, and a second call for the same faculty
    changes nothing more. *)
Theorem update_faculty_ratings_idempotent st fid st' :
  rowid_order st ->
  update_faculty_ratings st fid = Some st' ->
  update_faculty_ratings st' fid = Some st'
  /\ review_table st' = review_table st
  /\ map id (faculty_table st') = map id (faculty_table st)
  /\ forall k, k <> fid -> get_faculty st' k = get_faculty st k.
Proof.
  intros Hs Hu.
  split; [now apply (update_faculty_ratings_twice st)|].
  pose proof (update_faculty_ratings_ids _ _ _ Hu) as Hids.
  rewrite update_faculty_ratings_table in Hu by exact Hs.
  injection Hu as <-.
  split; [reflexivity|split; [exact Hids|]].
  intros k Hk. unfold get_faculty. cbn [faculty_table].
  apply find_map_frame.
  - intros f. destruct (id f =? fid)%nat; [apply refresh_id | reflexivity].
  - intros f Hf. destruct (id f =? fid)%nat eqn:E; [|reflexivity].
    apply Nat.eqb_eq in E. congruence.
Qed.

Lemma update_faculty_ratings_idempotent_witness :
  exists st',
    update_faculty_ratings store_three_ard 5 = Some st'
    /\ update_faculty_ratings st' 5 = Some st'
    /\ get_faculty st' 1 = Some (sample_faculty 1 "ARD").
Proof.
  destruct (update_faculty_ratings_total store_three_ard 5) as (st' & Hu & _).
  exists st'.
  destruct (update_faculty_ratings_idempotent store_three_ard 5 st'
              store_three_ard_rowid_order Hu) as (H2 & _ & _ & Hframe).
  split; [exact Hu|]. split; [exact H2|].
  rewrite Hframe by discriminate. reflexivity.
Defined.

(** *** The stored aggregates and the view by name *)

Lemma faculty_named_save st f' n :
  faculty_named (save_faculty st f') n
  = filter (fun f => String.eqb (name f) n)
      (map (fun f => if (id f =? id f')%nat then f' else f)
         (faculty_table st)).
Proof. reflexivity. Qed.

(** X5.  For the first record of a name, on a table in rowid order and
    with at least one review: after [update_faculty_ratings] the
    reviews that [get_faculty_by_name] lists for the name are the
    reviews over which the four stored averages were taken, each stored
    average being [mean] of its dimension over that list, and the
    review count of the view is the stored count.  (The averages of
    the view itself are [sum(..) / len(..)], which on floats need not
    be the float that [statistics.mean] returns.) *)
Theorem view_by_name_lists_the_averaged_reviews st n f rest :
  rowid_order st ->
  faculty_named st n = f :: rest ->
  reviews_of st (id f) <> [] ->
  exists st' f' d,
    update_faculty_ratings st (id f) = Some st'
    /\ get_faculty st' (id f) = Some f'
    /\ get_faculty_by_name st' n = Some d
    /\ d_id d = id f
    /\ d_reviews d = reviews_of st (id f)
    /\ mean (map teaching_effectiveness (d_reviews d))
       = Some (avg_teaching_effectiveness f')
    /\ mean (map student_engagement (d_reviews d))
       = Some (avg_student_engagement f')
    /\ mean (map clarity (d_reviews d)) = Some (avg_clarity f')
    /\ mean (map professionalism (d_reviews d))
       = Some (avg_professionalism f')
    /\ d_total_reviews d = total_reviews f'
    /\ total_reviews f' = List.length (d_reviews d).
Proof.
  intros Hs Hn Hr.
  assert (Hin : In f (faculty_table st) /\ name f = n).
  { assert (H : In f (faculty_named st n)) by (rewrite Hn; now left).
    unfold faculty_named in H. apply filter_In in H as [H1 H2].
    split; [exact H1 | now apply String.eqb_eq]. }
  destruct Hin as [Hin Hname].
  pose proof (get_faculty_in st f Hs Hin) as Hf.
  destruct (reviews_of st (id f)) as [|r rs'] eqn:Ers; [congruence|].
  set (f' := recomputed f (r :: rs')).
  assert (Hhead : exists rest', faculty_named (save_faculty st f') n
                                = f' :: rest').
  { rewrite faculty_named_save. unfold faculty_named in Hn.
    assert (Hn' : String.eqb (name f') n = true)
      by (cbn [name f' recomputed]; now apply String.eqb_eq).
    assert (Hid' : id f' = id f) by reflexivity.
    revert Hn. generalize f' Hn' Hid'. clear.
    intros f' Hn' Hid'. generalize (faculty_table st) as l.
    induction l as [|g l IH]; simpl; [discriminate|].
    destruct (id g =? id f')%nat eqn:G.
    - intros _. rewrite Hn'. eauto.
    - destruct (String.eqb (name g) n) eqn:E; [|exact IH].
      intros [= -> _]. rewrite Hid', Nat.eqb_refl in G. discriminate. }
  destruct Hhead as [rest' Hhead].
  exists (save_faculty st f'), f'.
  eexists. split.
  { rewrite (update_faculty_ratings_eq _ _ _ Hf); rewrite Ers;
      [reflexivity | discriminate]. }
  split; [now apply (get_faculty_save _ _ _ _ Hf)|].
  unfold get_faculty_by_name. rewrite Hhead.
  cbn [id f' recomputed]. rewrite reviews_of_save, Ers.
  change (0 <? List.length (r :: rs'))%nat with true. cbv iota.
  split; [reflexivity|]. cbn [d_id d_ratings d_total_reviews d_reviews].
  split; [reflexivity|]. split; [reflexivity|].
  rewrite !mean_map_nonempty by discriminate.
  repeat split.
Qed.

Lemma view_by_name_lists_the_averaged_reviews_witness :
  exists st' f' d,
    update_faculty_ratings store_abc_4_2 1 = Some st'
    /\ get_faculty st' 1 = Some f'
    /\ get_faculty_by_name st' "ABC" = Some d
    /\ map review_id (d_reviews d) = [1; 2]%nat
    /\ d_total_reviews d = total_reviews f'
    /\ total_reviews f' = 2%nat.
Proof.
  assert (Hs : rowid_order store_abc_4_2).
  { unfold rowid_order. vm_compute. repeat constructor. }
  destruct (view_by_name_lists_the_averaged_reviews store_abc_4_2 "ABC"
              (recomputed (sample_faculty 1 "ABC")
                 (reviews_of store_abc_4_2 1)) [] Hs)
    as (st' & f' & d & Hu & Hg & Hd & _ & Hrev & _ & _ & _ & _ & Ht & Hl).
  - vm_compute. reflexivity.
  - discriminate.
  - exists st', f', d. split; [exact Hu|]. split; [exact Hg|].
    split; [exact Hd|]. split; [rewrite Hrev; reflexivity|].
    split; [exact Ht|]. rewrite Hl, Hrev. reflexivity.
Defined.

(** *** Bounds *)

Lemma len_Q_cons {A} (x : A) (xs : list A) :
  (len_Q (x :: xs) == len_Q xs + 1)%Q.
Proof.
  unfold len_Q. simpl List.length. rewrite Nat2Z.inj_succ, <- Z.add_1_r.
  now rewrite inject_Z_plus.
Qed.

Lemma len_Q_nonneg {A} (xs : list A) : (0 <= len_Q xs)%Q.
Proof.
  unfold len_Q. change 0%Q with (inject_Z 0). rewrite <- Zle_Qle. lia.
Qed.

Lemma fold_left_Qplus_bounds lo hi xs : forall a,
  Forall (fun x => lo <= x /\ x <= hi)%Q xs ->
  (a + len_Q xs * lo <= fold_left Qplus xs a
   /\ fold_left Qplus xs a <= a + len_Q xs * hi)%Q.
Proof.
  induction xs as [|x xs IH]; intros a Hall; simpl.
  - assert (E : (len_Q (@nil Q) == 0)%Q) by reflexivity.
    rewrite E. split; lra.
  - inversion Hall as [|y ys [Hlo Hhi] Hrest]; subst.
    destruct (IH (a + x)%Q Hrest) as [IH1 IH2].
    rewrite len_Q_cons. split.
    + eapply Qle_trans; [|exact IH1].
      setoid_replace ((len_Q xs + 1) * lo)%Q with (len_Q xs * lo + lo)%Q
        by ring.
      generalize (len_Q xs * lo)%Q. intros p. lra.
    + eapply Qle_trans; [exact IH2|].
      setoid_replace ((len_Q xs + 1) * hi)%Q with (len_Q xs * hi + hi)%Q
        by ring.
      generalize (len_Q xs * hi)%Q. intros p. lra.
Qed.

(** The mean of a non-empty list lies between any bounds of its
    elements. *)
Lemma mean_bounds lo hi xs m :
  Forall (fun x => lo <= x /\ x <= hi)%Q xs ->
  mean xs = Some m ->
  (lo <= m /\ m <= hi)%Q.
Proof.
  intros Hall Hm. destruct xs as [|x xs]; [discriminate|].
  injection Hm as <-.
  destruct (fold_left_Qplus_bounds lo hi (x :: xs) 0%Q Hall) as [H1 H2].
  fold (py_sum (x :: xs)) in H1, H2.
  assert (Hpos : (0 < len_Q (x :: xs))%Q).
  { rewrite len_Q_cons. pose proof (len_Q_nonneg xs). lra. }
  split.
  - apply Qle_shift_div_l; [exact Hpos|].
    rewrite Qmult_comm. rewrite Qplus_0_l in H1. exact H1.
  - apply Qle_shift_div_r; [exact Hpos|].
    rewrite Qmult_comm. rewrite Qplus_0_l in H2. exact H2.
Qed.

Lemma round_half_even_bounds a b y :
  (inject_Z a <= y)%Q -> (y <= inject_Z b)%Q ->
  (a <= round_half_even y <= b)%Z.
Proof.
  intros Ha Hb. unfold round_half_even.
  assert (Hfa : (a <= Qfloor y)%Z).
  { rewrite <- (Qfloor_Z a). now apply Qfloor_resp_le. }
  assert (Hfb : (Qfloor y <= b)%Z).
  { rewrite <- (Qfloor_Z b). now apply Qfloor_resp_le. }
  destruct (Z.eq_dec (Qfloor y) b) as [E|E].
  - assert (Hlt : ((y - inject_Z (Qfloor y)) ?= 1 # 2)%Q = Lt).
    { apply (proj1 (Qlt_alt _ _)). rewrite E. revert Hb. clear.
      generalize (inject_Z b). intros q Hb. lra. }
    rewrite Hlt. lia.
  - destruct (_ ?= _)%Q; [destruct (Z.even _)| |]; lia.
Qed.

(** Rounding to two decimals keeps a number between bounds that are
    whole hundredths. *)
Lemma round2_bounds a b x :
  (inject_Z a / 100 <= x)%Q -> (x <= inject_Z b / 100)%Q ->
  (inject_Z a / 100 <= round2 x /\ round2 x <= inject_Z b / 100)%Q.
Proof.
  intros Ha Hb. unfold round2.
  destruct (round_half_even_bounds a b (x * 100)%Q) as [H1 H2].
  - setoid_replace (inject_Z a) with (inject_Z a / 100 * 100)%Q
      by (field; discriminate).
    apply Qmult_le_compat_r; [exact Ha | discriminate].
  - setoid_replace (inject_Z b) with (inject_Z b / 100 * 100)%Q
      by (field; discriminate).
    apply Qmult_le_compat_r; [exact Hb | discriminate].
  - rewrite Zle_Qle in H1, H2. split.
    + apply Qle_shift_div_l; [reflexivity|].
      setoid_replace (inject_Z a / 100 * 100)%Q with (inject_Z a)
        by (field; discriminate).
      exact H1.
    + apply Qle_shift_div_r; [reflexivity|].
      setoid_replace (inject_Z b / 100 * 100)%Q with (inject_Z b)
        by (field; discriminate).
      exact H2.
Qed.

Lemma round2_in_range x :
  (0 <= x)%Q -> (x <= 5)%Q -> (0 <= round2 x /\ round2 x <= 5)%Q.
Proof.
  intros H0 H5. destruct (round2_bounds 0 500 x) as [H1 H2].
  - setoid_replace (inject_Z 0 / 100)%Q with 0%Q by reflexivity. exact H0.
  - setoid_replace (inject_Z 500 / 100)%Q with 5%Q by reflexivity. exact H5.
  - setoid_replace (inject_Z 0 / 100)%Q with 0%Q in H1 by reflexivity.
    setoid_replace (inject_Z 500 / 100)%Q with 5%Q in H2 by reflexivity.
    now split.
Qed.

Lemma Forall_map_within lo hi (f : Review -> Q) rs :
  (forall r, In r rs -> (lo <= f r /\ f r <= hi)%Q) ->
  Forall (fun x => lo <= x /\ x <= hi)%Q (map f rs).
Proof.
  intros H. apply Forall_forall. intros x Hx.
  apply in_map_iff in Hx as (r & <- & Hr). auto.
Qed.

(** X6.  If every rating of every review of a faculty lies between two
    numbers, the four averages and the overall rating that
    [update_faculty_ratings] stores lie between them too. *)
Theorem stored_aggregates_within_bounds lo hi st fid faculty :
  get_faculty st fid = Some faculty ->
  reviews_of st fid <> [] ->
  (forall r, In r (reviews_of st fid) -> ratings_within lo hi r) ->
  exists st' f',
    update_faculty_ratings st fid = Some st'
    /\ get_faculty st' fid = Some f'
    /\ (lo <= avg_teaching_effectiveness f'
        /\ avg_teaching_effectiveness f' <= hi)%Q
    /\ (lo <= avg_student_engagement f' /\ avg_student_engagement f' <= hi)%Q
    /\ (lo <= avg_clarity f' /\ avg_clarity f' <= hi)%Q
    /\ (lo <= avg_professionalism f' /\ avg_professionalism f' <= hi)%Q
    /\ (lo <= overall_rating f' /\ overall_rating f' <= hi)%Q.
Proof.
  intros Hf Hr Hall.
  exists (save_faculty st (recomputed faculty (reviews_of st fid))),
         (recomputed faculty (reviews_of st fid)).
  split; [now apply update_faculty_ratings_eq|].
  split; [apply (get_faculty_save _ _ _ _ Hf), (get_faculty_id _ _ _ Hf)|].
  assert (Hte : (lo <= avg_teaching_effectiveness
                         (recomputed faculty (reviews_of st fid))
                 /\ avg_teaching_effectiveness
                      (recomputed faculty (reviews_of st fid)) <= hi)%Q).
  { apply (mean_bounds lo hi (map teaching_effectiveness (reviews_of st fid))).
    - apply Forall_map_within. intros r Hin. apply (Hall r Hin).
    - now apply mean_map_nonempty. }
  assert (Hse : (lo <= avg_student_engagement
                         (recomputed faculty (reviews_of st fid))
                 /\ avg_student_engagement
                      (recomputed faculty (reviews_of st fid)) <= hi)%Q).
  { apply (mean_bounds lo hi (map student_engagement (reviews_of st fid))).
    - apply Forall_map_within. intros r Hin. apply (Hall r Hin).
    - now apply mean_map_nonempty. }
  assert (Hcl : (lo <= avg_clarity (recomputed faculty (reviews_of st fid))
                 /\ avg_clarity (recomputed faculty (reviews_of st fid))
                    <= hi)%Q).
  { apply (mean_bounds lo hi (map clarity (reviews_of st fid))).
    - apply Forall_map_within. intros r Hin. apply (Hall r Hin).
    - now apply mean_map_nonempty. }
  assert (Hpr : (lo <= avg_professionalism
                         (recomputed faculty (reviews_of st fid))
                 /\ avg_professionalism
                      (recomputed faculty (reviews_of st fid)) <= hi)%Q).
  { apply (mean_bounds lo hi (map professionalism (reviews_of st fid))).
    - apply Forall_map_within. intros r Hin. apply (Hall r Hin).
    - now apply mean_map_nonempty. }
  repeat (split; [assumption|]).
  apply (mean_bounds lo hi
           [avg_teaching_effectiveness (recomputed faculty (reviews_of st fid));
            avg_student_engagement (recomputed faculty (reviews_of st fid));
            avg_clarity (recomputed faculty (reviews_of st fid));
            avg_professionalism (recomputed faculty (reviews_of st fid))]).
  - repeat constructor; tauto.
  - reflexivity.
Qed.

Lemma stored_aggregates_within_bounds_witness :
  exists st' f',
    update_faculty_ratings store_two_reviews 1 = Some st'
    /\ get_faculty st' 1 = Some f'
    /\ (2 <= overall_rating f' /\ overall_rating f' <= 4)%Q.
Proof.
  destruct (stored_aggregates_within_bounds 2 4 store_two_reviews 1
              (sample_faculty 1 "ABC") eq_refl)
    as (st' & f' & Hu & Hg & _ & _ & _ & _ & Hov).
  - discriminate.
  - intros r [<-|[<-|[]]]; unfold ratings_within; simpl;
      repeat split; discriminate.
  - exists st', f'. auto.
Defined.

Lemma average_ratings_for_filtered tag reviews :
  average_ratings_for tag reviews = Spec.filteredAverages reviews tag.
Proof.
  unfold average_ratings_for, Spec.filteredAverages.
  destruct reviews as [|r0 rs0]; [reflexivity|].
  rewrite fold_accumulate. cbv zeta.
  generalize (filter (fun r => String.eqb (source_type r) tag) (r0 :: rs0)).
  intros [|r rs]; [reflexivity|].
  rewrite !mean_map_nonempty by discriminate.
  reflexivity.
Qed.

(** X7.  If the four ratings of every review tagged
    ['screenshot_analysis'] lie in the nominal range 0 to 5, each of
    the five values of [average_ratings] lies in that range, rounding
    included. *)
Theorem average_ratings_within_range reviews :
  (forall r, In r reviews -> source_type r = "screenshot_analysis" ->
             ratings_within 0 5 r) ->
  let v := average_ratings reviews in
  (0 <= v_teaching_effectiveness v /\ v_teaching_effectiveness v <= 5)%Q
  /\ (0 <= v_student_engagement v /\ v_student_engagement v <= 5)%Q
  /\ (0 <= v_clarity v /\ v_clarity v <= 5)%Q
  /\ (0 <= v_professionalism v /\ v_professionalism v <= 5)%Q
  /\ (0 <= v_overall v /\ v_overall v <= 5)%Q.
Proof.
  intros Hall. cbv zeta. unfold average_ratings.
  rewrite average_ratings_for_filtered. unfold Spec.filteredAverages.
  set (m := filter _ reviews).
  assert (Hm : forall r, In r m -> ratings_within 0 5 r).
  { intros r Hr. apply filter_In in Hr as [Hin Htag].
    apply Hall; [exact Hin | now apply String.eqb_eq]. }
  destruct m as [|r rs] eqn:Em.
  { simpl. repeat split; discriminate. }
  rewrite !mean_map_nonempty by discriminate.
  assert (H : forall f : Review -> Q,
            (forall x, In x (r :: rs) -> (0 <= f x /\ f x <= 5)%Q) ->
            (0 <= round2 (py_sum (map f (r :: rs)) / len_Q (r :: rs))
             /\ round2 (py_sum (map f (r :: rs)) / len_Q (r :: rs)) <= 5)%Q).
  { intros f Hf.
    destruct (mean_bounds 0 5 (map f (r :: rs))
                (py_sum (map f (r :: rs)) / len_Q (r :: rs))%Q)
      as [H0 H5].
    - now apply Forall_map_within.
    - now apply mean_map_nonempty.
    - now apply round2_in_range. }
  pose proof (H teaching_effectiveness (fun x Hx => proj1 (Hm x Hx))) as Hte.
  pose proof (H student_engagement
                (fun x Hx => proj1 (proj2 (Hm x Hx)))) as Hse.
  pose proof (H clarity
                (fun x Hx => proj1 (proj2 (proj2 (Hm x Hx))))) as Hcl.
  pose proof (H professionalism
                (fun x Hx => proj2 (proj2 (proj2 (Hm x Hx))))) as Hpr.
  cbn [mean]. cbn [v_teaching_effectiveness v_student_engagement v_clarity
                   v_professionalism v_overall].
  repeat (split; [tauto|]).
  destruct (mean_bounds 0 5 _ _
              (Forall_cons _ Hte (Forall_cons _ Hse (Forall_cons _ Hcl
                 (Forall_cons _ Hpr (Forall_nil _))))) eq_refl) as [H0 H5].
  now apply round2_in_range.
Qed.

Lemma average_ratings_within_range_witness :
  (v_overall (average_ratings
                [sample_review 1 1 "CSE110" 4 "screenshot_analysis";
                 sample_review 2 1 "CSE110" 9 "direct_submission";
                 sample_review 3 1 "CSE110" 3 "screenshot_analysis"]) <= 5)%Q.
Proof.
  apply (average_ratings_within_range
           [sample_review 1 1 "CSE110" 4 "screenshot_analysis";
            sample_review 2 1 "CSE110" 9 "direct_submission";
            sample_review 3 1 "CSE110" 3 "screenshot_analysis"]).
  intros r [<-|[<-|[<-|[]]]] Htag; try discriminate;
    unfold ratings_within; simpl; repeat split; discriminate.
Defined.

(** *** Clearing the test data *)

Lemma filter_twice {A} (p : A -> bool) l :
  filter p (filter p l) = filter p l.
Proof.
  induction l as [|a l IH]; simpl; [reflexivity|].
  destruct (p a) eqn:E; simpl; [rewrite E|]; congruence.
Qed.

(** X8.  After [clear_test_data] no review is tagged ['test_data'] and
    the other reviews are all there, in their order; every faculty row
    that is left has a review; a faculty without reviews is deleted,
    whether or not it had to do with test data; and a second call
    changes nothing. *)
Theorem clear_test_data_spec st :
  let st' := clear_test_data st in
  review_table st'
  = filter (fun r => negb (String.eqb (source_type r) "test_data"))
      (review_table st)
  /\ (forall f, In f (faculty_table st') ->
                In f (faculty_table st) /\ reviews_of st' (id f) <> [])
  /\ (forall f, In f (faculty_table st) -> reviews_of st (id f) = [] ->
                ~ In f (faculty_table st'))
  /\ clear_test_data st' = st'.
Proof.
  cbv zeta. unfold clear_test_data, delete_where. cbn [fst].
  cbn [faculty_table review_table].
  set (kept := filter _ (review_table st)).
  split; [reflexivity|]. split; [|split].
  - intros f Hf. apply filter_In in Hf as [Hin Hp]. split; [exact Hin|].
    unfold reviews_of in *. cbn [review_table] in *.
    destruct (filter _ kept); [discriminate | discriminate].
  - intros f Hin Hr Hf. apply filter_In in Hf as [_ Hp].
    unfold reviews_of in *. cbn [review_table] in *.
    assert (E : filter (fun r => owner_is (id f) r) kept = []).
    { unfold kept. clear -Hr.
      induction (review_table st) as [|r rs IH]; simpl in *; [reflexivity|].
      destruct (owner_is (id f) r) eqn:E; [discriminate|].
      destruct (negb _); simpl; [rewrite E|]; auto. }
    rewrite E in Hp. discriminate.
  - unfold kept at 2 4. rewrite filter_twice. fold kept.
    unfold reviews_of. cbn [review_table]. now rewrite filter_twice.
Qed.

Lemma add_test_data_tables st now :
  exists a t,
    faculty_table (fst (add_test_data st now)) = (faculty_table st ++ [a])%list
    /\ review_table (fst (add_test_data st now)) = (review_table st ++ [t])%list
    /\ id a = next_id (map id (faculty_table st))
    /\ source_type t = "test_data"
    /\ faculty_id t = Some (id a).
Proof. unfold add_test_data; simpl. do 2 eexists. repeat split. Qed.

(** X9.  In a store without test reviews, where every faculty has a
    review and every review belongs to a faculty, [add_test_data]
    followed by [clear_test_data] gives the store back. *)
Theorem add_then_clear_test_data st now :
  (forall r, In r (review_table st) -> source_type r <> "test_data") ->
  (forall f, In f (faculty_table st) -> reviews_of st (id f) <> []) ->
  owned st ->
  clear_test_data (fst (add_test_data st now)) = st.
Proof.
  intros Hnot Hhas Hown.
  destruct (add_test_data_tables st now) as (a & t & Hfac & Hrt & Hida & Ht & Hft).
  unfold clear_test_data, delete_where. cbn [fst faculty_table review_table].
  rewrite Hrt, Hfac.
  assert (Hk : filter (fun r => negb (String.eqb (source_type r) "test_data"))
                 (review_table st ++ [t]) = review_table st).
  { rewrite filter_app, (filter_all _ (review_table st)).
    - simpl. rewrite Ht. simpl. apply app_nil_r.
    - intros r Hr. apply negb_true_iff, String.eqb_neq. now apply Hnot. }
  rewrite Hk.
  assert (Hnone : filter (fun r => owner_is (id a) r)
                    (review_table st) = []).
  { rewrite Hida. clear -Hown. unfold owned in Hown.
    induction (review_table st) as [|r rs IH]; [reflexivity|].
    simpl. destruct (Hown r (or_introl eq_refl)) as (f & Hf & Hid).
    assert (Hlt : id f < next_id (map id (faculty_table st))).
    { apply next_id_above. now apply in_map. }
    replace (owner_is (next_id (map id (faculty_table st))) r)
      with false
      by (unfold owner_is; rewrite Hid; symmetry; apply Nat.eqb_neq; lia).
    apply IH. intros x Hx. apply Hown. now right. }
  rewrite filter_app. unfold reviews_of. cbn [review_table filter].
  rewrite Hnone. cbn [List.length Nat.eqb negb]. rewrite app_nil_r.
  rewrite filter_all.
  - now destruct st.
  - intros f Hf. specialize (Hhas f Hf). unfold reviews_of in Hhas.
    destruct (filter _ (review_table st)); [congruence | reflexivity].
Qed.

Lemma add_then_clear_test_data_witness :
  clear_test_data (fst (add_test_data store_abc_4 7)) = store_abc_4.
Proof.
  apply add_then_clear_test_data.
  - intros r [<-|[]]. discriminate.
  - intros f [<-|[]]. discriminate.
  - intros r [<-|[]]. eexists. split; [now left | reflexivity].
Defined.

(** *** Deleting the reviews of one faculty *)

Lemma filter_complement {A} (p : A -> bool) l :
  filter p (filter (fun x => negb (p x)) l) = [].
Proof.
  induction l as [|a l IH]; simpl; [reflexivity|].
  destruct (p a) eqn:E; simpl; [|rewrite E]; exact IH.
Qed.

(** X10.  [delete_faculty_course_reviews] answers 404 and changes
    nothing for an unknown faculty id.  For a known one, on a table in
    rowid order, it deletes exactly the reviews of that faculty for
    that course and answers with their number, and a second call
    deletes nothing and leaves the store as the first call left it. *)
Theorem delete_faculty_course_reviews_spec st fid course :
  (get_faculty st fid = None ->
   delete_faculty_course_reviews st fid course = (st, not_found))
  /\ (rowid_order st ->
      get_faculty st fid <> None ->
      let hit r := (owner_is fid r
                    && String.eqb (course_code r) course)%bool in
      exists st',
        delete_faculty_course_reviews st fid course
        = (st', reviews_deleted (List.length (filter hit (review_table st))))
        /\ review_table st'
           = filter (fun r => negb (hit r)) (review_table st)
        /\ delete_faculty_course_reviews st' fid course
           = (st', reviews_deleted 0)).
Proof.
  split.
  - intros Hf. unfold delete_faculty_course_reviews. now rewrite Hf.
  - intros Hs Hf. cbv zeta.
    set (hit := fun r => (owner_is fid r
                          && String.eqb (course_code r) course)%bool).
    set (st1 := mkStore (faculty_table st)
                  (filter (fun r => negb (hit r)) (review_table st))).
    assert (Hs1 : rowid_order st1) by exact Hs.
    destruct (update_faculty_ratings_total st1 fid) as (st' & Hu & Hrt).
    assert (Hstep : forall s g,
              get_faculty s fid = Some g ->
              delete_faculty_course_reviews s fid course
              = match update_faculty_ratings
                        (mkStore (faculty_table s)
                           (filter (fun r => negb (hit r)) (review_table s)))
                        fid with
                | Some s2 =>
                    (s2, reviews_deleted
                           (List.length (filter hit (review_table s))))
                | None =>
                    (mkStore (faculty_table s)
                       (filter (fun r => negb (hit r)) (review_table s)),
                     internal_error)
                end).
    { intros s g Hg. unfold delete_faculty_course_reviews. now rewrite Hg. }
    destruct (get_faculty st fid) as [f|] eqn:Ef; [|congruence].
    exists st'. split.
    { rewrite (Hstep st f Ef). fold st1. now rewrite Hu. }
    split; [exact Hrt|].
    assert (Hf' : exists g, get_faculty st' fid = Some g).
    { pose proof (update_faculty_ratings_ids _ _ _ Hu) as Hids.
      assert (Hin : In fid (map id (faculty_table st'))).
      { rewrite Hids. cbn [st1 faculty_table].
        unfold get_faculty in Ef. apply find_some in Ef as [Hin E].
        apply Nat.eqb_eq in E. rewrite <- E. now apply in_map. }
      apply in_map_iff in Hin as (g & Hg & Hin).
      now apply get_faculty_exists with (f := g). }
    destruct Hf' as [g Hg].
    rewrite (Hstep st' g Hg).
    assert (Hkeep : filter (fun r => negb (hit r)) (review_table st')
                    = review_table st').
    { rewrite Hrt. cbn [st1 review_table]. apply filter_twice. }
    assert (Hzero : filter hit (review_table st') = []).
    { rewrite Hrt. cbn [st1 review_table]. apply filter_complement. }
    rewrite Hkeep, Hzero.
    replace (mkStore (faculty_table st') (review_table st')) with st'
      by now destruct st'.
    now rewrite (update_faculty_ratings_twice st1 fid st' Hs1 Hu).
Qed.

Lemma delete_faculty_course_reviews_spec_witness :
  exists st',
    delete_faculty_course_reviews store_three_ard 5 "CSE110"
    = (st', reviews_deleted 1)
    /\ delete_faculty_course_reviews st' 5 "CSE110" = (st', reviews_deleted 0).
Proof.
  destruct (proj2 (delete_faculty_course_reviews_spec store_three_ard 5
                     "CSE110") store_three_ard_rowid_order)
    as (st' & H1 & _ & H2).
  - discriminate.
  - exists st'. split; [exact H1 | exact H2].
Defined.

(** X11.  [delete_faculty_reviews_by_name] acts on the first record of
    the upper-cased name only: that record loses all its reviews, the
    answer is their number, the reviews of every other faculty, other
    records of the same name included, stay, and no faculty row is
    changed. *)
Theorem delete_faculty_reviews_by_name_spec st n f rest :
  faculty_named st (upper n) = f :: rest ->
  exists st',
    delete_faculty_reviews_by_name st n
    = (st', reviews_deleted (List.length (reviews_of st (id f))))
    /\ reviews_of st' (id f) = []
    /\ (forall k, k <> id f -> reviews_of st' k = reviews_of st k)
    /\ faculty_table st' = faculty_table st.
Proof.
  intros Hn. unfold delete_faculty_reviews_by_name. rewrite Hn.
  unfold delete_where. cbv beta iota zeta.
  set (st1 := mkStore (faculty_table st)
                (filter (fun r => negb (owner_is (id f) r))
                   (review_table st))).
  assert (Hnone : reviews_of st1 (id f) = []).
  { unfold reviews_of. cbn [st1 review_table]. apply filter_complement. }
  rewrite (update_faculty_ratings_no_reviews st1 (id f) Hnone).
  exists st1. split; [reflexivity|]. split; [exact Hnone|].
  split; [|reflexivity].
  intros k Hk. unfold reviews_of. cbn [st1 review_table].
  clear -Hk. induction (review_table st) as [|r rs IH]; simpl; [reflexivity|].
  destruct (owner_is (id f) r) eqn:E; simpl.
  - destruct (owner_is k r) eqn:K; [|exact IH].
    apply owner_is_true in E, K. congruence.
  - destruct (owner_is k r); [f_equal|]; exact IH.
Qed.

Lemma delete_faculty_reviews_by_name_spec_witness :
  exists st',
    delete_faculty_reviews_by_name store_three_ard "ard"
    = (st', reviews_deleted 2)
    /\ reviews_of st' 1 = []
    /\ List.length (reviews_of st' 5) = 3%nat.
Proof.
  destruct (delete_faculty_reviews_by_name_spec store_three_ard "ard"
              (sample_faculty 1 "ARD")
              [sample_faculty 3 "ARD"; sample_faculty 5 "ARD"] eq_refl)
    as (st' & Hd & H1 & Hk & _).
  exists st'. split; [exact Hd|]. split; [exact H1|].
  rewrite (Hk 5) by discriminate. reflexivity.
Defined.

(** *** Consolidating twice *)

Lemma filter_and {A} (p q : A -> bool) l :
  filter (fun x => p x && q x) l = filter q (filter p l).
Proof.
  induction l as [|a l IH]; simpl; [reflexivity|].
  destruct (p a); simpl; [destruct (q a)|]; congruence.
Qed.

Lemma consolidate_named n st main others :
  rowid_order st ->
  faculty_named st n = main :: others ->
  faculty_named (fst (consolidate n st)) n = [main].
Proof.
  intros Hs Hn.
  destruct others as [|d ds].
  { unfold consolidate. rewrite Hn. exact Hn. }
  unfold consolidate. rewrite Hn. simpl Nat.leb. cbv iota.
  rewrite fold_merge_into. unfold faculty_named. cbn [fst faculty_table].
  rewrite <- filter_and.
  rewrite (filter_ext_in _
             (fun f => String.eqb (name f) n && (id f =? id main)%nat)).
  2:{ intros f Hf. rewrite (among_others st n main (d :: ds) f Hs Hn Hf).
      destruct (String.eqb (name f) n), (id f =? id main)%nat; reflexivity. }
  rewrite filter_and.
  assert (Hlt : forall x, In x (d :: ds) -> id main < id x).
  { unfold faculty_named in Hn. eapply sorted_filter_head; eauto. }
  unfold faculty_named in Hn. rewrite Hn.
  assert (Hrest : filter (fun f => (id f =? id main)%nat) (d :: ds) = []).
  { revert Hlt. generalize (d :: ds) as l. clear. intros l Hlt.
    induction l as [|x l IH]; [reflexivity|].
    simpl. replace (id x =? id main)%nat with false.
    - apply IH. intros y Hy. apply Hlt. now right.
    - symmetry. apply Nat.eqb_neq.
      specialize (Hlt x (or_introl eq_refl)). lia. }
  change (main :: d :: ds) with ([main] ++ (d :: ds))%list.
  rewrite filter_app, Hrest. simpl. now rewrite Nat.eqb_refl.
Qed.

(** X12.  On a table in rowid order a second consolidation of the same
    name finds nothing to do: it answers 'No consolidation needed' and
    leaves the store as the first one left it. *)
Theorem consolidate_twice n st :
  rowid_order st ->
  consolidate n (fst (consolidate n st))
  = (fst (consolidate n st), no_consolidation_needed).
Proof.
  intros Hs.
  destruct (faculty_named st n) as [|main others] eqn:Hn.
  - unfold consolidate at 2. rewrite Hn. simpl fst.
    unfold consolidate. now rewrite Hn.
  - pose proof (consolidate_named n st main others Hs Hn) as H1.
    unfold consolidate at 1. now rewrite H1.
Qed.

Lemma consolidate_twice_witness :
  consolidate_ard (fst (consolidate_ard store_three_ard))
  = (fst (consolidate_ard store_three_ard), no_consolidation_needed).
Proof.
  exact (consolidate_twice "ARD" store_three_ard store_three_ard_rowid_order).
Defined.

(** *** The latest rows *)

Lemma latest_from {A} (key : A -> nat) l : forall init b,
  fold_left
    (fun best row =>
       match best with
       | None => Some row
       | Some c => if (key c <? key row)%nat then Some row else Some c
       end) l init = Some b ->
  init = Some b \/ In b l.
Proof.
  induction l as [|x l IH]; simpl; intros init b H; [now left|].
  apply IH in H as [H|H]; [|now right; right].
  destruct init as [c|].
  - destruct (key c <? key x)%nat; injection H as <-; auto.
  - injection H as <-. auto.
Qed.

Lemma latest_app_above {A} (key : A -> nat) l x :
  (forall y, In y l -> key y < key x) ->
  latest key (l ++ [x]) = Some x.
Proof.
  intros Hlt. unfold latest. rewrite fold_left_app. simpl.
  destruct (fold_left _ l None) as [b|] eqn:E; [|reflexivity].
  apply latest_from in E as [E|E]; [discriminate|].
  apply Hlt in E. apply Nat.ltb_lt in E. now rewrite E.
Qed.

(** What a successful [add_faculty_review] does to the two tables. *)
Lemma add_faculty_review_appends st fid rq now st' rid :
  add_faculty_review st fid rq now = (st', review_added rid) ->
  exists st1 owner,
    review_table st'
    = (review_table st ++ [new_review st1 owner rq now])%list
    /\ review_table st1 = review_table st
    /\ map id (faculty_table st') = map id (faculty_table st1)
    /\ In owner (map id (faculty_table st1))
    /\ (st1 = st
        \/ exists n, st1 = fst (get_or_create_faculty st n (rq_department rq))).
Proof.
  unfold add_faculty_review.
  assert (Hgo : forall st1 owner,
            (let '(st2, rid0) := insert_review st1 owner rq now in
             match update_faculty_ratings st2 owner with
             | Some st3 => (st3, review_added rid0)
             | None => (st2, internal_error)
             end) = (st', review_added rid) ->
            review_table st'
            = (review_table st1 ++ [new_review st1 owner rq now])%list
            /\ map id (faculty_table st') = map id (faculty_table st1)).
  { intros st1 owner. unfold insert_review. cbv beta iota zeta.
    destruct (update_faculty_ratings _ owner) as [st3|] eqn:E;
      [|discriminate].
    intros [= <- <-].
    destruct (update_faculty_ratings_total
                (mkStore (faculty_table st1)
                   (review_table st1 ++ [new_review st1 owner rq now]))
                owner) as (s & Hs & Hrt).
    rewrite E in Hs. injection Hs as <-.
    split; [exact Hrt|].
    exact (update_faculty_ratings_ids _ _ _ E). }
  destruct (get_faculty st fid) as [f|] eqn:Hf.
  - intros H. apply Hgo in H as [H1 H2].
    exists st, fid. repeat split; auto.
    unfold get_faculty in Hf. apply find_some in Hf as [Hin E].
    apply Nat.eqb_eq in E. rewrite <- E. now apply in_map.
  - destruct (rq_faculty_name rq) as [n|]; [|discriminate].
    destruct (get_or_create_faculty_head st n (rq_department rq))
      as (g & rest & Hn & Hid & Hrt).
    destruct (get_or_create_faculty st n (rq_department rq)) as [st1 k] eqn:G.
    cbn [fst snd] in *. intros H. apply Hgo in H as [H1 H2].
    exists st1, k. rewrite <- Hrt. repeat split; auto.
    + rewrite <- Hid. apply in_map.
      assert (Hin : In g (faculty_named st1 n)) by (rewrite Hn; now left).
      unfold faculty_named in Hin. now apply filter_In in Hin.
    + right. exists n. now rewrite G.
Qed.

(** X13.  After a review was added, [verify_data] counts one review
    more and names the course of that review as the latest one. *)
Theorem verify_data_after_review st fid rq now st' rid :
  add_faculty_review st fid rq now = (st', review_added rid) ->
  review_count (verify_data st') = S (review_count (verify_data st))
  /\ latest_review_course (verify_data st') = Some (rq_course_code rq).
Proof.
  intros H.
  destruct (add_faculty_review_appends _ _ _ _ _ _ H)
    as (st1 & owner & Hrt & Hrt1 & _).
  unfold verify_data. cbn [review_count latest_review_course].
  rewrite Hrt. split.
  - rewrite length_app. simpl. lia.
  - rewrite latest_app_above; [reflexivity|].
    intros y Hy. unfold new_review. cbn [review_id]. rewrite Hrt1.
    apply next_id_above. now apply in_map.
Qed.

Lemma verify_data_after_review_witness :
  latest_review_course (verify_data store_abc_4_2) = Some "CSE330"
  /\ review_count (verify_data store_abc_4_2) = 2%nat.
Proof.
  destruct (verify_data_after_review store_abc_4 1
              (request_all 2 (Some "gemini_analysis") "CSE330") 1
              store_abc_4_2
              (next_id (map review_id (review_table store_abc_4))))
    as [H1 H2].
  - vm_compute. reflexivity.
  - split; [exact H2 | exact H1].
Defined.

(* ================================================================== *)
(** * Further properties of the extraction *)

(** *** The case of letters *)

Lemma lower_twice c : App.lower (App.lower c) = App.lower c.
Proof. destruct c as [[] [] [] [] [] [] [] []]; reflexivity. Qed.

Lemma is_space_lower c : App.is_space (App.lower c) = App.is_space c.
Proof. destruct c as [[] [] [] [] [] [] [] []]; reflexivity. Qed.

Lemma is_digit_or_dot_lower c :
  App.is_digit_or_dot (App.lower c) = App.is_digit_or_dot c.
Proof. destruct c as [[] [] [] [] [] [] [] []]; reflexivity. Qed.

Lemma is_dot_lower c : App.is_dot (App.lower c) = App.is_dot c.
Proof. destruct c as [[] [] [] [] [] [] [] []]; reflexivity. Qed.

Lemma digit_or_dot_no_case c :
  App.is_digit_or_dot c = true -> App.lower c = c.
Proof.
  destruct c as [[] [] [] [] [] [] [] []]; vm_compute; intros H;
    (reflexivity || discriminate H).
Qed.

Lemma once_fold_case cls grp k k' :
  (forall c, cls (App.lower c) = cls c) ->
  (grp = true -> forall c, cls c = true -> App.lower c = c) ->
  (forall s, k s = k' (fold_case s)) ->
  forall s, App.once cls grp k s = App.once cls grp k' (fold_case s).
Proof.
  intros Hc Hg Hk [|c s]; simpl; [reflexivity|].
  rewrite Hc. destruct (cls c) eqn:E; [|reflexivity].
  rewrite <- Hk. destruct grp; simpl; [|reflexivity].
  now rewrite (Hg eq_refl c E).
Qed.

Lemma greedy_star_fold_case cls grp k k' :
  (forall c, cls (App.lower c) = cls c) ->
  (grp = true -> forall c, cls c = true -> App.lower c = c) ->
  (forall s, k s = k' (fold_case s)) ->
  forall s,
    App.greedy_star cls grp k s = App.greedy_star cls grp k' (fold_case s).
Proof.
  intros Hc Hg Hk. induction s as [|c s IH]; simpl.
  - exact (Hk EmptyString).
  - rewrite Hc, <- IH.
    change (String (App.lower c) (fold_case s))
      with (fold_case (String c s)).
    rewrite <- Hk.
    destruct (cls c) eqn:E; [|reflexivity].
    destruct (App.greedy_star cls grp k s); [|reflexivity].
    destruct grp; simpl; [|reflexivity].
    now rewrite (Hg eq_refl c E).
Qed.

Lemma lazy_star_fold_case cls grp k k' :
  (forall c, cls (App.lower c) = cls c) ->
  (grp = true -> forall c, cls c = true -> App.lower c = c) ->
  (forall s, k s = k' (fold_case s)) ->
  forall s,
    App.lazy_star cls grp k s = App.lazy_star cls grp k' (fold_case s).
Proof.
  intros Hc Hg Hk. induction s as [|c s IH]; simpl.
  - now rewrite (Hk EmptyString).
  - change (String (App.lower c) (fold_case s))
      with (fold_case (String c s)).
    rewrite <- Hk, Hc, <- IH.
    destruct (k (String c s)); [reflexivity|].
    destruct (cls c) eqn:E; [|reflexivity].
    destruct grp; simpl; [|reflexivity].
    now rewrite (Hg eq_refl c E).
Qed.

Lemma match_here_fold_case p :
  Forall case_blind p ->
  forall s, App.match_here p s = App.match_here p (fold_case s).
Proof.
  induction 1 as [|a p [Hc Hg] _ IH]; intros s; [reflexivity|].
  simpl. destruct (App.a_quant a).
  - now apply once_fold_case.
  - now apply greedy_star_fold_case.
  - apply once_fold_case; auto. now apply greedy_star_fold_case.
  - now apply lazy_star_fold_case.
Qed.

Lemma re_search_fold_case p :
  Forall case_blind p ->
  forall s, App.re_search p s = App.re_search p (fold_case s).
Proof.
  intros Hp. induction s as [|c s IH].
  - reflexivity.
  - cbn [App.re_search fold_case].
    change (String (App.lower c) (fold_case s))
      with (fold_case (String c s)).
    rewrite <- (match_here_fold_case p Hp), <- IH. reflexivity.
Qed.

Lemma literal_case_blind s : Forall case_blind (App.literal s).
Proof.
  induction s as [|c s IH]; simpl; constructor; auto.
  split; simpl; [|discriminate].
  intros x. unfold App.ci. now rewrite lower_twice.
Qed.

Lemma number_over_5_case_blind : Forall case_blind App.number_over_5.
Proof.
  unfold App.number_over_5. repeat constructor; simpl;
    try discriminate; intros.
  - apply is_space_lower.
  - apply is_digit_or_dot_lower.
  - now apply digit_or_dot_no_case.
  - unfold App.ci. now rewrite lower_twice.
  - unfold App.ci. now rewrite lower_twice.
Qed.

Lemma labelled_case_blind label : Forall case_blind (App.labelled label).
Proof.
  unfold App.labelled. rewrite !Forall_app.
  auto using literal_case_blind, number_over_5_case_blind.
Qed.

Lemma overall_pattern_case_blind : Forall case_blind App.overall_pattern.
Proof.
  unfold App.overall_pattern. rewrite !Forall_app.
  repeat split;
    auto using literal_case_blind, number_over_5_case_blind.
  constructor; [|constructor].
  split; simpl; [apply is_dot_lower | discriminate].
Qed.

Lemma extract_ratings_fold_case text :
  App.extract_ratings text = App.extract_ratings (fold_case text).
Proof.
  unfold App.extract_ratings.
  rewrite (re_search_fold_case App.effectiveness_pattern
             (labelled_case_blind _) text).
  rewrite (re_search_fold_case App.engagement_pattern
             (labelled_case_blind _) text).
  rewrite (re_search_fold_case App.clarity_pattern
             (labelled_case_blind _) text).
  rewrite (re_search_fold_case App.professionalism_pattern
             (labelled_case_blind _) text).
  rewrite (re_search_fold_case App.overall_pattern
             overall_pattern_case_blind text).
  reflexivity.
Qed.

(** X14.  The extraction does not see the case of ASCII letters: two
    responses that differ only in the case of letters give the same
    ratings, or both raise. *)
Theorem extraction_ignores_case text text' :
  fold_case text = fold_case text' ->
  App.analyze_images_with_gemini text = App.analyze_images_with_gemini text'.
Proof.
  intros H. unfold App.analyze_images_with_gemini.
  rewrite (extract_ratings_fold_case text), H.
  symmetry. apply extract_ratings_fold_case.
Qed.

Lemma extraction_ignores_case_witness :
  App.analyze_images_with_gemini "teaching EFFECTIVENESS: 4.5/5"
  = App.analyze_images_with_gemini "Teaching effectiveness: 4.5/5".
Proof. apply extraction_ignores_case. reflexivity. Defined.

(** *** The sign of an extracted rating *)

Lemma digits_val_nonneg s : forall acc,
  (0 <= acc)%Z -> (0 <= App.digits_val acc s)%Z.
Proof.
  induction s as [|c s IH]; cbn [App.digits_val]; intros acc H; [exact H|].
  apply IH. unfold App.digit_val.
  pose proof (Nat2Z.is_nonneg (App.code c - 48)) as Hd.
  generalize dependent (Z.of_nat (App.code c - 48)). intros d Hd. lia.
Qed.

Lemma py_float_nonneg tok q : App.py_float tok = Some q -> (0 <= q)%Q.
Proof.
  unfold App.py_float. destruct (App.split_dot tok) as [ip rest].
  destruct (_ && _); [|discriminate]. intros [= <-].
  apply Qle_shift_div_l.
  - change 0%Q with (inject_Z 0). rewrite <- Zlt_Qlt.
    apply Z.pow_pos_nonneg; lia.
  - rewrite Qmult_0_l. change 0%Q with (inject_Z 0). rewrite <- Zle_Qle.
    apply digits_val_nonneg. lia.
Qed.

Lemma from_match_nonneg m o q :
  App.from_match m = Some o -> o = Some q -> (0 <= q)%Q.
Proof.
  destruct m as [tok|]; simpl; [|now intros [= <-]].
  destruct (App.py_float tok) as [x|] eqn:E; [|discriminate].
  simpl. intros [= <-] [= <-]. exact (py_float_nonneg _ _ E).
Qed.

Lemma not_none_nonneg l :
  Forall (fun e => forall q, e = Some q -> (0 <= q)%Q) l ->
  Forall (fun x => 0 <= x)%Q (App.not_none l).
Proof.
  induction 1 as [|[x|] l H _ IH]; simpl; auto.
Qed.

Lemma py_sum_nonneg xs : forall a,
  (0 <= a)%Q -> Forall (fun x => 0 <= x)%Q xs ->
  (0 <= fold_left Qplus xs a)%Q.
Proof.
  induction xs as [|x xs IH]; simpl; intros a Ha Hall; [exact Ha|].
  inversion Hall; subst. apply IH; [|assumption].
  change 0%Q with (0 + 0)%Q. now apply Qplus_le_compat.
Qed.

(** X15.  No entry of the extracted ratings is negative: the number of
    a match is read from digits and at most one dot, and the computed
    overall is an average of such numbers. *)
Theorem extracted_ratings_not_negative text r :
  App.extract_ratings text = Some r ->
  Forall (fun e => forall q, e = Some q -> (0 <= q)%Q) (entries r).
Proof.
  intros H. destruct (extract_ratings_Some _ _ H) as (H1 & H2 & H3 & H4 & H5).
  assert (Hsub : Forall (fun e => forall q, e = Some q -> (0 <= q)%Q)
                   [App.teaching_effectiveness r; App.student_engagement r;
                    App.clarity r; App.professionalism r]).
  { repeat constructor; intros q Hq;
      eauto using from_match_nonneg. }
  unfold entries.
  inversion Hsub as [|e1 l1 G1 Hs1]; subst.
  inversion Hs1 as [|e2 l2 G2 Hs2]; subst.
  inversion Hs2 as [|e3 l3 G3 Hs3]; subst.
  inversion Hs3 as [|e4 l4 G4 _]; subst.
  repeat (constructor; [assumption|]).
  constructor; [|constructor].
  intros q Hq.
  destruct (App.re_search App.overall_pattern text) as [tok|].
  - destruct (App.py_float tok) as [x|] eqn:E; [|discriminate].
    simpl in H5. rewrite Hq in H5. injection H5 as ->.
    exact (py_float_nonneg _ _ E).
  - rewrite Hq in H5. apply not_none_nonneg in Hsub.
    fold (parsed_sub_ratings r) in Hsub.
    destruct (parsed_sub_ratings r) as [|x xs] eqn:P; [discriminate|].
    injection H5 as ->.
    apply Qle_shift_div_l.
    + unfold len_Q. change 0%Q with (inject_Z 0). rewrite <- Zlt_Qlt.
      simpl List.length. lia.
    + rewrite Qmult_0_l. apply py_sum_nonneg; [apply Qle_refl | exact Hsub].
Qed.

Lemma extracted_ratings_not_negative_witness :
  exists r, App.extract_ratings response_4_3_2_5 = Some r
            /\ Forall (fun e => forall q, e = Some q -> (0 <= q)%Q) (entries r).
Proof.
  eexists. split.
  - vm_compute. reflexivity.
  - apply (extracted_ratings_not_negative response_4_3_2_5).
    vm_compute. reflexivity.
Defined.

(* ================================================================== *)
(** * Further properties of the [/analyze] route *)

Lemma add_faculty_review_known st fid rq now :
  (exists f, In f (faculty_table st) /\ id f = fid) ->
  exists st' rid, add_faculty_review st fid rq now = (st', review_added rid).
Proof.
  intros (f & Hf & Hid).
  destruct (get_faculty_exists st fid f Hf Hid) as [g Hg].
  unfold add_faculty_review. rewrite Hg.
  unfold insert_review. cbv beta iota zeta.
  destruct (update_faculty_ratings_total
              (mkStore (faculty_table st)
                 (review_table st ++ [new_review st fid rq now]))
              fid) as (s & Hs & _).
  rewrite Hs. eauto.
Qed.

Lemma get_or_create_faculty_row st n dept :
  exists f,
    In f (faculty_table (fst (get_or_create_faculty st n dept)))
    /\ id f = snd (get_or_create_faculty st n dept)
    /\ name f = n.
Proof.
  destruct (get_or_create_faculty_head st n dept) as (f & rest & Hn & Hid & _).
  exists f. assert (Hin : In f (faculty_named
                                  (fst (get_or_create_faculty st n dept)) n))
    by (rewrite Hn; now left).
  unfold faculty_named in Hin. apply filter_In in Hin as [Hin E].
  apply String.eqb_eq in E. auto.
Qed.

(** The three ways in which a request to [/analyze] ends: nothing is
    written; the faculty row is looked up or created and the review is
    refused; the review is added as well. *)
Lemma analyze_cases st nf cf fs text rec now :
  let n := upper (App.strip (match nf with Some v => v | None => "" end)) in
  let st1 := fst (get_or_create_faculty st n (Some "Computer Science")) in
  let fid := snd (get_or_create_faculty st n (Some "Computer Science")) in
  (exists res, Pipeline.analyze st nf cf fs text rec now = (st, res)
               /\ res <> Pipeline.analysis_returned
               /\ res <> Pipeline.failed_to_add_review)
  \/ (exists ratings,
        App.analyze_images_with_gemini text = Some ratings
        /\ Pipeline.review_request (Pipeline.read_course_codes cf) ratings
             text rec = None
        /\ Pipeline.analyze st nf cf fs text rec now
           = (st1, Pipeline.failed_to_add_review))
  \/ (exists ratings rq,
        App.analyze_images_with_gemini text = Some ratings
        /\ Pipeline.review_request (Pipeline.read_course_codes cf) ratings
             text rec = Some rq
        /\ Pipeline.analyze st nf cf fs text rec now
           = (fst (add_faculty_review st1 fid rq now),
              Pipeline.analysis_returned)).
Proof.
  intros n st1 fid. unfold Pipeline.analyze. cbv zeta. fold n.
  destruct (App.validate_faculty_name n);
    [|left; eexists; repeat split; discriminate ..].
  destruct fs as [|f0 fs]; [left; eexists; repeat split; discriminate|].
  destruct (Pipeline.MAX_FILES <? _)%nat;
    [left; eexists; repeat split; discriminate|].
  destruct (filter _ (f0 :: fs));
    [left; eexists; repeat split; discriminate|].
  destruct (App.analyze_images_with_gemini text) as [ratings|];
    [|left; eexists; repeat split; discriminate].
  destruct (String.eqb text "");
    [left; eexists; repeat split; discriminate|].
  unfold add_faculty.
  destruct (get_or_create_faculty_row st n (Some "Computer Science"))
    as (f & Hf & Hid & _).
  fold st1 in Hf. fold fid in Hid.
  assert (E : get_or_create_faculty st n (Some "Computer Science")
              = (st1, fid)) by (unfold st1, fid; now destruct get_or_create_faculty).
  rewrite E. cbv beta iota.
  destruct (Pipeline.review_request _ ratings text rec) as [rq|] eqn:R.
  - right; right. exists ratings, rq.
    split; [reflexivity|]. split; [exact R|].
    destruct (add_faculty_review_known st1 fid rq now) as (st2 & rid & H);
      [eauto|].
    now rewrite H.
  - right; left. exists ratings.
    split; [reflexivity|]. split; [exact R|reflexivity].
Qed.

Lemma review_request_Some codes ratings text rec rq :
  Pipeline.review_request codes ratings text rec = Some rq ->
  exists te se cl pr,
    App.teaching_effectiveness ratings = Some te
    /\ App.student_engagement ratings = Some se
    /\ App.clarity ratings = Some cl
    /\ App.professionalism ratings = Some pr
    /\ rq = mkRequest None None (hd "UNKNOWN" codes) te se cl pr
              (Some text) rec (Some "gemini_analysis").
Proof.
  unfold Pipeline.review_request.
  destruct (App.teaching_effectiveness ratings) as [te|]; [|discriminate].
  destruct (App.student_engagement ratings) as [se|]; [|discriminate].
  destruct (App.clarity ratings) as [cl|]; [|discriminate].
  destruct (App.professionalism ratings) as [pr|]; [|discriminate].
  intros [= <-]. exists te, se, cl, pr. repeat split.
Qed.

Lemma review_request_None codes ratings text rec :
  Pipeline.review_request codes ratings text rec = None ->
  In None [App.teaching_effectiveness ratings; App.student_engagement ratings;
           App.clarity ratings; App.professionalism ratings].
Proof.
  unfold Pipeline.review_request.
  destruct (App.teaching_effectiveness ratings); [|simpl; auto].
  destruct (App.student_engagement ratings); [|simpl; auto].
  destruct (App.clarity ratings); [|simpl; auto].
  destruct (App.professionalism ratings); [discriminate|simpl; auto].
Qed.

(** The store after [add_faculty_review] for an id of the table. *)
Lemma add_faculty_review_known_eq st fid rq now :
  rowid_order st ->
  (exists f, In f (faculty_table st) /\ id f = fid) ->
  fst (add_faculty_review st fid rq now)
  = mkStore
      (map (fun f => if (id f =? fid)%nat
                     then refresh (review_table st
                                   ++ [new_review st fid rq now]) f
                     else f)
         (faculty_table st))
      (review_table st ++ [new_review st fid rq now]).
Proof.
  intros Hs (f & Hf & Hid).
  destruct (get_faculty_exists st fid f Hf Hid) as [g Hg].
  unfold add_faculty_review. rewrite Hg.
  unfold insert_review. cbv beta iota zeta.
  rewrite update_faculty_ratings_table by exact Hs.
  reflexivity.
Qed.

Lemma filteredAverages_app_other (p : Review -> bool) l x tag :
  String.eqb (source_type x) tag = false ->
  Spec.filteredAverages (filter p (l ++ [x])) tag
  = Spec.filteredAverages (filter p l) tag.
Proof.
  intros H. unfold Spec.filteredAverages. cbv zeta.
  rewrite (filter_app p), filter_app. simpl (filter p [x]).
  destruct (p x); simpl (filter _ _); rewrite ?H, app_nil_r; reflexivity.
Qed.

(** X16.  A request to [/analyze] that answers the analysis has added
    exactly one review: it is tagged ['gemini_analysis'], carries the
    four extracted sub-ratings, the response text and the first course
    code (['UNKNOWN'] without one), and belongs to a row whose name is
    the stripped, upper-cased form field and whose review count was
    recomputed. *)
Theorem analyze_adds_one_review st nf cf fs text rec now st' :
  rowid_order st ->
  Pipeline.analyze st nf cf fs text rec now
  = (st', Pipeline.analysis_returned) ->
  exists ratings r f,
    App.analyze_images_with_gemini text = Some ratings
    /\ review_table st' = (review_table st ++ [r])%list
    /\ source_type r = "gemini_analysis"
    /\ course_code r = hd "UNKNOWN" (Pipeline.read_course_codes cf)
    /\ App.teaching_effectiveness ratings = Some (teaching_effectiveness r)
    /\ App.student_engagement ratings = Some (student_engagement r)
    /\ App.clarity ratings = Some (clarity r)
    /\ App.professionalism ratings = Some (professionalism r)
    /\ feedback r = Some text
    /\ In f (faculty_table st')
    /\ faculty_id r = Some (id f)
    /\ name f = upper (App.strip (match nf with Some v => v | None => "" end))
    /\ total_reviews f = List.length (reviews_of st' (id f)).
Proof.
  intros Hs H.
  destruct (analyze_cases st nf cf fs text rec now)
    as [(res & E & Hres & _) | [(ratings & _ & _ & E)
                               | (ratings & rq & Hx & Hrq & E)]];
    rewrite E in H.
  - injection H as _ Hr. congruence.
  - discriminate.
  - injection H as <-.
    set (n := upper (App.strip match nf with Some v => v | None => "" end))
      in *.
    destruct (get_or_create_faculty_row st n (Some "Computer Science"))
      as (f & Hf & Hid & Hname).
    destruct (get_or_create_faculty_head st n (Some "Computer Science"))
      as (_ & _ & _ & _ & Hrt).
    pose proof (get_or_create_faculty_order st n (Some "Computer Science") Hs)
      as Hs1.
    set (st1 := fst (get_or_create_faculty st n (Some "Computer Science")))
      in *.
    set (fid := snd (get_or_create_faculty st n (Some "Computer Science")))
      in *.
    rewrite (add_faculty_review_known_eq st1 fid rq now Hs1) by eauto.
    destruct (review_request_Some _ _ _ _ _ Hrq)
      as (te & se & cl & pr & H1 & H2 & H3 & H4 & ->).
    set (rq := mkRequest _ _ _ _ _ _ _ _ _ _) in *.
    set (r := new_review st1 fid rq now).
    set (rt := (review_table st1 ++ [r])%list).
    exists ratings, r, (refresh rt f).
    cbn [review_table faculty_table].
    split; [exact Hx|]. split; [unfold rt; now rewrite Hrt|].
    split; [reflexivity|]. split; [reflexivity|].
    split; [exact H1|]. split; [exact H2|]. split; [exact H3|].
    split; [exact H4|]. split; [reflexivity|].
    split.
    { apply in_map_iff. exists f. split; [|exact Hf].
      rewrite Hid. now rewrite Nat.eqb_refl. }
    split; [rewrite refresh_id, Hid; reflexivity|].
    assert (Hne : In r (filter (fun x => owner_is (id f) x) rt)).
    { apply filter_In. split.
      - unfold rt. apply in_or_app. right. now left.
      - rewrite Hid. unfold r. rewrite owner_is_new_review.
        apply Nat.eqb_refl. }
    unfold reviews_of. cbn [review_table]. rewrite refresh_id.
    unfold refresh.
    destruct (filter (fun x => owner_is (id f) x) rt) as [|x xs];
      [destruct Hne|].
    split; [exact Hname | reflexivity].
Qed.

Lemma analyze_adds_one_review_witness :
  exists ratings r f,
    App.analyze_images_with_gemini response_4_3_2_5 = Some ratings
    /\ review_table
         (fst (Pipeline.analyze store_abc_4 (Some " abc ") ["cse110 "]
                 ["shot.png"] response_4_3_2_5 None 7))
       = (review_table store_abc_4 ++ [r])%list
    /\ source_type r = "gemini_analysis"
    /\ course_code r = "CSE110"
    /\ name f = "ABC".
Proof.
  destruct (analyze_adds_one_review store_abc_4 (Some " abc ") ["cse110 "]
              ["shot.png"] response_4_3_2_5 None 7
              (fst (Pipeline.analyze store_abc_4 (Some " abc ") ["cse110 "]
                      ["shot.png"] response_4_3_2_5 None 7)))
    as (ratings & r & f & H1 & H2 & H3 & H4 & _ & _ & _ & _ & _ & _ & _
        & H5 & _).
  - repeat constructor.
  - vm_compute. reflexivity.
  - exists ratings, r, f. repeat split; assumption.
Defined.

(** X17.  Whatever a request to [/analyze] does, the filtered view of
    [average_ratings] is the same before and after it for every faculty
    id: the review it stores is tagged ['gemini_analysis'], which the
    view does not count. *)
Theorem view_ignores_analyze st nf cf fs text rec now fid :
  average_ratings
    (reviews_of (fst (Pipeline.analyze st nf cf fs text rec now)) fid)
  = average_ratings (reviews_of st fid).
Proof.
  set (n := upper (App.strip match nf with Some v => v | None => "" end)).
  destruct (get_or_create_faculty_head st n (Some "Computer Science"))
    as (_ & _ & _ & _ & Hrt).
  destruct (analyze_cases st nf cf fs text rec now)
    as [(res & E & _) | [(ratings & _ & _ & E)
                        | (ratings & rq & _ & Hrq & E)]];
    rewrite E; cbn [fst]; fold n.
  - reflexivity.
  - unfold reviews_of. fold n in Hrt. now rewrite Hrt.
  - fold n in Hrt.
    set (st1 := fst (get_or_create_faculty st n (Some "Computer Science")))
      in *.
    set (k := snd (get_or_create_faculty st n (Some "Computer Science"))).
    destruct (add_faculty_review_known st1 k rq now) as (st2 & rid & H).
    { destruct (get_or_create_faculty_row st n (Some "Computer Science"))
        as (f & Hf & Hid & _). eauto. }
    rewrite H. cbn [fst].
    destruct (add_faculty_review_appends _ _ _ _ _ _ H)
      as (s & owner & Hrt2 & Hrs & _).
    destruct (review_request_Some _ _ _ _ _ Hrq)
      as (te & se & cl & pr & _ & _ & _ & _ & Erq).
    unfold average_ratings. rewrite !average_ratings_for_filtered.
    unfold reviews_of. rewrite Hrt2, Hrt.
    apply filteredAverages_app_other.
    unfold new_review. cbn [source_type].
    rewrite Erq. reflexivity.
Qed.

(** X18.  A request to [/analyze] that does not answer the analysis
    adds no review.  It leaves the whole store as it was unless the
    answer is 'Failed to add review'; then a sub-rating is missing from
    the extracted ratings, and the store holds a row with the
    requested name. *)
Theorem analyze_failure_adds_no_review st nf cf fs text rec now st' res :
  Pipeline.analyze st nf cf fs text rec now = (st', res) ->
  res <> Pipeline.analysis_returned ->
  review_table st' = review_table st
  /\ (res <> Pipeline.failed_to_add_review -> st' = st)
  /\ (res = Pipeline.failed_to_add_review ->
      (exists ratings,
          App.analyze_images_with_gemini text = Some ratings
          /\ In None [App.teaching_effectiveness ratings;
                      App.student_engagement ratings;
                      App.clarity ratings; App.professionalism ratings])
      /\ exists f,
          In f (faculty_table st')
          /\ name f
             = upper (App.strip (match nf with Some v => v | None => "" end))).
Proof.
  intros H Hres.
  set (n := upper (App.strip match nf with Some v => v | None => "" end)).
  destruct (analyze_cases st nf cf fs text rec now)
    as [(res0 & E & _ & Hno) | [(ratings & Hx & Hrq & E)
                               | (ratings & rq & _ & _ & E)]];
    rewrite E in H; injection H as <- <-.
  - repeat split; congruence.
  - fold n.
    destruct (get_or_create_faculty_head st n (Some "Computer Science"))
      as (_ & _ & _ & _ & Hrt).
    destruct (get_or_create_faculty_row st n (Some "Computer Science"))
      as (f & Hf & _ & Hname).
    split; [exact Hrt|]. split; [congruence|]. intros _. split.
    + exists ratings. split; [exact Hx|].
      exact (review_request_None _ _ _ _ Hrq).
    + eauto.
  - congruence.
Qed.

Lemma analyze_failure_adds_no_review_witness :
  review_table
    (fst (Pipeline.analyze store_abc_4 (Some "xyz") [] ["shot.png"]
            "Teaching effectiveness: 4/5" None 7))
  = review_table store_abc_4
  /\ exists f,
       In f (faculty_table
               (fst (Pipeline.analyze store_abc_4 (Some "xyz") []
                       ["shot.png"] "Teaching effectiveness: 4/5" None 7)))
       /\ name f = "XYZ".
Proof.
  destruct (analyze_failure_adds_no_review store_abc_4 (Some "xyz") []
              ["shot.png"] "Teaching effectiveness: 4/5" None 7
              (fst (Pipeline.analyze store_abc_4 (Some "xyz") []
                      ["shot.png"] "Teaching effectiveness: 4/5" None 7))
              Pipeline.failed_to_add_review)
    as (H1 & _ & H3).
  - vm_compute. reflexivity.
  - discriminate.
  - split; [exact H1|]. exact (proj2 (H3 eq_refl)).
Defined.

(* ================================================================== *)
(** * Further properties of the routes that read *)

(** X19.  [get_all_faculty] has one entry for every row of the faculty
    table, and the entry of a row is what [get_faculty_details] answers
    for the id of the row: the same id, the same filtered averages and
    the same number of reviews. *)
Theorem get_all_faculty_agrees_with_details st :
  List.length (get_all_faculty st) = List.length (faculty_table st)
  /\ Forall
       (fun e =>
          exists d, get_faculty_details st (fst (fst e)) = Some d
                    /\ e = (d_id d, d_ratings d, d_total_reviews d))
       (get_all_faculty st).
Proof.
  unfold get_all_faculty. split; [apply length_map|].
  apply Forall_forall. intros e He.
  apply in_map_iff in He as (f & <- & Hf). cbn [fst].
  destruct (get_faculty_exists st (id f) f Hf eq_refl) as [g Hg].
  pose proof (get_faculty_id _ _ _ Hg) as Hid.
  unfold get_faculty_details. rewrite Hg, Hid.
  eexists. split; reflexivity.
Qed.

(** *** The combined reviews of a name *)

Lemma insert_desc_perm x rows : Permutation (insert_desc x rows) (x :: rows).
Proof.
  induction rows as [|y rows IH]; simpl; [reflexivity|].
  destruct (created_at y <=? created_at x)%nat; [reflexivity|].
  rewrite IH. apply perm_swap.
Qed.

Lemma sorted_desc_perm rows : Permutation (sorted_desc rows) rows.
Proof.
  induction rows as [|x rows IH]; simpl; [reflexivity|].
  rewrite insert_desc_perm. now constructor.
Qed.

Lemma insert_desc_newest_first x rows :
  newest_first rows -> newest_first (insert_desc x rows).
Proof.
  unfold newest_first.
  induction rows as [|y rows IH]; simpl; intros Hs.
  - repeat constructor.
  - inversion Hs as [|y' rows' Hs' Hall]; subst.
    destruct (created_at y <=? created_at x)%nat eqn:E.
    + apply Nat.leb_le in E. constructor; [exact Hs|].
      constructor; [exact E|].
      rewrite Forall_forall in *. intros z Hz.
      specialize (Hall z Hz). lia.
    + apply Nat.leb_gt in E. constructor; [now apply IH|].
      apply (Permutation_Forall (Permutation_sym (insert_desc_perm x rows))).
      constructor; [lia | exact Hall].
Qed.

Lemma sorted_desc_newest_first rows : newest_first (sorted_desc rows).
Proof.
  induction rows as [|x rows IH]; simpl.
  - constructor.
  - now apply insert_desc_newest_first.
Qed.

(** X20.  The answer of [get_faculty_reviews] lists every review of
    every row with the upper-cased name exactly once, newest first, and
    [total_reviews] is the number of reviews listed. *)
Theorem get_faculty_reviews_lists_all st n v :
  get_faculty_reviews st n = Some v ->
  Permutation (c_reviews v) (all_reviews st (faculty_named st (upper n)))
  /\ newest_first (c_reviews v)
  /\ c_total_reviews v = List.length (c_reviews v)
  /\ c_name v = upper n.
Proof.
  unfold get_faculty_reviews.
  destruct (faculty_named st (upper n)) as [|f rest]; [discriminate|].
  intros [= <-]. cbn [c_reviews c_total_reviews c_name].
  split; [apply sorted_desc_perm|].
  split; [apply sorted_desc_newest_first|].
  split; [|reflexivity].
  symmetry. apply Permutation_length, sorted_desc_perm.
Qed.

Lemma get_faculty_reviews_lists_all_witness :
  exists v,
    get_faculty_reviews store_abc_4_2 "abc" = Some v
    /\ c_total_reviews v = 2%nat
    /\ newest_first (c_reviews v).
Proof.
  eexists. split; [vm_compute; reflexivity|].
  match goal with
  | |- c_total_reviews ?v = _ /\ _ =>
      destruct (get_faculty_reviews_lists_all store_abc_4_2 "abc" v)
        as (_ & H2 & H3 & _)
  end.
  - vm_compute. reflexivity.
  - split; [reflexivity | exact H2].
Defined.

(** X21.  [get_ard_reviews] answers what [get_faculty_reviews] answers
    for a name whose upper case is ["ARD"], except that the department
    is the literal ['Computer Science'] and not the department of the
    first row. *)
Theorem get_ard_reviews_is_get_faculty_reviews st n :
  upper n = "ARD" ->
  get_ard_reviews st
  = option_map
      (fun v => mkCombined (c_name v) (Some "Computer Science")
                  (c_total_reviews v) (c_average_ratings v) (c_reviews v))
      (get_faculty_reviews st n).
Proof.
  intros H. unfold get_ard_reviews, get_faculty_reviews. rewrite H.
  now destruct (faculty_named st "ARD").
Qed.

Lemma get_ard_reviews_is_get_faculty_reviews_witness :
  get_ard_reviews store_three_ard
  = option_map
      (fun v => mkCombined (c_name v) (Some "Computer Science")
                  (c_total_reviews v) (c_average_ratings v) (c_reviews v))
      (get_faculty_reviews store_three_ard "Ard").
Proof. apply get_ard_reviews_is_get_faculty_reviews. reflexivity. Defined.

(* ================================================================== *)
(** * Properties of [cleanup_database] *)

Lemma same_text_iff a b : Cleanup.same_text a b = true <-> a = b.
Proof.
  destruct a as [x|], b as [y|]; simpl; try (split; congruence).
  rewrite String.eqb_eq. split; congruence.
Qed.

Lemma same_group_iff a b :
  Cleanup.same_group a b = true <->
  course_code a = course_code b
  /\ (teaching_effectiveness a == teaching_effectiveness b)%Q
  /\ (student_engagement a == student_engagement b)%Q
  /\ (clarity a == clarity b)%Q
  /\ (professionalism a == professionalism b)%Q
  /\ feedback a = feedback b.
Proof.
  unfold Cleanup.same_group.
  rewrite !andb_true_iff, !Qeq_bool_iff, String.eqb_eq, same_text_iff.
  tauto.
Qed.

Lemma same_group_refl a : Cleanup.same_group a a = true.
Proof. apply same_group_iff. repeat split; reflexivity. Qed.

Lemma same_group_sym a b :
  Cleanup.same_group a b = true -> Cleanup.same_group b a = true.
Proof.
  rewrite !same_group_iff. intros (H1 & H2 & H3 & H4 & H5 & H6).
  repeat split; auto; now symmetry.
Qed.

Lemma same_group_trans a b c :
  Cleanup.same_group a b = true -> Cleanup.same_group b c = true ->
  Cleanup.same_group a c = true.
Proof.
  rewrite !same_group_iff.
  intros (H1 & H2 & H3 & H4 & H5 & H6) (G1 & G2 & G3 & G4 & G5 & G6).
  repeat split; try congruence; eapply Qeq_trans; eauto.
Qed.

Lemma fold_min_le l d :
  fold_right (fun x m => Nat.min (review_id x) m) d l <= d
  /\ forall x, In x l ->
       fold_right (fun x m => Nat.min (review_id x) m) d l <= review_id x.
Proof.
  induction l as [|y l [IH1 IH2]]; simpl.
  - split; [lia | intros x []].
  - split; [lia|]. intros x [<-|Hx]; [lia|].
    specialize (IH2 x Hx). lia.
Qed.

Lemma fold_min_attained l d :
  fold_right (fun x m => Nat.min (review_id x) m) d l = d
  \/ exists x, In x l
       /\ review_id x = fold_right (fun x m => Nat.min (review_id x) m) d l.
Proof.
  induction l as [|y l IH]; simpl; [now left|].
  destruct (Nat.min_spec (review_id y)
              (fold_right (fun x m => Nat.min (review_id x) m) d l))
    as [[_ E]|[_ E]]; rewrite E.
  - right. exists y. auto.
  - destruct IH as [IH|(x & Hx & Ex)]; [now left|].
    right. exists x. auto.
Qed.

(** [min_id] is the id of a row of the group, and no row of the group
    has a smaller one. *)
Lemma min_id_least r rows :
  In r rows ->
  (exists x, In x rows /\ Cleanup.same_group r x = true
             /\ review_id x = Cleanup.min_id r rows)
  /\ (forall x, In x rows -> Cleanup.same_group r x = true ->
                Cleanup.min_id r rows <= review_id x).
Proof.
  intros Hr. unfold Cleanup.min_id. split.
  - destruct (fold_min_attained (filter (Cleanup.same_group r) rows)
                (review_id r)) as [E|(x & Hx & Ex)].
    + exists r. rewrite E. auto using same_group_refl.
    + apply filter_In in Hx as [Hx Hg]. eauto.
  - intros x Hx Hg. apply fold_min_le. apply filter_In. auto.
Qed.

Lemma min_id_of_least r rows :
  In r rows ->
  (forall x, In x rows -> Cleanup.same_group r x = true ->
             review_id r <= review_id x) ->
  Cleanup.min_id r rows = review_id r.
Proof.
  intros Hr Hle.
  destruct (min_id_least r rows Hr) as [(x & Hx & Hg & Ex) Hmin].
  specialize (Hle x Hx Hg). specialize (Hmin r Hr (same_group_refl r)). lia.
Qed.

Lemma review_id_inj rows a b :
  NoDup (map review_id rows) -> In a rows -> In b rows ->
  review_id a = review_id b -> a = b.
Proof.
  induction rows as [|x rows IH]; simpl; intros Hnd Ha Hb E; [destruct Ha|].
  inversion Hnd as [|k ks Hnot Hnd']; subst.
  destruct Ha as [<-|Ha], Hb as [<-|Hb]; auto.
  - exfalso. apply Hnot. rewrite E. now apply in_map.
  - exfalso. apply Hnot. rewrite <- E. now apply in_map.
Qed.

(** The rows that [cleanup_database] keeps. *)
Lemma cleanup_kept st r :
  In r (review_table (Cleanup.cleanup_database st)) <->
  In r (review_table st)
  /\ (Cleanup.is_screenshot r = false
      \/ exists y, In y (filter Cleanup.is_screenshot (review_table st))
                   /\ review_id r
                      = Cleanup.min_id y
                          (filter Cleanup.is_screenshot (review_table st))).
Proof.
  unfold Cleanup.cleanup_database, Cleanup.temp_reviews.
  cbn [review_table]. rewrite filter_In.
  set (tagged := filter Cleanup.is_screenshot (review_table st)).
  split; intros [Hr H]; (split; [exact Hr|]).
  - destruct (Cleanup.is_screenshot r); [|now left]. right.
    simpl in H. apply negb_true_iff, negb_false_iff in H.
    apply existsb_exists in H as (k & Hk & E).
    apply Nat.eqb_eq in E. subst k.
    apply nodup_In, in_map_iff in Hk as (y & Ey & Hy). eauto.
  - destruct H as [H|(y & Hy & E)]; [now rewrite H|].
    apply negb_true_iff, andb_false_iff. right.
    apply negb_false_iff, existsb_exists. exists (review_id r).
    split; [|apply Nat.eqb_refl].
    apply nodup_In, in_map_iff. exists y. auto.
Qed.

(** A tagged row that is kept has the least id of its group. *)
Lemma cleanup_kept_least st r x :
  review_ids_unique st ->
  In r (review_table (Cleanup.cleanup_database st)) ->
  Cleanup.is_screenshot r = true ->
  In x (review_table st) -> Cleanup.is_screenshot x = true ->
  Cleanup.same_group r x = true ->
  review_id r <= review_id x.
Proof.
  intros Hnd Hr Hs Hx Hsx Hg.
  apply cleanup_kept in Hr as [Hr [H|(y & Hy & E)]]; [congruence|].
  destruct (min_id_least y _ Hy) as [(z & Hz & Hyz & Ez) Hmin].
  assert (z = r).
  { apply (review_id_inj (review_table st)); auto; try congruence.
    now apply filter_In in Hz. }
  subst z. rewrite E. apply Hmin.
  - apply filter_In. auto.
  - eapply same_group_trans; eauto.
Qed.

Lemma filter_filter_implied {A} (p q : A -> bool) l :
  (forall x, p x = true -> q x = true) ->
  filter p (filter q l) = filter p l.
Proof.
  intros H. induction l as [|a l IH]; simpl; [reflexivity|].
  destruct (q a) eqn:Q; simpl.
  - destruct (p a); congruence.
  - destruct (p a) eqn:P; [|exact IH].
    apply H in P. congruence.
Qed.

(** X22.  After [cleanup_database] no two reviews tagged
    ['screenshot_analysis'] have the same course code, ratings and
    feedback: of every group the script keeps one row. *)
Theorem cleanup_database_leaves_no_repetition st a b :
  review_ids_unique st ->
  In a (review_table (Cleanup.cleanup_database st)) ->
  In b (review_table (Cleanup.cleanup_database st)) ->
  Cleanup.is_screenshot a = true ->
  Cleanup.is_screenshot b = true ->
  Cleanup.same_group a b = true ->
  a = b.
Proof.
  intros Hnd Ha Hb Hsa Hsb Hg.
  assert (Ha' : In a (review_table st)) by (now apply cleanup_kept in Ha).
  assert (Hb' : In b (review_table st)) by (now apply cleanup_kept in Hb).
  pose proof (cleanup_kept_least st a b Hnd Ha Hsa Hb' Hsb Hg) as H1.
  pose proof (cleanup_kept_least st b a Hnd Hb Hsb Ha' Hsa
                (same_group_sym _ _ Hg)) as H2.
  apply (review_id_inj (review_table st)); auto. lia.
Qed.

Lemma cleanup_database_leaves_no_repetition_witness :
  review_table (Cleanup.cleanup_database store_repeated)
  = [sample_review 1 1 "CSE110" 4 "screenshot_analysis";
     sample_review 4 1 "CSE110" 4 "gemini_analysis"]
  /\ sample_review 1 1 "CSE110" 4 "screenshot_analysis"
     = sample_review 1 1 "CSE110" 4 "screenshot_analysis".
Proof.
  split; [vm_compute; reflexivity|].
  apply (cleanup_database_leaves_no_repetition store_repeated).
  - unfold review_ids_unique. vm_compute.
    repeat constructor; simpl; intuition discriminate.
  - vm_compute. auto.
  - vm_compute. auto.
  - reflexivity.
  - reflexivity.
  - reflexivity.
Defined.

(** X23.  [cleanup_database] loses no content: the faculty table and
    the reviews with another tag stay as they are, it adds no review,
    and for every review there was a review with the same course code,
    ratings and feedback is left. *)
Theorem cleanup_database_keeps_content st :
  faculty_table (Cleanup.cleanup_database st) = faculty_table st
  /\ filter (fun r => negb (Cleanup.is_screenshot r))
       (review_table (Cleanup.cleanup_database st))
     = filter (fun r => negb (Cleanup.is_screenshot r)) (review_table st)
  /\ incl (review_table (Cleanup.cleanup_database st)) (review_table st)
  /\ Forall
       (fun r =>
          exists r', In r' (review_table (Cleanup.cleanup_database st))
                     /\ Cleanup.same_group r r' = true
                     /\ source_type r' = source_type r)
       (review_table st).
Proof.
  split; [reflexivity|]. split; [|split].
  - unfold Cleanup.cleanup_database. cbn [review_table].
    apply filter_filter_implied. intros r Hr.
    apply negb_true_iff in Hr. now rewrite Hr.
  - intros r Hr. now apply cleanup_kept in Hr.
  - apply Forall_forall. intros r Hr.
    destruct (Cleanup.is_screenshot r) eqn:Hs.
    + assert (Ht : In r (filter Cleanup.is_screenshot (review_table st)))
        by (apply filter_In; auto).
      destruct (min_id_least r _ Ht) as [(z & Hz & Hg & Ez) _].
      exists z. split; [|split; [exact Hg|]].
      * apply cleanup_kept. apply filter_In in Hz as [Hz Hsz].
        split; [exact Hz|]. right. exists r. auto.
      * apply filter_In in Hz as [_ Hsz].
        unfold Cleanup.is_screenshot in *.
        apply String.eqb_eq in Hs, Hsz. congruence.
    + exists r. split; [|split; [apply same_group_refl | reflexivity]].
      apply cleanup_kept. auto.
Qed.

(** X24.  Running [cleanup_database] a second time deletes nothing. *)
Theorem cleanup_database_twice st :
  review_ids_unique st ->
  Cleanup.cleanup_database (Cleanup.cleanup_database st)
  = Cleanup.cleanup_database st.
Proof.
  intros Hnd.
  set (st1 := Cleanup.cleanup_database st).
  assert (Hall : forall r, In r (review_table st1) ->
                           In r (review_table (Cleanup.cleanup_database st1))).
  { intros r Hr. apply cleanup_kept. split; [exact Hr|].
    destruct (Cleanup.is_screenshot r) eqn:Hs; [right | now left].
    assert (Ht : In r (filter Cleanup.is_screenshot (review_table st1)))
      by (apply filter_In; auto).
    exists r. split; [exact Ht|]. symmetry.
    apply min_id_of_least; [exact Ht|].
    intros x Hx Hg. apply filter_In in Hx as [Hx Hsx].
    apply (cleanup_kept_least st r x); auto.
    now apply cleanup_kept in Hx. }
  transitivity (mkStore (faculty_table st1) (review_table st1));
    [|reflexivity].
  unfold Cleanup.cleanup_database at 1. f_equal.
  apply filter_all. intros r Hr.
  specialize (Hall r Hr).
  unfold Cleanup.cleanup_database in Hall at 1.
  cbn [review_table] in Hall.
  now apply filter_In in Hall.
Qed.

Lemma cleanup_database_twice_witness :
  Cleanup.cleanup_database (Cleanup.cleanup_database store_repeated)
  = Cleanup.cleanup_database store_repeated.
Proof.
  apply cleanup_database_twice.
  unfold review_ids_unique. vm_compute.
  repeat constructor; simpl; intuition discriminate.
Defined.
